(** * dbt Cloud Terraform provider: job and connection reconcilers

    A shallow embedding of [pkg/resources/job.go] and of the connection
    resource of the provider, with the properties of the composite
    identifier codec and of the Create/Read/Update/Delete handlers. *)

From Stdlib Require Import ZArith Decimal DecimalString DecimalZ Ascii String List.
From stdpp Require Import base decidable option list strings gmap fin_maps.

Local Open Scope Z_scope.
Local Open Scope string_scope.

(** ** Go primitives used by the handlers *)

Module Go.

(** [strconv.Itoa] and the [%d] verb of [fmt.Sprintf]: the decimal
    rendering of an integer, with a leading minus sign when negative. *)
Definition Itoa (z : Z) : string := NilEmpty.string_of_int (Z.to_int z).

(** Reading a decimal rendering back (the inverse direction of [Itoa]). *)
Definition ParseInt (s : string) : option Z :=
  match s with
  | EmptyString => None
  | _ => option_map Z.of_int (NilEmpty.int_of_string s)
  end.

(** [strings.HasPrefix s p]. *)
Fixpoint HasPrefix (s p : string) {struct p} : bool :=
  match p, s with
  | EmptyString, _ => true
  | String _ _, EmptyString => false
  | String b p', String a s' => if Ascii.eqb a b then HasPrefix s' p' else false
  end.

(** [strings.Split s sep] for a non-empty separator: the pieces of [s]
    between the non-overlapping occurrences of [sep], found from the
    left; [n] occurrences give [n + 1] pieces.  [skip] counts the bytes
    of a matched separator that remain to be dropped, [cur] is the piece
    being read, in reverse. *)
Fixpoint splitFrom (sep : string) (skip : nat) (cur : list ascii) (s : string)
  : list string :=
  match s with
  | EmptyString => [string_of_list_ascii (rev cur)]
  | String a s' =>
      match skip with
      | S k => splitFrom sep k cur s'
      | O =>
          if HasPrefix s sep
          then string_of_list_ascii (rev cur)
                 :: splitFrom sep (String.length sep - 1) [] s'
          else splitFrom sep O (a :: cur) s'
      end
  end.

(** With an empty separator Go splits after each character. *)
Definition Split (s sep : string) : list string :=
  match sep with
  | EmptyString => map (fun a => String a EmptyString) (list_ascii_of_string s)
  | _ => splitFrom sep O [] s
  end.

(** [strings.Contains s sep]. *)
Fixpoint Contains (s sep : string) : bool :=
  HasPrefix s sep ||
  match s with
  | EmptyString => false
  | String _ s' => Contains s' sep
  end.

End Go.

(** ** Constants of the client package *)

(** Modelled from the spec: the constant [dbt_cloud.ID_DELIMITER] is declared
    in the client package, which is not part of the sources at hand; the
    spec's import scenario gives the identifier ["42:7"] "with delimiter
    [:]". *)
Definition ID_DELIMITER : string := ":".

(** Modelled from the spec: [dbt_cloud.STATE_ACTIVE] and
    [dbt_cloud.STATE_DELETED], the "deleted" sentinel, are declared in the
    client package; the values are those of the schema description of the
    state attribute ("1 = active, 2 = deleted"), and the job's Read compares
    the state with the literal [1]. *)
Definition STATE_ACTIVE : Z := 1.
Definition STATE_DELETED : Z := 2.

(** ** Outcomes

    A Go expression evaluates to a value, or the goroutine panics (index out
    of range, failed type assertion, nil dereference). *)
Inductive Eval (A : Type) : Type :=
| Done (a : A)
| Panics (msg : string).
Arguments Done {A} a.
Arguments Panics {A} msg.

(** Indexing a slice: [l[i]] panics when [i] is out of range. *)
Definition index {A} (l : list A) (i : nat) : Eval A :=
  match l !! i with
  | Some a => Done a
  | None => Panics "index out of range"
  end.

(** ** Composite identifier codec *)

Module CompositeID.

(** [fmt.Sprintf("%d%s%d", parentID, dbt_cloud.ID_DELIMITER, entityID)] *)
Definition encode (parentID entityID : Z) : string :=
  Go.Itoa parentID ++ ID_DELIMITER ++ Go.Itoa entityID.

(** [strings.Split(d.Id(), dbt_cloud.ID_DELIMITER)[0]] followed by
    [strings.Split(d.Id(), dbt_cloud.ID_DELIMITER)[1]]: the two halves are
    kept as strings and handed to the client as they are. *)
Definition decode (id : string) : Eval (string * string) :=
  match index (Go.Split id ID_DELIMITER) 0 with
  | Panics m => Panics m
  | Done projectIdString =>
      match index (Go.Split id ID_DELIMITER) 1 with
      | Panics m => Panics m
      | Done entityIdString => Done (projectIdString, entityIdString)
      end
  end.

End CompositeID.

(** ** Attribute values and schemas

    The state record handed over by the hosting runtime maps attribute names
    to dynamically typed values; the handlers read them with type
    assertions. *)

(** Elements of lists and maps ([interface{}] holding a scalar). *)
Inductive Scalar : Type :=
| SNil
| SBool (b : bool)
| SInt (z : Z)
| SStr (s : string).

(** A field of a nested object: a scalar or a list of scalars. *)
Inductive Item : Type :=
| IScalar (s : Scalar)
| IList (l : list Scalar).

Inductive Value : Type :=
| VNil
| VBool (b : bool)
| VInt (z : Z)
| VStr (s : string)
| VList (l : list Scalar)
| VMap (m : gmap string Scalar)
| VSet (objs : list (gmap string Item)).

#[global] Instance Scalar_eq_dec : EqDecision Scalar.
Proof. solve_decision. Defined.
#[global] Instance Item_eq_dec : EqDecision Item.
Proof. solve_decision. Defined.
#[global] Instance Value_eq_dec : EqDecision Value.
Proof. solve_decision. Defined.

(** [schema.ValueType] of an attribute, with the element type of lists and
    maps. *)
Inductive ElemType : Type := ElemBool | ElemInt | ElemString.

Inductive ValueType : Type :=
| TypeBool
| TypeInt
| TypeString
| TypeList (elem : ElemType)
| TypeMap (elem : ElemType)
| TypeSet.

Definition Schema : Type := gmap string ValueType.

Definition hasElemType (e : ElemType) (s : Scalar) : bool :=
  match e, s with
  | ElemBool, SBool _ | ElemInt, SInt _ | ElemString, SStr _ => true
  | _, _ => false
  end.

(** The shape the framework gives to the value of an attribute of type
    [ty].  The values of a map are checked one by one by the handlers, with
    the two-valued type assertion. *)
Definition hasType (ty : ValueType) (v : Value) : bool :=
  match ty, v with
  | TypeBool, VBool _ | TypeInt, VInt _ | TypeString, VStr _ => true
  | TypeList e, VList l => forallb (hasElemType e) l
  | TypeMap _, VMap _ => true
  | TypeSet, VSet _ => true
  | _, _ => false
  end.

(** The zero value [d.Get] returns for an attribute that is not set. *)
Definition zeroValue (ty : ValueType) : Value :=
  match ty with
  | TypeBool => VBool false
  | TypeInt => VInt 0
  | TypeString => VStr EmptyString
  | TypeList _ => VList []
  | TypeMap _ => VMap ∅
  | TypeSet => VSet []
  end.

Definition coerce (ty : ValueType) (v : option Value) : Value :=
  match v with
  | Some v => if hasType ty v then v else zeroValue ty
  | None => zeroValue ty
  end.

(** ** The state record ([schema.ResourceData])

    [prior] is the state the hosting runtime stored last, [planned] the
    desired state of this invocation (the prior state merged with the diff),
    [written] what the handler has set with [d.Set] so far. *)
Record ResourceData : Type := mkResourceData {
  Id : string;
  prior : gmap string Value;
  planned : gmap string Value;
  written : gmap string Value
}.

(** [d.Get(key)]: the value at the latest level, of the type the schema gives
    to [key]; [nil] for a key the schema does not have. *)
Definition Get (sch : Schema) (d : ResourceData) (key : string) : Value :=
  match sch !! key with
  | None => VNil
  | Some ty =>
      coerce ty (match written d !! key with
                 | Some v => Some v
                 | None => planned d !! key
                 end)
  end.

(** [d.HasChange(key)]: whether the prior and the planned value differ; both
    are [nil] for a key the schema does not have. *)
Definition HasChange (sch : Schema) (d : ResourceData) (key : string) : bool :=
  match sch !! key with
  | None => false
  | Some ty => bool_decide (coerce ty (prior d !! key) ≠ coerce ty (planned d !! key))
  end.

(** The attributes the hosting runtime reports as changed. *)
Definition changedKeys (sch : Schema) (d : ResourceData) : list string :=
  filter (fun k => HasChange sch d k = true) (map fst (map_to_list sch)).

(** [d.SetId(id)] *)
Definition SetId (id : string) (d : ResourceData) : ResourceData :=
  mkResourceData id (prior d) (planned d) (written d).

(** [d.Set(key, v)]: fails for a key outside the schema and for a value of
    another shape than the schema's; a nil pointer unsets the attribute. *)
Definition Set_ (sch : Schema) (key : string) (v : Value) (d : ResourceData)
  : string + ResourceData :=
  match sch !! key with
  | None => inl ("Invalid address to set: " ++ key)
  | Some ty =>
      if match v with VNil => true | _ => hasType ty v end
      then inr (mkResourceData (Id d) (prior d) (planned d) (<[key := v]> (written d)))
      else inl (key ++ ": invalid value for the type of the attribute")
  end.

(** Type assertions [v.(T)]: the one-valued form panics on another dynamic
    type. *)
Definition asBool (v : Value) : Eval bool :=
  match v with VBool b => Done b | _ => Panics "interface conversion: not a bool" end.
Definition asInt (v : Value) : Eval Z :=
  match v with VInt z => Done z | _ => Panics "interface conversion: not an int" end.
Definition asString (v : Value) : Eval string :=
  match v with VStr s => Done s | _ => Panics "interface conversion: not a string" end.
Definition asList (v : Value) : Eval (list Scalar) :=
  match v with
  | VList l => Done l
  | _ => Panics "interface conversion: not a []interface {}"
  end.
Definition asMap (v : Value) : Eval (gmap string Scalar) :=
  match v with
  | VMap m => Done m
  | _ => Panics "interface conversion: not a map[string]interface {}"
  end.

Definition scalarAsInt (s : Scalar) : Eval Z :=
  match s with SInt z => Done z | _ => Panics "interface conversion: not an int" end.
Definition scalarAsString (s : Scalar) : Eval string :=
  match s with SStr x => Done x | _ => Panics "interface conversion: not a string" end.

(** The two-valued form [b, ok := m[key].(bool)]: the zero value and
    [ok = false] for a missing key and for a value that is not a bool. *)
Definition lookupBool (m : gmap string Scalar) (key : string) : bool * bool :=
  match m !! key with
  | Some (SBool b) => (b, true)
  | _ => (false, false)
  end.

(** [for i, x := range l { out[i] = x.(T) }] *)
Fixpoint assertEach {A} (f : Scalar -> Eval A) (l : list Scalar) : Eval (list A) :=
  match l with
  | [] => Done []
  | x :: l' =>
      match f x with
      | Panics m => Panics m
      | Done a =>
          match assertEach f l' with
          | Panics m => Panics m
          | Done r => Done (a :: r)
          end
      end
  end.

(** Values of pointer type handed to [d.Set]. *)
Definition optValue {A} (f : A -> Value) (o : option A) : Value :=
  match o with Some a => f a | None => VNil end.

Definition intsValue (l : list Z) : Value := VList (map SInt l).
Definition stringsValue (l : list string) : Value := VList (map SStr l).

(** ** Remote entities *)

(** Modelled from the spec: the structs of the remote entities are declared
    in the client package, which is not part of the sources at hand. They
    are given the fields that the handlers read and write, with the types
    the handlers use them at; [with_F v x] is the assignment [x.F = v], and
    a pointer field is an [option]. The fields that no handler touches go
    from the fetch to the update call unchanged and are left out. *)

Module JobSettings.
Record t : Type := mk {
  Threads : Z;
  Target_Name : string
}.
Definition with_Threads (v : Z) (x : t) : t :=
  mk v (Target_Name x).
Definition with_Target_Name (v : string) (x : t) : t :=
  mk (Threads x) v.
End JobSettings.

Module JobTrigger.
Record t : Type := mk {
  Github_Webhook : bool;
  GitProviderWebhook : bool;
  Schedule : bool
}.
Definition with_Github_Webhook (v : bool) (x : t) : t :=
  mk v (GitProviderWebhook x) (Schedule x).
Definition with_GitProviderWebhook (v : bool) (x : t) : t :=
  mk (Github_Webhook x) v (Schedule x).
Definition with_Schedule (v : bool) (x : t) : t :=
  mk (Github_Webhook x) (GitProviderWebhook x) v.
End JobTrigger.

Module ScheduleDate.
Record t : Type := mk {
  Type_ : string;
  Days : option (list Z);
  Cron : option string
}.
Definition with_Type_ (v : string) (x : t) : t :=
  mk v (Days x) (Cron x).
Definition with_Days (v : option (list Z)) (x : t) : t :=
  mk (Type_ x) v (Cron x).
Definition with_Cron (v : option string) (x : t) : t :=
  mk (Type_ x) (Days x) v.
End ScheduleDate.

Module ScheduleTime.
Record t : Type := mk {
  Type_ : string;
  Interval : Z;
  Hours : option (list Z)
}.
Definition with_Type_ (v : string) (x : t) : t :=
  mk v (Interval x) (Hours x).
Definition with_Interval (v : Z) (x : t) : t :=
  mk (Type_ x) v (Hours x).
Definition with_Hours (v : option (list Z)) (x : t) : t :=
  mk (Type_ x) (Interval x) v.
End ScheduleTime.

Module JobSchedule.
Record t : Type := mk {
  Date : ScheduleDate.t;
  Time : ScheduleTime.t
}.
Definition with_Date (v : ScheduleDate.t) (x : t) : t :=
  mk v (Time x).
Definition with_Time (v : ScheduleTime.t) (x : t) : t :=
  mk (Date x) v.
End JobSchedule.

Module JobExecution.
Record t : Type := mk {
  Timeout_Seconds : Z
}.
Definition with_Timeout_Seconds (v : Z) (x : t) : t :=
  mk v.
End JobExecution.

Module JobCompletionTriggerCondition.
Record t : Type := mk {
  JobID : Z;
  ProjectID : Z;
  Statuses : list Z
}.
Definition with_JobID (v : Z) (x : t) : t :=
  mk v (ProjectID x) (Statuses x).
Definition with_ProjectID (v : Z) (x : t) : t :=
  mk (JobID x) v (Statuses x).
Definition with_Statuses (v : list Z) (x : t) : t :=
  mk (JobID x) (ProjectID x) v.
End JobCompletionTriggerCondition.

Module JobCompletionTrigger.
Record t : Type := mk {
  Condition : JobCompletionTriggerCondition.t
}.
Definition with_Condition (v : JobCompletionTriggerCondition.t) (x : t) : t :=
  mk v.
End JobCompletionTrigger.

Module Job.
Record t : Type := mk {
  ID : option Z;
  Project_Id : Z;
  Environment_Id : Z;
  Name : string;
  Description : string;
  Execute_Steps : list string;
  Dbt_Version : option string;
  State : Z;
  Settings : JobSettings.t;
  Generate_Docs : bool;
  Run_Generate_Sources : bool;
  Schedule : JobSchedule.t;
  Deferring_Job_Id : option Z;
  DeferringEnvironmentId : option Z;
  Execution : JobExecution.t;
  Triggers : JobTrigger.t;
  TriggersOnDraftPR : bool;
  JobCompletionTrigger : option JobCompletionTrigger.t
}.
Definition with_ID (v : option Z) (x : t) : t :=
  mk v (Project_Id x) (Environment_Id x) (Name x) (Description x) (Execute_Steps x) (Dbt_Version x) (State x) (Settings x) (Generate_Docs x) (Run_Generate_Sources x) (Schedule x) (Deferring_Job_Id x) (DeferringEnvironmentId x) (Execution x) (Triggers x) (TriggersOnDraftPR x) (JobCompletionTrigger x).
Definition with_Project_Id (v : Z) (x : t) : t :=
  mk (ID x) v (Environment_Id x) (Name x) (Description x) (Execute_Steps x) (Dbt_Version x) (State x) (Settings x) (Generate_Docs x) (Run_Generate_Sources x) (Schedule x) (Deferring_Job_Id x) (DeferringEnvironmentId x) (Execution x) (Triggers x) (TriggersOnDraftPR x) (JobCompletionTrigger x).
Definition with_Environment_Id (v : Z) (x : t) : t :=
  mk (ID x) (Project_Id x) v (Name x) (Description x) (Execute_Steps x) (Dbt_Version x) (State x) (Settings x) (Generate_Docs x) (Run_Generate_Sources x) (Schedule x) (Deferring_Job_Id x) (DeferringEnvironmentId x) (Execution x) (Triggers x) (TriggersOnDraftPR x) (JobCompletionTrigger x).
Definition with_Name (v : string) (x : t) : t :=
  mk (ID x) (Project_Id x) (Environment_Id x) v (Description x) (Execute_Steps x) (Dbt_Version x) (State x) (Settings x) (Generate_Docs x) (Run_Generate_Sources x) (Schedule x) (Deferring_Job_Id x) (DeferringEnvironmentId x) (Execution x) (Triggers x) (TriggersOnDraftPR x) (JobCompletionTrigger x).
Definition with_Description (v : string) (x : t) : t :=
  mk (ID x) (Project_Id x) (Environment_Id x) (Name x) v (Execute_Steps x) (Dbt_Version x) (State x) (Settings x) (Generate_Docs x) (Run_Generate_Sources x) (Schedule x) (Deferring_Job_Id x) (DeferringEnvironmentId x) (Execution x) (Triggers x) (TriggersOnDraftPR x) (JobCompletionTrigger x).
Definition with_Execute_Steps (v : list string) (x : t) : t :=
  mk (ID x) (Project_Id x) (Environment_Id x) (Name x) (Description x) v (Dbt_Version x) (State x) (Settings x) (Generate_Docs x) (Run_Generate_Sources x) (Schedule x) (Deferring_Job_Id x) (DeferringEnvironmentId x) (Execution x) (Triggers x) (TriggersOnDraftPR x) (JobCompletionTrigger x).
Definition with_Dbt_Version (v : option string) (x : t) : t :=
  mk (ID x) (Project_Id x) (Environment_Id x) (Name x) (Description x) (Execute_Steps x) v (State x) (Settings x) (Generate_Docs x) (Run_Generate_Sources x) (Schedule x) (Deferring_Job_Id x) (DeferringEnvironmentId x) (Execution x) (Triggers x) (TriggersOnDraftPR x) (JobCompletionTrigger x).
Definition with_State (v : Z) (x : t) : t :=
  mk (ID x) (Project_Id x) (Environment_Id x) (Name x) (Description x) (Execute_Steps x) (Dbt_Version x) v (Settings x) (Generate_Docs x) (Run_Generate_Sources x) (Schedule x) (Deferring_Job_Id x) (DeferringEnvironmentId x) (Execution x) (Triggers x) (TriggersOnDraftPR x) (JobCompletionTrigger x).
Definition with_Settings (v : JobSettings.t) (x : t) : t :=
  mk (ID x) (Project_Id x) (Environment_Id x) (Name x) (Description x) (Execute_Steps x) (Dbt_Version x) (State x) v (Generate_Docs x) (Run_Generate_Sources x) (Schedule x) (Deferring_Job_Id x) (DeferringEnvironmentId x) (Execution x) (Triggers x) (TriggersOnDraftPR x) (JobCompletionTrigger x).
Definition with_Generate_Docs (v : bool) (x : t) : t :=
  mk (ID x) (Project_Id x) (Environment_Id x) (Name x) (Description x) (Execute_Steps x) (Dbt_Version x) (State x) (Settings x) v (Run_Generate_Sources x) (Schedule x) (Deferring_Job_Id x) (DeferringEnvironmentId x) (Execution x) (Triggers x) (TriggersOnDraftPR x) (JobCompletionTrigger x).
Definition with_Run_Generate_Sources (v : bool) (x : t) : t :=
  mk (ID x) (Project_Id x) (Environment_Id x) (Name x) (Description x) (Execute_Steps x) (Dbt_Version x) (State x) (Settings x) (Generate_Docs x) v (Schedule x) (Deferring_Job_Id x) (DeferringEnvironmentId x) (Execution x) (Triggers x) (TriggersOnDraftPR x) (JobCompletionTrigger x).
Definition with_Schedule (v : JobSchedule.t) (x : t) : t :=
  mk (ID x) (Project_Id x) (Environment_Id x) (Name x) (Description x) (Execute_Steps x) (Dbt_Version x) (State x) (Settings x) (Generate_Docs x) (Run_Generate_Sources x) v (Deferring_Job_Id x) (DeferringEnvironmentId x) (Execution x) (Triggers x) (TriggersOnDraftPR x) (JobCompletionTrigger x).
Definition with_Deferring_Job_Id (v : option Z) (x : t) : t :=
  mk (ID x) (Project_Id x) (Environment_Id x) (Name x) (Description x) (Execute_Steps x) (Dbt_Version x) (State x) (Settings x) (Generate_Docs x) (Run_Generate_Sources x) (Schedule x) v (DeferringEnvironmentId x) (Execution x) (Triggers x) (TriggersOnDraftPR x) (JobCompletionTrigger x).
Definition with_DeferringEnvironmentId (v : option Z) (x : t) : t :=
  mk (ID x) (Project_Id x) (Environment_Id x) (Name x) (Description x) (Execute_Steps x) (Dbt_Version x) (State x) (Settings x) (Generate_Docs x) (Run_Generate_Sources x) (Schedule x) (Deferring_Job_Id x) v (Execution x) (Triggers x) (TriggersOnDraftPR x) (JobCompletionTrigger x).
Definition with_Execution (v : JobExecution.t) (x : t) : t :=
  mk (ID x) (Project_Id x) (Environment_Id x) (Name x) (Description x) (Execute_Steps x) (Dbt_Version x) (State x) (Settings x) (Generate_Docs x) (Run_Generate_Sources x) (Schedule x) (Deferring_Job_Id x) (DeferringEnvironmentId x) v (Triggers x) (TriggersOnDraftPR x) (JobCompletionTrigger x).
Definition with_Triggers (v : JobTrigger.t) (x : t) : t :=
  mk (ID x) (Project_Id x) (Environment_Id x) (Name x) (Description x) (Execute_Steps x) (Dbt_Version x) (State x) (Settings x) (Generate_Docs x) (Run_Generate_Sources x) (Schedule x) (Deferring_Job_Id x) (DeferringEnvironmentId x) (Execution x) v (TriggersOnDraftPR x) (JobCompletionTrigger x).
Definition with_TriggersOnDraftPR (v : bool) (x : t) : t :=
  mk (ID x) (Project_Id x) (Environment_Id x) (Name x) (Description x) (Execute_Steps x) (Dbt_Version x) (State x) (Settings x) (Generate_Docs x) (Run_Generate_Sources x) (Schedule x) (Deferring_Job_Id x) (DeferringEnvironmentId x) (Execution x) (Triggers x) v (JobCompletionTrigger x).
Definition with_JobCompletionTrigger (v : option JobCompletionTrigger.t) (x : t) : t :=
  mk (ID x) (Project_Id x) (Environment_Id x) (Name x) (Description x) (Execute_Steps x) (Dbt_Version x) (State x) (Settings x) (Generate_Docs x) (Run_Generate_Sources x) (Schedule x) (Deferring_Job_Id x) (DeferringEnvironmentId x) (Execution x) (Triggers x) (TriggersOnDraftPR x) v.
End Job.

Module AdapterDetails.
Record t : Type := mk {
  Fields : gmap string Scalar
}.
Definition with_Fields (v : gmap string Scalar) (x : t) : t :=
  mk v.
End AdapterDetails.

Module ConnectionDetails.
Record t : Type := mk {
  Account : string;
  Host : string;
  Port : Z;
  Database : string;
  DBName : string;
  Warehouse : string;
  Role : string;
  AllowSSO : option bool;
  ClientSessionKeepAlive : option bool;
  OAuthClientID : string;
  OAuthClientSecret : string;
  TunnelEnabled : option bool;
  AdapterId : option Z;
  AdapterDetails : option AdapterDetails.t
}.
Definition with_Account (v : string) (x : t) : t :=
  mk v (Host x) (Port x) (Database x) (DBName x) (Warehouse x) (Role x) (AllowSSO x) (ClientSessionKeepAlive x) (OAuthClientID x) (OAuthClientSecret x) (TunnelEnabled x) (AdapterId x) (AdapterDetails x).
Definition with_Host (v : string) (x : t) : t :=
  mk (Account x) v (Port x) (Database x) (DBName x) (Warehouse x) (Role x) (AllowSSO x) (ClientSessionKeepAlive x) (OAuthClientID x) (OAuthClientSecret x) (TunnelEnabled x) (AdapterId x) (AdapterDetails x).
Definition with_Port (v : Z) (x : t) : t :=
  mk (Account x) (Host x) v (Database x) (DBName x) (Warehouse x) (Role x) (AllowSSO x) (ClientSessionKeepAlive x) (OAuthClientID x) (OAuthClientSecret x) (TunnelEnabled x) (AdapterId x) (AdapterDetails x).
Definition with_Database (v : string) (x : t) : t :=
  mk (Account x) (Host x) (Port x) v (DBName x) (Warehouse x) (Role x) (AllowSSO x) (ClientSessionKeepAlive x) (OAuthClientID x) (OAuthClientSecret x) (TunnelEnabled x) (AdapterId x) (AdapterDetails x).
Definition with_DBName (v : string) (x : t) : t :=
  mk (Account x) (Host x) (Port x) (Database x) v (Warehouse x) (Role x) (AllowSSO x) (ClientSessionKeepAlive x) (OAuthClientID x) (OAuthClientSecret x) (TunnelEnabled x) (AdapterId x) (AdapterDetails x).
Definition with_Warehouse (v : string) (x : t) : t :=
  mk (Account x) (Host x) (Port x) (Database x) (DBName x) v (Role x) (AllowSSO x) (ClientSessionKeepAlive x) (OAuthClientID x) (OAuthClientSecret x) (TunnelEnabled x) (AdapterId x) (AdapterDetails x).
Definition with_Role (v : string) (x : t) : t :=
  mk (Account x) (Host x) (Port x) (Database x) (DBName x) (Warehouse x) v (AllowSSO x) (ClientSessionKeepAlive x) (OAuthClientID x) (OAuthClientSecret x) (TunnelEnabled x) (AdapterId x) (AdapterDetails x).
Definition with_AllowSSO (v : option bool) (x : t) : t :=
  mk (Account x) (Host x) (Port x) (Database x) (DBName x) (Warehouse x) (Role x) v (ClientSessionKeepAlive x) (OAuthClientID x) (OAuthClientSecret x) (TunnelEnabled x) (AdapterId x) (AdapterDetails x).
Definition with_ClientSessionKeepAlive (v : option bool) (x : t) : t :=
  mk (Account x) (Host x) (Port x) (Database x) (DBName x) (Warehouse x) (Role x) (AllowSSO x) v (OAuthClientID x) (OAuthClientSecret x) (TunnelEnabled x) (AdapterId x) (AdapterDetails x).
Definition with_OAuthClientID (v : string) (x : t) : t :=
  mk (Account x) (Host x) (Port x) (Database x) (DBName x) (Warehouse x) (Role x) (AllowSSO x) (ClientSessionKeepAlive x) v (OAuthClientSecret x) (TunnelEnabled x) (AdapterId x) (AdapterDetails x).
Definition with_OAuthClientSecret (v : string) (x : t) : t :=
  mk (Account x) (Host x) (Port x) (Database x) (DBName x) (Warehouse x) (Role x) (AllowSSO x) (ClientSessionKeepAlive x) (OAuthClientID x) v (TunnelEnabled x) (AdapterId x) (AdapterDetails x).
Definition with_TunnelEnabled (v : option bool) (x : t) : t :=
  mk (Account x) (Host x) (Port x) (Database x) (DBName x) (Warehouse x) (Role x) (AllowSSO x) (ClientSessionKeepAlive x) (OAuthClientID x) (OAuthClientSecret x) v (AdapterId x) (AdapterDetails x).
Definition with_AdapterId (v : option Z) (x : t) : t :=
  mk (Account x) (Host x) (Port x) (Database x) (DBName x) (Warehouse x) (Role x) (AllowSSO x) (ClientSessionKeepAlive x) (OAuthClientID x) (OAuthClientSecret x) (TunnelEnabled x) v (AdapterDetails x).
Definition with_AdapterDetails (v : option AdapterDetails.t) (x : t) : t :=
  mk (Account x) (Host x) (Port x) (Database x) (DBName x) (Warehouse x) (Role x) (AllowSSO x) (ClientSessionKeepAlive x) (OAuthClientID x) (OAuthClientSecret x) (TunnelEnabled x) (AdapterId x) v.
End ConnectionDetails.

Module Connection.
Record t : Type := mk {
  ID : option Z;
  State : Z;
  ProjectID : Z;
  Name : string;
  Type_ : string;
  Details : ConnectionDetails.t
}.
Definition with_ID (v : option Z) (x : t) : t :=
  mk v (State x) (ProjectID x) (Name x) (Type_ x) (Details x).
Definition with_State (v : Z) (x : t) : t :=
  mk (ID x) v (ProjectID x) (Name x) (Type_ x) (Details x).
Definition with_ProjectID (v : Z) (x : t) : t :=
  mk (ID x) (State x) v (Name x) (Type_ x) (Details x).
Definition with_Name (v : string) (x : t) : t :=
  mk (ID x) (State x) (ProjectID x) v (Type_ x) (Details x).
Definition with_Type_ (v : string) (x : t) : t :=
  mk (ID x) (State x) (ProjectID x) (Name x) v (Details x).
Definition with_Details (v : ConnectionDetails.t) (x : t) : t :=
  mk (ID x) (State x) (ProjectID x) (Name x) (Type_ x) v.
End Connection.

(** ** The remote entity client

    The client is an external collaborator. Each method either returns an
    entity or an error; what it answers may depend on every call made
    before, which is the argument [history]. *)

Inductive Result (A : Type) : Type :=
| Ok (a : A)
| Err (e : string).
Arguments Ok {A} a.
Arguments Err {A} e.

(** The arguments of [CreateConnection], in the order of the call. *)
Record CreateConnectionArgs : Type := mkCreateConnectionArgs {
  arg_projectId : Z;
  arg_name : string;
  arg_connectionType : string;
  arg_isActive : bool;
  arg_account : string;
  arg_database : string;
  arg_warehouse : string;
  arg_role : string;
  arg_allowSSO : bool;
  arg_allowKeepAlive : bool;
  arg_oAuthClientID : string;
  arg_oAuthClientSecret : string;
  arg_hostName : string;
  arg_port : Z;
  arg_tunnelEnabled : bool;
  arg_httpPath : string;
  arg_catalog : string
}.

Inductive Call : Type :=
| CallGetJob (jobId : string)
| CallUpdateJob (jobId : string) (job : Job.t)
| CallCreateConnection (args : CreateConnectionArgs)
| CallGetConnection (connectionId projectId : string)
| CallUpdateConnection (connectionId projectId : string) (connection : Connection.t)
| CallDeleteConnection (connectionId projectId : string).

Record Client : Type := mkClient {
  GetJob : list Call -> string -> Result Job.t;
  UpdateJob : list Call -> string -> Job.t -> Result Job.t;
  CreateConnection : list Call -> CreateConnectionArgs -> Result Connection.t;
  GetConnection : list Call -> string -> string -> Result Connection.t;
  UpdateConnection : list Call -> string -> string -> Connection.t -> Result Connection.t;
  DeleteConnection : list Call -> string -> string -> Result unit
}.

Definition isUpdateCall (c : Call) : bool :=
  match c with
  | CallUpdateJob _ _ | CallUpdateConnection _ _ _ => true
  | _ => false
  end.

Definition isDeleteCall (c : Call) : bool :=
  match c with
  | CallDeleteConnection _ _ => true
  | _ => false
  end.

Definition isGetCall (c : Call) : bool :=
  match c with
  | CallGetJob _ | CallGetConnection _ _ => true
  | _ => false
  end.

(** ** Helpers of the [utils] package and of [encoding/json]

    These are declared outside the sources at hand and are taken as
    parameters: the nested job-completion condition is read and written
    through them, and the JSON object of a [JobTrigger] has the keys of its
    field tags. *)
Record Helpers : Type := mkHelpers {
  ExtractJobConditionSet : ResourceData -> bool * Z * Z * list Z;
  JobCompletionTriggerConditionsMappingCodeHuman : Z -> Scalar;
  JobConditionMapToSet : gmap string Item -> Value;
  marshalJobTrigger : JobTrigger.t -> gmap string Scalar
}.

(** ** Handlers as state transformers

    A handler runs on the state record and on the log of the remote calls
    made so far. A statement goes on to the next one, returns diagnostics
    to the hosting runtime, or panics. *)

Definition Diagnostics : Type := list string.

(** [diag.FromErr(err)] *)
Definition FromErr (e : string) : Diagnostics := [e].

Record State : Type := mkState {
  rd : ResourceData;
  calls : list Call
}.

Inductive Outcome (A : Type) : Type :=
| Next (a : A)
| Return (diags : Diagnostics)
| Panic (msg : string).
Arguments Next {A} a.
Arguments Return {A} diags.
Arguments Panic {A} msg.

(** Statements that only read the state record. *)
#[global] Instance Outcome_ret : MRet Outcome := fun A a => Next a.
#[global] Instance Outcome_bind : MBind Outcome := fun A B f m =>
  match m with
  | Next a => f a
  | Return diags => Return diags
  | Panic msg => Panic msg
  end.

Definition must {A} (e : Eval A) : Outcome A :=
  match e with
  | Done a => Next a
  | Panics msg => Panic msg
  end.

Definition M (A : Type) : Type := State -> Outcome A * State.

#[global] Instance M_ret : MRet M := fun A a st => (Next a, st).
#[global] Instance M_bind : MBind M := fun A B f m st =>
  match m st with
  | (Next a, st') => f a st'
  | (Return diags, st') => (Return diags, st')
  | (Panic msg, st') => (Panic msg, st')
  end.

Definition pure {A} (o : Outcome A) : M A := fun st => (o, st).

Definition getData : M ResourceData := fun st => (Next (rd st), st).

Definition setId (id : string) : M unit :=
  fun st => (Next tt, mkState (SetId id (rd st)) (calls st)).

(** [if err := d.Set(key, v); err != nil { return diag.FromErr(err) }] *)
Definition set (sch : Schema) (key : string) (v : Value) : M unit :=
  fun st =>
    match Set_ sch key v (rd st) with
    | inl e => (Return (FromErr e), st)
    | inr d' => (Next tt, mkState d' (calls st))
    end.

(** A remote call: the answer depends on the history, and the call is
    logged. *)
Definition remote {A} (c : Call) (answer : list Call -> Result A) : M (Result A) :=
  fun st => (Next (answer (calls st)), mkState (rd st) (calls st ++ [c])).

(** [return diags] *)
Definition return_ {A} (diags : Diagnostics) : M A := fun st => (Return diags, st).

(** Calling a handler from another: its [return] ends the callee only. *)
Definition call (h : M Diagnostics) : M Diagnostics :=
  fun st =>
    match h st with
    | (Next diags, st') | (Return diags, st') => (Next diags, st')
    | (Panic msg, st') => (Panic msg, st')
    end.

(** What the hosting runtime sees of an invocation. *)
Inductive Verdict : Type :=
| Returned (diags : Diagnostics)
| Crashed (msg : string).

Definition run (h : M Diagnostics) (st : State) : Verdict * State :=
  match h st with
  | (Next diags, st') | (Return diags, st') => (Returned diags, st')
  | (Panic msg, st') => (Crashed msg, st')
  end.

(** ** The job resource ([pkg/resources/job.go]) *)

Definition scheduleTypes : list string := ["every_day"; "days_of_week"; "custom_cron"].

(** The attributes of [jobSchema] with their types. *)
Definition jobSchema : Schema :=
  list_to_map
    [ ("project_id", TypeInt);
      ("environment_id", TypeInt);
      ("name", TypeString);
      ("description", TypeString);
      ("execute_steps", TypeList ElemString);
      ("dbt_version", TypeString);
      ("is_active", TypeBool);
      ("triggers", TypeMap ElemBool);
      ("num_threads", TypeInt);
      ("target_name", TypeString);
      ("generate_docs", TypeBool);
      ("run_generate_sources", TypeBool);
      ("schedule_type", TypeString);
      ("schedule_interval", TypeInt);
      ("schedule_hours", TypeList ElemInt);
      ("schedule_days", TypeList ElemInt);
      ("schedule_cron", TypeString);
      ("deferring_job_id", TypeInt);
      ("deferring_environment_id", TypeInt);
      ("self_deferring", TypeBool);
      ("timeout_seconds", TypeInt);
      ("triggers_on_draft_pr", TypeBool);
      ("job_completion_trigger_condition", TypeSet) ].

Section JobHandlers.

Variable u : Helpers.
Variable c : Client.

Definition resourceJobRead : M Diagnostics :=
  d ← getData;
  let jobId := Id d in
  r ← remote (CallGetJob jobId) (fun h => GetJob c h jobId);
  match r with
  | Err err =>
      if Go.HasPrefix err "resource-not-found"
      then setId EmptyString;; return_ []
      else return_ (FromErr err)
  | Ok job =>
      set jobSchema "project_id" (VInt (Job.Project_Id job));;
      set jobSchema "environment_id" (VInt (Job.Environment_Id job));;
      set jobSchema "name" (VStr (Job.Name job));;
      set jobSchema "description" (VStr (Job.Description job));;
      set jobSchema "execute_steps" (stringsValue (Job.Execute_Steps job));;
      set jobSchema "dbt_version" (optValue VStr (Job.Dbt_Version job));;
      set jobSchema "is_active" (VBool (Z.eqb (Job.State job) 1));;
      set jobSchema "num_threads" (VInt (JobSettings.Threads (Job.Settings job)));;
      set jobSchema "target_name" (VStr (JobSettings.Target_Name (Job.Settings job)));;
      set jobSchema "generate_docs" (VBool (Job.Generate_Docs job));;
      set jobSchema "run_generate_sources" (VBool (Job.Run_Generate_Sources job));;
      set jobSchema "schedule_type"
        (VStr (ScheduleDate.Type_ (JobSchedule.Date (Job.Schedule job))));;
      let schedule :=
        if Z.ltb 0 (ScheduleTime.Interval (JobSchedule.Time (Job.Schedule job)))
        then ScheduleTime.Interval (JobSchedule.Time (Job.Schedule job))
        else 1 in
      set jobSchema "schedule_interval" (VInt schedule);;
      set jobSchema "schedule_hours"
        (optValue intsValue (ScheduleTime.Hours (JobSchedule.Time (Job.Schedule job))));;
      set jobSchema "schedule_days"
        (optValue intsValue (ScheduleDate.Days (JobSchedule.Date (Job.Schedule job))));;
      set jobSchema "schedule_cron"
        (optValue VStr (ScheduleDate.Cron (JobSchedule.Date (Job.Schedule job))));;
      let selfDeferring :=
        match Job.Deferring_Job_Id job with
        | Some deferring => String.eqb (Go.Itoa deferring) jobId
        | None => false
        end in
      (if negb selfDeferring
       then set jobSchema "deferring_job_id" (optValue VInt (Job.Deferring_Job_Id job))
       else mret tt);;
      set jobSchema "deferring_environment_id"
        (optValue VInt (Job.DeferringEnvironmentId job));;
      set jobSchema "self_deferring" (VBool selfDeferring);;
      set jobSchema "timeout_seconds"
        (VInt (JobExecution.Timeout_Seconds (Job.Execution job)));;
      let triggers := marshalJobTrigger u (Job.Triggers job) in
      d ← getData;
      listedTriggers ← pure (must (asMap (Get jobSchema d "triggers")));
      let '(listedCustomBranchOnly, ok) := lookupBool listedTriggers "custom_branch_only" in
      let triggers :=
        if ok then <["custom_branch_only" := SBool listedCustomBranchOnly]> triggers
        else triggers in
      set jobSchema "triggers" (VMap triggers);;
      set jobSchema "triggers_on_draft_pr" (VBool (Job.TriggersOnDraftPR job));;
      match Job.JobCompletionTrigger job with
      | None => set jobSchema "job_completion_trigger_condition" VNil
      | Some trigger =>
          let triggerCondition := JobCompletionTrigger.Condition trigger in
          let statusesNames :=
            map (JobCompletionTriggerConditionsMappingCodeHuman u)
                (JobCompletionTriggerCondition.Statuses triggerCondition) in
          let triggerConditionMap : gmap string Item :=
            <["job_id" := IScalar (SInt (JobCompletionTriggerCondition.JobID triggerCondition))]>
            (<["project_id" :=
                 IScalar (SInt (JobCompletionTriggerCondition.ProjectID triggerCondition))]>
            (<["statuses" := IList statusesNames]> ∅)) in
          let triggerConditionSet := JobConditionMapToSet u triggerConditionMap in
          set jobSchema "job_completion_trigger_condition" triggerConditionSet
      end;;
      return_ []
  end.

(** [*p] on a pointer. *)
Definition deref {A} (p : option A) : Eval A :=
  match p with
  | Some a => Done a
  | None => Panics "invalid memory address or nil pointer dereference"
  end.

(** The condition that guards the fetch and the update call of
    [resourceJobUpdate]. *)
Definition jobUpdateGuard (d : ResourceData) : bool :=
  HasChange jobSchema d "project_id" ||
  HasChange jobSchema d "environment_id" ||
  HasChange jobSchema d "name" ||
  HasChange jobSchema d "description" ||
  HasChange jobSchema d "dbt_version" ||
  HasChange jobSchema d "num_threads" ||
  HasChange jobSchema d "target_name" ||
  HasChange jobSchema d "execute_steps" ||
  HasChange jobSchema d "run_generate_sources" ||
  HasChange jobSchema d "generate_docs" ||
  HasChange jobSchema d "triggers" ||
  HasChange jobSchema d "schedule_type" ||
  HasChange jobSchema d "schedule_interval" ||
  HasChange jobSchema d "schedule_hours" ||
  HasChange jobSchema d "schedule_days" ||
  HasChange jobSchema d "schedule_cron" ||
  HasChange jobSchema d "deferring_job_id" ||
  HasChange jobSchema d "deferring_environment_id" ||
  HasChange jobSchema d "self_deferring" ||
  HasChange jobSchema d "timeout_seconds" ||
  HasChange jobSchema d "triggers_on_drat_pr" ||
  HasChange jobSchema d "job_completion_trigger_condition".

Definition withTime (f : ScheduleTime.t -> ScheduleTime.t) (job : Job.t) : Job.t :=
  Job.with_Schedule
    (JobSchedule.with_Time (f (JobSchedule.Time (Job.Schedule job))) (Job.Schedule job)) job.

Definition withDate (f : ScheduleDate.t -> ScheduleDate.t) (job : Job.t) : Job.t :=
  Job.with_Schedule
    (JobSchedule.with_Date (f (JobSchedule.Date (Job.Schedule job))) (Job.Schedule job)) job.

Definition withSettings (f : JobSettings.t -> JobSettings.t) (job : Job.t) : Job.t :=
  Job.with_Settings (f (Job.Settings job)) job.

Definition withTriggers (f : JobTrigger.t -> JobTrigger.t) (job : Job.t) : Job.t :=
  Job.with_Triggers (f (Job.Triggers job)) job.

(** [if deferringJobId != 0 { p = &deferringJobId } else { p = nil }] *)
Definition nonZero (z : Z) : option Z := if Z.eqb z 0 then None else Some z.

(** The assignments of [resourceJobUpdate] between the fetch and the update
    call, in the order of the source: one conditional block per attribute,
    each overwriting fields of the fetched job. *)
Definition applyJobChanges (d : ResourceData) (job : Job.t) : Outcome Job.t :=
  job ← (if HasChange jobSchema d "project_id" then
           projectID ← must (asInt (Get jobSchema d "project_id"));
           mret (Job.with_Project_Id projectID job)
         else mret job);
  job ← (if HasChange jobSchema d "environment_id" then
           envID ← must (asInt (Get jobSchema d "environment_id"));
           mret (Job.with_Environment_Id envID job)
         else mret job);
  job ← (if HasChange jobSchema d "name" then
           name ← must (asString (Get jobSchema d "name"));
           mret (Job.with_Name name job)
         else mret job);
  job ← (if HasChange jobSchema d "description" then
           description ← must (asString (Get jobSchema d "description"));
           mret (Job.with_Description description job)
         else mret job);
  job ← (if HasChange jobSchema d "dbt_version" then
           dbtVersion ← must (asString (Get jobSchema d "dbt_version"));
           mret (Job.with_Dbt_Version (Some dbtVersion) job)
         else mret job);
  job ← (if HasChange jobSchema d "num_threads" then
           numThreads ← must (asInt (Get jobSchema d "num_threads"));
           mret (withSettings (JobSettings.with_Threads numThreads) job)
         else mret job);
  job ← (if HasChange jobSchema d "target_name" then
           targetName ← must (asString (Get jobSchema d "target_name"));
           mret (withSettings (JobSettings.with_Target_Name targetName) job)
         else mret job);
  job ← (if HasChange jobSchema d "run_generate_sources" then
           runGenerateSources ← must (asBool (Get jobSchema d "run_generate_sources"));
           mret (Job.with_Run_Generate_Sources runGenerateSources job)
         else mret job);
  job ← (if HasChange jobSchema d "generate_docs" then
           generateDocs ← must (asBool (Get jobSchema d "generate_docs"));
           mret (Job.with_Generate_Docs generateDocs job)
         else mret job);
  job ← (if HasChange jobSchema d "execute_steps" then
           steps ← must (asList (Get jobSchema d "execute_steps"));
           executeSteps ← must (assertEach scalarAsString steps);
           mret (Job.with_Execute_Steps executeSteps job)
         else mret job);
  job ← (if HasChange jobSchema d "triggers" then
           newTriggers ← must (asMap (Get jobSchema d "triggers"));
           let '(v, ok) := lookupBool newTriggers "github_webhook" in
           let job := withTriggers (JobTrigger.with_Github_Webhook v) job in
           if negb ok then Return (FromErr "github_webhook was not provided") else
           let '(v, ok) := lookupBool newTriggers "git_provider_webhook" in
           let job := withTriggers (JobTrigger.with_GitProviderWebhook v) job in
           if negb ok then Return (FromErr "git_provider_webhook was not provided") else
           let '(v, ok) := lookupBool newTriggers "schedule" in
           let job := withTriggers (JobTrigger.with_Schedule v) job in
           if negb ok then Return (FromErr "schedule was not provided") else
           mret job
         else mret job);
  job ← (if HasChange jobSchema d "schedule_interval" then
           scheduleInterval ← must (asInt (Get jobSchema d "schedule_interval"));
           mret (withTime (ScheduleTime.with_Interval scheduleInterval) job)
         else mret job);
  job ← (if HasChange jobSchema d "schedule_hours" then
           hours ← must (asList (Get jobSchema d "schedule_hours"));
           scheduleHours ← must (assertEach scalarAsInt hours);
           if Nat.ltb 0 (length hours) then
             mret (withTime (ScheduleTime.with_Interval 0)
                  (withTime (ScheduleTime.with_Type_ "at_exact_hours")
                  (withTime (ScheduleTime.with_Hours (Some scheduleHours)) job)))
           else
             interval ← must (asInt (Get jobSchema d "schedule_interval"));
             mret (withTime (ScheduleTime.with_Type_ "every_hour")
                  (withTime (ScheduleTime.with_Interval interval)
                  (withTime (ScheduleTime.with_Hours None) job)))
         else mret job);
  job ← (if HasChange jobSchema d "schedule_days" then
           days ← must (asList (Get jobSchema d "schedule_days"));
           scheduleDays ← must (assertEach scalarAsInt days);
           if Nat.ltb 0 (length days) then
             mret (withDate (ScheduleDate.with_Days (Some scheduleDays)) job)
           else mret job
         else mret job);
  job ← (if HasChange jobSchema d "schedule_cron" then
           scheduleCron ← must (asString (Get jobSchema d "schedule_cron"));
           mret (withDate (ScheduleDate.with_Cron (Some scheduleCron)) job)
         else mret job);
  (* we set this after the subfields to remove the fields not matching the
     schedule type *)
  job ← (if HasChange jobSchema d "schedule_type" then
           scheduleType ← must (asString (Get jobSchema d "schedule_type"));
           let job := withDate (ScheduleDate.with_Type_ scheduleType) job in
           let job :=
             if String.eqb scheduleType "days_of_week" || String.eqb scheduleType "every_day"
             then withDate (ScheduleDate.with_Cron None) job else job in
           let job :=
             if String.eqb scheduleType "custom_cron" || String.eqb scheduleType "every_day"
             then withDate (ScheduleDate.with_Days None) job else job in
           mret job
         else mret job);
  job ← (if HasChange jobSchema d "deferring_job_id" then
           deferringJobId ← must (asInt (Get jobSchema d "deferring_job_id"));
           mret (Job.with_Deferring_Job_Id (nonZero deferringJobId) job)
         else mret job);
  job ← (if HasChange jobSchema d "deferring_environment_id" then
           deferringEnvironmentId ←
             must (asInt (Get jobSchema d "deferring_environment_id"));
           mret (Job.with_DeferringEnvironmentId (nonZero deferringEnvironmentId) job)
         else mret job);
  job ← (if HasChange jobSchema d "self_deferring" then
           if bool_decide (Get jobSchema d "self_deferring" = VBool true) then
             deferringJobID ← must (deref (Job.ID job));
             mret (Job.with_Deferring_Job_Id (Some deferringJobID) job)
           else
             deferringJobId ← must (asInt (Get jobSchema d "deferring_job_id"));
             mret (Job.with_Deferring_Job_Id (nonZero deferringJobId) job)
         else mret job);
  job ← (if HasChange jobSchema d "timeout_seconds" then
           timeoutSeconds ← must (asInt (Get jobSchema d "timeout_seconds"));
           mret (Job.with_Execution (JobExecution.with_Timeout_Seconds timeoutSeconds
                                       (Job.Execution job)) job)
         else mret job);
  job ← (if HasChange jobSchema d "triggers_on_draft_pr" then
           triggersOnDraftPR ← must (asBool (Get jobSchema d "triggers_on_draft_pr"));
           mret (Job.with_TriggersOnDraftPR triggersOnDraftPR job)
         else mret job);
  job ← (if HasChange jobSchema d "job_completion_trigger_condition" then
           let '(empty, completionJobID, completionProjectID, completionStatuses) :=
             ExtractJobConditionSet u d in
           if empty then mret (Job.with_JobCompletionTrigger None job)
           else
             let jobCondTrigger :=
               JobCompletionTrigger.mk
                 (JobCompletionTriggerCondition.mk
                    completionJobID completionProjectID completionStatuses) in
             mret (Job.with_JobCompletionTrigger (Some jobCondTrigger) job)
         else mret job);
  mret job.

Definition resourceJobUpdate : M Diagnostics :=
  d ← getData;
  let jobId := Id d in
  (if jobUpdateGuard d then
     r ← remote (CallGetJob jobId) (fun h => GetJob c h jobId);
     match r with
     | Err err => return_ (FromErr err)
     | Ok job =>
         job ← pure (applyJobChanges d job);
         r ← remote (CallUpdateJob jobId job) (fun h => UpdateJob c h jobId job);
         match r with
         | Err err => return_ (FromErr err)
         | Ok _ => mret tt
         end
     end
   else mret tt);;
  call resourceJobRead.

Definition resourceJobDelete : M Diagnostics :=
  d ← getData;
  let jobId := Id d in
  r ← remote (CallGetJob jobId) (fun h => GetJob c h jobId);
  match r with
  | Err err => return_ (FromErr err)
  | Ok job =>
      let job := Job.with_State STATE_DELETED job in
      r ← remote (CallUpdateJob jobId job) (fun h => UpdateJob c h jobId job);
      match r with
      | Err err => return_ (FromErr err)
      | Ok _ => return_ []
      end
  end.

End JobHandlers.

(** ** The connection resource *)

Definition connectionTypes : list string :=
  ["snowflake"; "bigquery"; "redshift"; "postgres"; "alloydb"; "adapter"].

(** The attributes of the schema of [ResourceConnection] with their types. *)
Definition connectionSchema : Schema :=
  list_to_map
    [ ("connection_id", TypeInt);
      ("is_active", TypeBool);
      ("project_id", TypeInt);
      ("name", TypeString);
      ("type", TypeString);
      ("account", TypeString);
      ("host_name", TypeString);
      ("port", TypeInt);
      ("database", TypeString);
      ("warehouse", TypeString);
      ("role", TypeString);
      ("allow_sso", TypeBool);
      ("allow_keep_alive", TypeBool);
      ("oauth_client_id", TypeString);
      ("oauth_client_secret", TypeString);
      ("tunnel_enabled", TypeBool);
      ("http_path", TypeString);
      ("catalog", TypeString);
      ("adapter_id", TypeInt) ].

Section ConnectionHandlers.

Variable c : Client.

Definition withDetails (f : ConnectionDetails.t -> ConnectionDetails.t)
  (connection : Connection.t) : Connection.t :=
  Connection.with_Details (f (Connection.Details connection)) connection.

(** [details.AdapterDetails.Fields[key].Value.(string)]: a missing key gives
    the zero field, whose value is nil. *)
Definition adapterField (a : AdapterDetails.t) (key : string) : Eval string :=
  scalarAsString (default SNil (AdapterDetails.Fields a !! key)).

Definition resourceConnectionRead : M Diagnostics :=
  d ← getData;
  '(projectIdString, connectionIdString) ← pure (must (CompositeID.decode (Id d)));
  r ← remote (CallGetConnection connectionIdString projectIdString)
        (fun h => GetConnection c h connectionIdString projectIdString);
  match r with
  | Err err => return_ (FromErr err)
  | Ok connection =>
      (* TODO: Remove when done better *)
      oAuthClientID ← pure (must (asString (Get connectionSchema d "oauth_client_id")));
      let connection := withDetails (ConnectionDetails.with_OAuthClientID oAuthClientID)
                          connection in
      oAuthClientSecret ←
        pure (must (asString (Get connectionSchema d "oauth_client_secret")));
      let connection :=
        withDetails (ConnectionDetails.with_OAuthClientSecret oAuthClientSecret)
          connection in
      let details := Connection.Details connection in
      set connectionSchema "connection_id" (optValue VInt (Connection.ID connection));;
      set connectionSchema "is_active"
        (VBool (Z.eqb (Connection.State connection) STATE_ACTIVE));;
      set connectionSchema "project_id" (VInt (Connection.ProjectID connection));;
      set connectionSchema "name" (VStr (Connection.Name connection));;
      set connectionSchema "type" (VStr (Connection.Type_ connection));;
      set connectionSchema "account" (VStr (ConnectionDetails.Account details));;
      let databaseName :=
        if String.eqb (Connection.Type_ connection) "snowflake"
        then ConnectionDetails.Database details
        else ConnectionDetails.DBName details in
      set connectionSchema "database" (VStr databaseName);;
      set connectionSchema "warehouse" (VStr (ConnectionDetails.Warehouse details));;
      set connectionSchema "role" (VStr (ConnectionDetails.Role details));;
      set connectionSchema "allow_sso" (optValue VBool (ConnectionDetails.AllowSSO details));;
      set connectionSchema "allow_keep_alive"
        (optValue VBool (ConnectionDetails.ClientSessionKeepAlive details));;
      set connectionSchema "oauth_client_id"
        (VStr (ConnectionDetails.OAuthClientID details));;
      set connectionSchema "oauth_client_secret"
        (VStr (ConnectionDetails.OAuthClientSecret details));;
      set connectionSchema "port" (VInt (ConnectionDetails.Port details));;
      set connectionSchema "tunnel_enabled"
        (optValue VBool (ConnectionDetails.TunnelEnabled details));;
      '(httpPath, catalog, hostName) ←
        match ConnectionDetails.AdapterDetails details with
        | None => mret (EmptyString, EmptyString, ConnectionDetails.Host details)
        | Some adapter =>
            httpPath ← pure (must (adapterField adapter "http_path"));
            catalog ← pure (must (adapterField adapter "catalog"));
            hostName ← pure (must (adapterField adapter "host"));
            mret (httpPath, catalog, hostName)
        end;
      set connectionSchema "host_name" (VStr hostName);;
      set connectionSchema "http_path" (VStr httpPath);;
      set connectionSchema "catalog" (VStr catalog);;
      set connectionSchema "adapter_id" (optValue VInt (ConnectionDetails.AdapterId details));;
      return_ []
  end.

Definition resourceConnectionCreate : M Diagnostics :=
  d ← getData;
  isActive ← pure (must (asBool (Get connectionSchema d "is_active")));
  projectId ← pure (must (asInt (Get connectionSchema d "project_id")));
  name ← pure (must (asString (Get connectionSchema d "name")));
  connectionType ← pure (must (asString (Get connectionSchema d "type")));
  account ← pure (must (asString (Get connectionSchema d "account")));
  database ← pure (must (asString (Get connectionSchema d "database")));
  warehouse ← pure (must (asString (Get connectionSchema d "warehouse")));
  role ← pure (must (asString (Get connectionSchema d "role")));
  allowSSO ← pure (must (asBool (Get connectionSchema d "allow_sso")));
  allowKeepAlive ← pure (must (asBool (Get connectionSchema d "allow_keep_alive")));
  oAuthClientID ← pure (must (asString (Get connectionSchema d "oauth_client_id")));
  oAuthClientSecret ←
    pure (must (asString (Get connectionSchema d "oauth_client_secret")));
  hostName ← pure (must (asString (Get connectionSchema d "host_name")));
  port ← pure (must (asInt (Get connectionSchema d "port")));
  tunnelEnabled ← pure (must (asBool (Get connectionSchema d "tunnel_enabled")));
  httpPath ← pure (must (asString (Get connectionSchema d "http_path")));
  catalog ← pure (must (asString (Get connectionSchema d "catalog")));
  let args :=
    mkCreateConnectionArgs projectId name connectionType isActive account database
      warehouse role allowSSO allowKeepAlive oAuthClientID oAuthClientSecret hostName
      port tunnelEnabled httpPath catalog in
  r ← remote (CallCreateConnection args) (fun h => CreateConnection c h args);
  match r with
  | Err err => return_ (FromErr err)
  | Ok connection =>
      connectionID ← pure (must (deref (Connection.ID connection)));
      setId (CompositeID.encode (Connection.ProjectID connection) connectionID);;
      call resourceConnectionRead;;
      return_ []
  end.

(** The condition that guards the fetch and the update call of
    [resourceConnectionUpdate]. *)
Definition connectionUpdateGuard (d : ResourceData) : bool :=
  HasChange connectionSchema d "name" ||
  HasChange connectionSchema d "type" ||
  HasChange connectionSchema d "account" ||
  HasChange connectionSchema d "database" ||
  HasChange connectionSchema d "warehouse" ||
  HasChange connectionSchema d "role" ||
  HasChange connectionSchema d "allow_sso" ||
  HasChange connectionSchema d "allow_keep_alive" ||
  HasChange connectionSchema d "oauth_client_id" ||
  HasChange connectionSchema d "oauth_client_secret".

(** The assignments of [resourceConnectionUpdate] between the fetch and the
    update call. *)
Definition applyConnectionChanges (d : ResourceData) (connection : Connection.t)
  : Outcome Connection.t :=
  connection ← (if HasChange connectionSchema d "name" then
      name ← must (asString (Get connectionSchema d "name"));
      mret (Connection.with_Name name connection)
    else mret connection);
  connection ← (if HasChange connectionSchema d "type" then
      connectionType ← must (asString (Get connectionSchema d "type"));
      mret (Connection.with_Type_ connectionType connection)
    else mret connection);
  connection ← (if HasChange connectionSchema d "account" then
      account ← must (asString (Get connectionSchema d "account"));
      mret (withDetails (ConnectionDetails.with_Account account) connection)
    else mret connection);
  connection ← (if HasChange connectionSchema d "database" then
      database ← must (asString (Get connectionSchema d "database"));
      if String.eqb (Connection.Type_ connection) "snowflake"
      then mret (withDetails (ConnectionDetails.with_Database database) connection)
      else mret (withDetails (ConnectionDetails.with_DBName database) connection)
    else mret connection);
  connection ← (if HasChange connectionSchema d "warehouse" then
      warehouse ← must (asString (Get connectionSchema d "warehouse"));
      mret (withDetails (ConnectionDetails.with_Warehouse warehouse) connection)
    else mret connection);
  connection ← (if HasChange connectionSchema d "role" then
      role ← must (asString (Get connectionSchema d "role"));
      mret (withDetails (ConnectionDetails.with_Role role) connection)
    else mret connection);
  connection ← (if HasChange connectionSchema d "allow_sso" then
      allowSSO ← must (asBool (Get connectionSchema d "allow_sso"));
      mret (withDetails (ConnectionDetails.with_AllowSSO (Some allowSSO)) connection)
    else mret connection);
  connection ← (if HasChange connectionSchema d "allow_keep_alive" then
      allowKeepAlive ← must (asBool (Get connectionSchema d "allow_keep_alive"));
      mret (withDetails (ConnectionDetails.with_ClientSessionKeepAlive (Some allowKeepAlive))
              connection)
    else mret connection);
  connection ← (if HasChange connectionSchema d "oauth_client_id" then
      oAuthClientID ← must (asString (Get connectionSchema d "oauth_client_id"));
      mret (withDetails (ConnectionDetails.with_OAuthClientID oAuthClientID) connection)
    else mret connection);
  connection ← (if HasChange connectionSchema d "oauth_client_secret" then
      oAuthClientSecret ← must (asString (Get connectionSchema d "oauth_client_secret"));
      mret (withDetails (ConnectionDetails.with_OAuthClientSecret oAuthClientSecret)
              connection)
    else mret connection);
  connection ← (if HasChange connectionSchema d "host_name" then
      hostName ← must (asString (Get connectionSchema d "host_name"));
      mret (withDetails (ConnectionDetails.with_Host hostName) connection)
    else mret connection);
  connection ← (if HasChange connectionSchema d "port" then
      port ← must (asInt (Get connectionSchema d "port"));
      mret (withDetails (ConnectionDetails.with_Port port) connection)
    else mret connection);
  mret connection.

Definition resourceConnectionUpdate : M Diagnostics :=
  d ← getData;
  '(projectIdString, connectionIdString) ← pure (must (CompositeID.decode (Id d)));
  (* TODO: add more changes here *)
  (if connectionUpdateGuard d then
     r ← remote (CallGetConnection connectionIdString projectIdString)
           (fun h => GetConnection c h connectionIdString projectIdString);
     match r with
     | Err err => return_ (FromErr err)
     | Ok connection =>
         connection ← pure (applyConnectionChanges d connection);
         r ← remote (CallUpdateConnection connectionIdString projectIdString connection)
               (fun h => UpdateConnection c h connectionIdString projectIdString connection);
         match r with
         | Err err => return_ (FromErr err)
         | Ok _ => mret tt
         end
     end
   else mret tt);;
  call resourceConnectionRead.

Definition resourceConnectionDelete : M Diagnostics :=
  d ← getData;
  '(projectIdString, connectionIdString) ← pure (must (CompositeID.decode (Id d)));
  r ← remote (CallDeleteConnection connectionIdString projectIdString)
        (fun h => DeleteConnection c h connectionIdString projectIdString);
  match r with
  | Err err => return_ (FromErr err)
  | Ok _ => return_ []
  end.

End ConnectionHandlers.

(** ** Vocabulary of the statements *)

(** A string none of whose characters is [a]. *)
Fixpoint avoids (a : ascii) (s : string) : bool :=
  match s with
  | EmptyString => true
  | String b s' => negb (Ascii.eqb b a) && avoids a s'
  end.

(** The piece read so far, followed by what is left of the text. *)
Definition unread (cur : list ascii) (s : string) : string :=
  string_of_list_ascii (rev cur ++ list_ascii_of_string s).

(** The new value of an attribute, by type; these name the values the
    handlers obtain from [d.Get(key).(T)]. *)
Definition GetBool (sch : Schema) (d : ResourceData) (key : string) : bool :=
  match Get sch d key with VBool b => b | _ => false end.
Definition GetInt (sch : Schema) (d : ResourceData) (key : string) : Z :=
  match Get sch d key with VInt z => z | _ => 0 end.
Definition GetString (sch : Schema) (d : ResourceData) (key : string) : string :=
  match Get sch d key with VStr s => s | _ => EmptyString end.
Definition GetList (sch : Schema) (d : ResourceData) (key : string) : list Scalar :=
  match Get sch d key with VList l => l | _ => [] end.
Definition GetMap (sch : Schema) (d : ResourceData) (key : string) : gmap string Scalar :=
  match Get sch d key with VMap m => m | _ => ∅ end.
Definition scalarInt (s : Scalar) : Z := match s with SInt z => z | _ => 0 end.
Definition scalarString (s : Scalar) : string := match s with SStr x => x | _ => EmptyString end.

(** [d.Set] on an attribute of the schema, with a value of its type. *)
Definition writeAttr (key : string) (v : Value) (d : ResourceData) : ResourceData :=
  mkResourceData (Id d) (prior d) (planned d) (<[key := v]> (written d)).

Definition accepts (ty : ValueType) (v : Value) : bool :=
  match v with VNil => true | _ => hasType ty v end.

(** Statements that make no remote call. *)
Definition quiet {T} (m : M T) : Prop := forall st, calls (m st).2 = calls st.

Definition conditionTrigger (r : bool * Z * Z * list Z) : option JobCompletionTrigger.t :=
  let '(empty, jobID, projectID, statuses) := r in
  if empty then None
  else Some (JobCompletionTrigger.mk (JobCompletionTriggerCondition.mk jobID projectID statuses)).

(** The job attributes that stand for one field of the entity, each with
    the overwrite of that field by the new desired value. *)
Definition jobSingleField (u : Helpers)
  : list (string * (ResourceData -> Job.t -> Job.t)) :=
  [ ("project_id", fun d => Job.with_Project_Id (GetInt jobSchema d "project_id"));
    ("environment_id", fun d => Job.with_Environment_Id (GetInt jobSchema d "environment_id"));
    ("name", fun d => Job.with_Name (GetString jobSchema d "name"));
    ("description", fun d => Job.with_Description (GetString jobSchema d "description"));
    ("dbt_version", fun d => Job.with_Dbt_Version (Some (GetString jobSchema d "dbt_version")));
    ("num_threads",
      fun d => withSettings (JobSettings.with_Threads (GetInt jobSchema d "num_threads")));
    ("target_name",
      fun d => withSettings (JobSettings.with_Target_Name (GetString jobSchema d "target_name")));
    ("run_generate_sources",
      fun d => Job.with_Run_Generate_Sources (GetBool jobSchema d "run_generate_sources"));
    ("generate_docs", fun d => Job.with_Generate_Docs (GetBool jobSchema d "generate_docs"));
    ("execute_steps",
      fun d => Job.with_Execute_Steps (map scalarString (GetList jobSchema d "execute_steps")));
    ("schedule_interval",
      fun d => withTime (ScheduleTime.with_Interval (GetInt jobSchema d "schedule_interval")));
    ("schedule_cron",
      fun d => withDate (ScheduleDate.with_Cron (Some (GetString jobSchema d "schedule_cron"))));
    ("deferring_job_id",
      fun d => Job.with_Deferring_Job_Id (nonZero (GetInt jobSchema d "deferring_job_id")));
    ("deferring_environment_id",
      fun d => Job.with_DeferringEnvironmentId
                 (nonZero (GetInt jobSchema d "deferring_environment_id")));
    ("timeout_seconds",
      fun d job => Job.with_Execution
                 (JobExecution.with_Timeout_Seconds (GetInt jobSchema d "timeout_seconds")
                    (Job.Execution job)) job);
    ("job_completion_trigger_condition",
      fun d => Job.with_JobCompletionTrigger (conditionTrigger (ExtractJobConditionSet u d))) ].

(** What a change of [schedule_type] alone makes of the fetched job: the
    type is overwritten, and the fields that do not match it are cleared. *)
Definition retypeSchedule (scheduleType : string) (job : Job.t) : Job.t :=
  let job := withDate (ScheduleDate.with_Type_ scheduleType) job in
  let job :=
    if String.eqb scheduleType "days_of_week" || String.eqb scheduleType "every_day"
    then withDate (ScheduleDate.with_Cron None) job else job in
  if String.eqb scheduleType "custom_cron" || String.eqb scheduleType "every_day"
  then withDate (ScheduleDate.with_Days None) job else job.

(** All three trigger flags are present in the map, as booleans. *)
Definition triggersComplete (m : gmap string Scalar) : bool :=
  (lookupBool m "github_webhook").2 && (lookupBool m "git_provider_webhook").2
  && (lookupBool m "schedule").2.

(** The first of the three trigger flags that is absent or not a boolean. *)
Definition missingTrigger (m : gmap string Scalar) : option string :=
  if negb (lookupBool m "github_webhook").2 then Some "github_webhook"
  else if negb (lookupBool m "git_provider_webhook").2 then Some "git_provider_webhook"
  else if negb (lookupBool m "schedule").2 then Some "schedule"
  else None.

(** The connection attributes that stand for one field of the entity, each
    with the overwrite of that field by the new desired value. *)
Definition connectionSingleField
  : list (string * (ResourceData -> Connection.t -> Connection.t)) :=
  [ ("name", fun d => Connection.with_Name (GetString connectionSchema d "name"));
    ("type", fun d => Connection.with_Type_ (GetString connectionSchema d "type"));
    ("account",
      fun d => withDetails
                 (ConnectionDetails.with_Account (GetString connectionSchema d "account")));
    ("database",
      fun d connection =>
        if String.eqb (Connection.Type_ connection) "snowflake"
        then withDetails
               (ConnectionDetails.with_Database (GetString connectionSchema d "database"))
               connection
        else withDetails
               (ConnectionDetails.with_DBName (GetString connectionSchema d "database"))
               connection);
    ("warehouse",
      fun d => withDetails
                 (ConnectionDetails.with_Warehouse (GetString connectionSchema d "warehouse")));
    ("role",
      fun d => withDetails (ConnectionDetails.with_Role (GetString connectionSchema d "role")));
    ("allow_sso",
      fun d => withDetails
                 (ConnectionDetails.with_AllowSSO
                    (Some (GetBool connectionSchema d "allow_sso"))));
    ("allow_keep_alive",
      fun d => withDetails
                 (ConnectionDetails.with_ClientSessionKeepAlive
                    (Some (GetBool connectionSchema d "allow_keep_alive"))));
    ("oauth_client_id",
      fun d => withDetails
                 (ConnectionDetails.with_OAuthClientID
                    (GetString connectionSchema d "oauth_client_id")));
    ("oauth_client_secret",
      fun d => withDetails
                 (ConnectionDetails.with_OAuthClientSecret
                    (GetString connectionSchema d "oauth_client_secret"))) ].

Definition isString (s : Scalar) : bool := match s with SStr _ => true | _ => false end.

(** The adapter details, when present, hold a string under each of the
    three keys that Read asserts to be strings. *)
Definition adapterReadable (connection : Connection.t) : bool :=
  match ConnectionDetails.AdapterDetails (Connection.Details connection) with
  | None => true
  | Some a =>
      isString (default SNil (AdapterDetails.Fields a !! "http_path"))
      && isString (default SNil (AdapterDetails.Fields a !! "catalog"))
      && isString (default SNil (AdapterDetails.Fields a !! "host"))
  end.

Definition adapterString (connection : Connection.t) (key fallback : string) : string :=
  match ConnectionDetails.AdapterDetails (Connection.Details connection) with
  | None => fallback
  | Some a => scalarString (default SNil (AdapterDetails.Fields a !! key))
  end.

(** What the remote connection gives for each attribute of the state record
    other than the two OAuth attributes. *)
Definition remoteAttributes (connection : Connection.t) : list (string * Value) :=
  let details := Connection.Details connection in
  [ ("connection_id", optValue VInt (Connection.ID connection));
    ("is_active", VBool (Z.eqb (Connection.State connection) STATE_ACTIVE));
    ("project_id", VInt (Connection.ProjectID connection));
    ("name", VStr (Connection.Name connection));
    ("type", VStr (Connection.Type_ connection));
    ("account", VStr (ConnectionDetails.Account details));
    ("database",
      VStr (if String.eqb (Connection.Type_ connection) "snowflake"
            then ConnectionDetails.Database details
            else ConnectionDetails.DBName details));
    ("warehouse", VStr (ConnectionDetails.Warehouse details));
    ("role", VStr (ConnectionDetails.Role details));
    ("allow_sso", optValue VBool (ConnectionDetails.AllowSSO details));
    ("allow_keep_alive", optValue VBool (ConnectionDetails.ClientSessionKeepAlive details));
    ("port", VInt (ConnectionDetails.Port details));
    ("tunnel_enabled", optValue VBool (ConnectionDetails.TunnelEnabled details));
    ("host_name", VStr (adapterString connection "host" (ConnectionDetails.Host details)));
    ("http_path", VStr (adapterString connection "http_path" EmptyString));
    ("catalog", VStr (adapterString connection "catalog" EmptyString));
    ("adapter_id", optValue VInt (ConnectionDetails.AdapterId details)) ].

(** ** Sample runs

    A remote service that always answers with the same job and connection
    and accepts every change, one that has lost every entity, and state
    records for the scenarios of the statements. *)

Definition sampleHelpers : Helpers :=
  mkHelpers
    (fun _ => (true, 0, 0, []))
    (fun _ => SStr "success")
    (fun m => VSet [m])
    (fun t => <["github_webhook" := SBool (JobTrigger.Github_Webhook t)]>
              (<["git_provider_webhook" := SBool (JobTrigger.GitProviderWebhook t)]>
              (<["schedule" := SBool (JobTrigger.Schedule t)]> ∅))).

(** A job on a custom cron schedule. *)
Definition cronJob : Job.t :=
  Job.mk (Some 7) 42 3 "nightly" EmptyString ["dbt run"] None 1
    (JobSettings.mk 4 "default") false false
    (JobSchedule.mk
       (ScheduleDate.mk "custom_cron" None (Some "0 * * * *"))
       (ScheduleTime.mk "every_hour" 1 None))
    None None (JobExecution.mk 0) (JobTrigger.mk false false true) false None.

(** A job that runs every day. *)
Definition dailyJob : Job.t :=
  Job.mk (Some 7) 42 3 "nightly" EmptyString ["dbt run"] None 1
    (JobSettings.mk 4 "default") false false
    (JobSchedule.mk
       (ScheduleDate.mk "every_day" (Some [0; 1; 2; 3; 4; 5; 6]) None)
       (ScheduleTime.mk "every_hour" 1 None))
    None None (JobExecution.mk 0) (JobTrigger.mk false false true) false None.

Definition sampleConnection : Connection.t :=
  Connection.mk (Some 7) 1 42 "warehouse" "snowflake"
    (ConnectionDetails.mk "acme" EmptyString 0 "analytics" EmptyString "compute" EmptyString (Some false)
       (Some false) "remote-client" "remote-secret" (Some false) None None).

Definition steadyClient (job : Job.t) (connection : Connection.t) : Client :=
  mkClient
    (fun _ _ => Ok job)
    (fun _ _ payload => Ok payload)
    (fun _ _ => Ok connection)
    (fun _ _ _ => Ok connection)
    (fun _ _ _ payload => Ok payload)
    (fun _ _ _ => Ok tt).

Definition goneClient : Client :=
  mkClient
    (fun _ _ => Err "resource-not-found: the job does not exist")
    (fun _ _ _ => Err "resource-not-found: the job does not exist")
    (fun _ _ => Err "the project does not exist")
    (fun _ _ _ => Err "resource-not-found: the connection does not exist")
    (fun _ _ _ _ => Err "resource-not-found: the connection does not exist")
    (fun _ _ _ => Err "resource-not-found: the connection does not exist").

Definition sampleTriggers : Value :=
  VMap (<["github_webhook" := SBool false]>
       (<["git_provider_webhook" := SBool false]>
       (<["schedule" := SBool true]> ∅))).

(** The job is renamed. *)
Definition renameJob : ResourceData :=
  mkResourceData "7"
    (<["name" := VStr "nightly"]> (<["triggers" := sampleTriggers]> ∅))
    (<["name" := VStr "hourly"]> (<["triggers" := sampleTriggers]> ∅))
    ∅.

(** The schedule goes from a custom cron expression to every day. *)
Definition retypeJob : ResourceData :=
  mkResourceData "7"
    (<["schedule_type" := VStr "custom_cron"]>
       (<["schedule_cron" := VStr "0 * * * *"]> ∅))
    (<["schedule_type" := VStr "every_day"]>
       (<["schedule_cron" := VStr "0 * * * *"]> ∅))
    ∅.

(** The schedule goes from every day to a custom cron expression. *)
Definition cronifyJob : ResourceData :=
  mkResourceData "7"
    (<["schedule_type" := VStr "every_day"]> ∅)
    (<["schedule_type" := VStr "custom_cron"]>
       (<["schedule_cron" := VStr "0 * * * *"]> ∅))
    ∅.

(** Only [triggers_on_draft_pr] changes, from false to true. *)
Definition draftJob : ResourceData :=
  mkResourceData "7"
    (<["triggers_on_draft_pr" := VBool false]> ∅)
    (<["triggers_on_draft_pr" := VBool true]> ∅)
    ∅.

(** The new triggers lack [git_provider_webhook]. *)
Definition partialTriggersJob : ResourceData :=
  mkResourceData "7"
    (<["triggers" := sampleTriggers]> ∅)
    (<["triggers" :=
         VMap (<["github_webhook" := SBool true]> (<["schedule" := SBool true]> ∅))]> ∅)
    ∅.

(** The configuration keeps the deprecated [custom_branch_only] flag. *)
Definition legacyTriggersJob : ResourceData :=
  mkResourceData "7"
    ∅
    (<["triggers" :=
         VMap (<["custom_branch_only" := SBool true]>
              (<["github_webhook" := SBool false]>
              (<["git_provider_webhook" := SBool false]>
              (<["schedule" := SBool true]> ∅))))]> ∅)
    ∅.

(** The connection of project 42 is renamed. *)
Definition renameConnection : ResourceData :=
  mkResourceData "42:7"
    (<["name" := VStr "warehouse"]> ∅)
    (<["name" := VStr "lakehouse"]> ∅)
    ∅.

(** A connection configured with OAuth credentials. *)
Definition oauthConnection : ResourceData :=
  mkResourceData "42:7"
    ∅
    (<["oauth_client_id" := VStr "local-client"]>
       (<["oauth_client_secret" := VStr "local-secret"]> ∅))
    ∅.

(** ** Vocabulary of the further properties *)

(** Whether the job defers to itself: its deferring job is the job of the
    state record. *)
Definition selfDeferringJob (jobId : string) (job : Job.t) : bool :=
  match Job.Deferring_Job_Id job with
  | Some deferring => String.eqb (Go.Itoa deferring) jobId
  | None => false
  end.

(** The value Read hands to [d.Set] for the job-completion condition. *)
Definition jobConditionValue (u : Helpers) (job : Job.t) : Value :=
  match Job.JobCompletionTrigger job with
  | None => VNil
  | Some trigger =>
      let condition := JobCompletionTrigger.Condition trigger in
      JobConditionMapToSet u
        (<["job_id" := IScalar (SInt (JobCompletionTriggerCondition.JobID condition))]>
        (<["project_id" := IScalar (SInt (JobCompletionTriggerCondition.ProjectID condition))]>
        (<["statuses" :=
             IList (map (JobCompletionTriggerConditionsMappingCodeHuman u)
                      (JobCompletionTriggerCondition.Statuses condition))]> ∅)))
  end.

(** The triggers Read writes: those of the remote job, with the configured
    [custom_branch_only] on top when there is one. *)
Definition jobTriggersValue (u : Helpers) (d : ResourceData) (job : Job.t) : Value :=
  let triggers := marshalJobTrigger u (Job.Triggers job) in
  VMap (match lookupBool (GetMap jobSchema d "triggers") "custom_branch_only" with
        | (b, true) => <["custom_branch_only" := SBool b]> triggers
        | (_, false) => triggers
        end).

(** What a Read of the job writes for each attribute, besides
    [deferring_job_id], which is written only for a job that does not defer
    to itself. *)
Definition jobRemoteAttributes (u : Helpers) (d : ResourceData) (job : Job.t)
  : list (string * Value) :=
  let date := JobSchedule.Date (Job.Schedule job) in
  let time := JobSchedule.Time (Job.Schedule job) in
  [ ("project_id", VInt (Job.Project_Id job));
    ("environment_id", VInt (Job.Environment_Id job));
    ("name", VStr (Job.Name job));
    ("description", VStr (Job.Description job));
    ("execute_steps", stringsValue (Job.Execute_Steps job));
    ("dbt_version", optValue VStr (Job.Dbt_Version job));
    ("is_active", VBool (Z.eqb (Job.State job) 1));
    ("num_threads", VInt (JobSettings.Threads (Job.Settings job)));
    ("target_name", VStr (JobSettings.Target_Name (Job.Settings job)));
    ("generate_docs", VBool (Job.Generate_Docs job));
    ("run_generate_sources", VBool (Job.Run_Generate_Sources job));
    ("schedule_type", VStr (ScheduleDate.Type_ date));
    ("schedule_interval", VInt (Z.max 1 (ScheduleTime.Interval time)));
    ("schedule_hours", optValue intsValue (ScheduleTime.Hours time));
    ("schedule_days", optValue intsValue (ScheduleDate.Days date));
    ("schedule_cron", optValue VStr (ScheduleDate.Cron date));
    ("deferring_environment_id", optValue VInt (Job.DeferringEnvironmentId job));
    ("self_deferring", VBool (selfDeferringJob (Id d) job));
    ("timeout_seconds", VInt (JobExecution.Timeout_Seconds (Job.Execution job)));
    ("triggers", jobTriggersValue u d job);
    ("triggers_on_draft_pr", VBool (Job.TriggersOnDraftPR job));
    ("job_completion_trigger_condition", jobConditionValue u job) ].

(** The job attributes that a Read writes back as an Update sent them. *)
Definition jobConvergentKeys : list string :=
  [ "project_id"; "environment_id"; "name"; "description"; "execute_steps";
    "dbt_version"; "num_threads"; "target_name"; "generate_docs";
    "run_generate_sources"; "schedule_cron"; "deferring_environment_id";
    "timeout_seconds" ].

(** Statements that leave the identifier of the state record alone. *)
Definition keepsId {T} (m : M T) : Prop := forall st, Id (rd (m st).2) = Id (rd st).

(** The arguments that Create reads from the state record, in the order of
    the call. *)
Definition createConnectionArgs (d : ResourceData) : CreateConnectionArgs :=
  mkCreateConnectionArgs
    (GetInt connectionSchema d "project_id")
    (GetString connectionSchema d "name")
    (GetString connectionSchema d "type")
    (GetBool connectionSchema d "is_active")
    (GetString connectionSchema d "account")
    (GetString connectionSchema d "database")
    (GetString connectionSchema d "warehouse")
    (GetString connectionSchema d "role")
    (GetBool connectionSchema d "allow_sso")
    (GetBool connectionSchema d "allow_keep_alive")
    (GetString connectionSchema d "oauth_client_id")
    (GetString connectionSchema d "oauth_client_secret")
    (GetString connectionSchema d "host_name")
    (GetInt connectionSchema d "port")
    (GetBool connectionSchema d "tunnel_enabled")
    (GetString connectionSchema d "http_path")
    (GetString connectionSchema d "catalog").

(** The attributes of the connection that the guard of Update leaves out. *)
Definition connectionUnguardedKeys : list string :=
  [ "is_active"; "project_id"; "host_name"; "port"; "tunnel_enabled"; "http_path";
    "catalog" ].

(** A new connection, not yet created. *)
Definition newConnection : ResourceData :=
  mkResourceData EmptyString
    ∅
    (<["name" := VStr "warehouse"]> (<["project_id" := VInt 42]>
       (<["type" := VStr "snowflake"]> ∅)))
    ∅.

(** The connection moves to another type and another database at once. *)
Definition retypeConnection : ResourceData :=
  mkResourceData "42:7"
    (<["type" := VStr "snowflake"]> (<["database" := VStr "analytics"]> ∅))
    (<["type" := VStr "postgres"]> (<["database" := VStr "reporting"]> ∅))
    ∅.

(** Only the host name of the connection changes. *)
Definition rehostConnection : ResourceData :=
  mkResourceData "42:7"
    (<["host_name" := VStr "old.example.com"]> ∅)
    (<["host_name" := VStr "new.example.com"]> ∅)
    ∅.

(** A connection whose adapter details have no catalog. *)
Definition adapterConnection : Connection.t :=
  withDetails
    (ConnectionDetails.with_AdapterDetails
       (Some (AdapterDetails.mk
                (<["http_path" := SStr "/sql/1.0"]> (<["host" := SStr "dbc.example.com"]> ∅)))))
    sampleConnection.

(** ** Further sample runs *)

(** A remote service that refuses every change of a job. *)
Definition rejectingClient (job : Job.t) : Client :=
  mkClient
    (fun _ _ => Ok job)
    (fun _ _ _ => Err "the job cannot be changed")
    (fun _ _ => Err "the connection cannot be created")
    (fun _ _ _ => Err "resource-not-found: the connection does not exist")
    (fun _ _ _ _ => Err "the connection cannot be changed")
    (fun _ _ _ => Err "the connection cannot be deleted").

(** The job most recently sent to the remote, the given one before any
    update call. *)
Fixpoint lastJob (history : list Call) (job : Job.t) : Job.t :=
  match history with
  | [] => job
  | CallUpdateJob _ payload :: rest => lastJob rest payload
  | _ :: rest => lastJob rest job
  end.

(** The connection most recently sent to the remote or created there. *)
Fixpoint lastConnection (history : list Call) (connection : Connection.t)
  : Connection.t :=
  match history with
  | [] => connection
  | CallUpdateConnection _ _ payload :: rest => lastConnection rest payload
  | _ :: rest => lastConnection rest connection
  end.

(** A remote service that keeps what it is sent: a fetch answers with the
    payload of the latest update call. *)
Definition keepingClient (job : Job.t) (connection : Connection.t) : Client :=
  mkClient
    (fun history _ => Ok (lastJob history job))
    (fun _ _ payload => Ok payload)
    (fun _ _ => Ok connection)
    (fun history _ _ => Ok (lastConnection history connection))
    (fun _ _ _ payload => Ok payload)
    (fun _ _ _ => Ok tt).

(** Only [is_active] changes, from true to false. *)
Definition deactivateJob : ResourceData :=
  mkResourceData "7"
    (<["is_active" := VBool true]> ∅)
    (<["is_active" := VBool false]> ∅)
    ∅.

(** The schedule hours are removed; the interval stays at 3. *)
Definition dropHoursJob : ResourceData :=
  mkResourceData "7"
    (<["schedule_hours" := VList [SInt 9; SInt 17]]> (<["schedule_interval" := VInt 3]> ∅))
    (<["schedule_interval" := VInt 3]> ∅)
    ∅.

(** The schedule days are removed. *)
Definition dropDaysJob : ResourceData :=
  mkResourceData "7"
    (<["schedule_days" := VList [SInt 1; SInt 3]]> ∅)
    ∅
    ∅.

(** The job is made to defer to itself. *)
Definition selfDeferJob : ResourceData :=
  mkResourceData "7"
    (<["self_deferring" := VBool false]> ∅)
    (<["self_deferring" := VBool true]> ∅)
    ∅.

(** A remote service that serves the connection and refuses to change it. *)
Definition readOnlyClient (connection : Connection.t) : Client :=
  mkClient
    (fun _ _ => Err "resource-not-found: the job does not exist")
    (fun _ _ _ => Err "the job cannot be changed")
    (fun _ _ => Err "the connection cannot be created")
    (fun _ _ _ => Ok connection)
    (fun _ _ _ _ => Err "the connection cannot be changed")
    (fun _ _ _ => Err "the connection cannot be deleted").

(** * Properties *)

(** ** Composite identifiers *)

Example Split_colon : Go.Split "42:7" ID_DELIMITER = ["42"; "7"].
Proof. reflexivity. Qed.

Example Split_trailing : Go.Split "a:b:" ":" = ["a"; "b"; EmptyString].
Proof. reflexivity. Qed.

Example Split_long_separator : Go.Split "a::b:c" "::" = ["a"; "b:c"].
Proof. reflexivity. Qed.

Example Itoa_negative : Go.Itoa (-42) = "-42" /\ Go.Itoa 0 = "0".
Proof. split; reflexivity. Qed.

Example encode_sample : CompositeID.encode 42 7 = "42:7".
Proof. reflexivity. Qed.

Section Codec.

Lemma contains_colon s : Go.Contains s ":" = negb (avoids ":" s).
Proof.
  induction s as [|b s IH]; [reflexivity|].
  cbn [Go.Contains avoids Go.HasPrefix]. rewrite IH.
  destruct (Ascii.eqb b ":"); [by destruct s | reflexivity].
Qed.

Lemma uint_avoids_colon d : avoids ":" (NilEmpty.string_of_uint d) = true.
Proof. induction d; simpl; auto. Qed.

Lemma Itoa_avoids_colon z : avoids ":" (Go.Itoa z) = true.
Proof.
  unfold Go.Itoa. destruct (Z.to_int z); simpl; apply uint_avoids_colon.
Qed.

Lemma Itoa_nonempty z : Go.Itoa z <> EmptyString.
Proof.
  unfold Go.Itoa. destruct z as [|p|p]; simpl; try discriminate.
  pose proof (DecimalPos.Unsigned.to_uint_nonnil p) as H.
  destruct (Pos.to_uint p); simpl; congruence.
Qed.

Lemma ParseInt_Itoa z : Go.ParseInt (Go.Itoa z) = Some z.
Proof.
  unfold Go.ParseInt. pose proof (Itoa_nonempty z) as Hne.
  destruct (Go.Itoa z) eqn:E; [done|]. rewrite <- E. unfold Go.Itoa.
  rewrite NilEmpty.isi. simpl. by rewrite DecimalZ.of_to.
Qed.

Lemma Itoa_inj z1 z2 : Go.Itoa z1 = Go.Itoa z2 -> z1 = z2.
Proof.
  intros H. apply (f_equal Go.ParseInt) in H. rewrite !ParseInt_Itoa in H. congruence.
Qed.

Lemma append_nil (s : string) : EmptyString ++ s = s.
Proof. reflexivity. Qed.

Lemma append_cons (a : ascii) (s r : string) : String a s ++ r = String a (s ++ r).
Proof. reflexivity. Qed.

(** Splitting a text without colon gives the text itself. *)
Lemma splitFrom_avoids s cur :
  avoids ":" s = true -> Go.splitFrom ":" 0 cur s = [unread cur s].
Proof.
  revert cur. induction s as [|a s IH]; intros cur H.
  - unfold unread. simpl. by rewrite app_nil_r.
  - simpl in H. apply andb_prop in H as [Ha Hs].
    cbn [Go.splitFrom Go.HasPrefix]. apply negb_true_iff in Ha. rewrite Ha.
    rewrite IH by done. unfold unread. simpl. by rewrite <- app_assoc.
Qed.

(** Splitting cuts at the first colon. *)
Lemma splitFrom_first s rest cur :
  avoids ":" s = true ->
  Go.splitFrom ":" 0 cur (s ++ ":" ++ rest) = unread cur s :: Go.splitFrom ":" 0 [] rest.
Proof.
  revert cur. induction s as [|a s IH]; intros cur H.
  - rewrite !append_cons, !append_nil. unfold unread. simpl. by rewrite app_nil_r.
  - simpl in H. apply andb_prop in H as [Ha Hs]. apply negb_true_iff in Ha.
    rewrite append_cons.
    cbn [Go.splitFrom Go.HasPrefix]. rewrite Ha.
    rewrite IH by done. unfold unread. simpl. by rewrite <- app_assoc.
Qed.

Lemma unread_nil s : unread [] s = s.
Proof. unfold unread. simpl. apply string_of_list_ascii_of_string. Qed.

Lemma Split_avoids s : avoids ":" s = true -> Go.Split s ":" = [s].
Proof. intros H. unfold Go.Split. by rewrite splitFrom_avoids, unread_nil. Qed.

Lemma Split_first s rest :
  avoids ":" s = true -> Go.Split (s ++ ":" ++ rest) ":" = s :: Go.Split rest ":".
Proof. intros H. unfold Go.Split. by rewrite splitFrom_first, unread_nil. Qed.

Lemma Split_nonempty s : Go.Split s ":" <> [].
Proof.
  unfold Go.Split. generalize (@nil ascii). induction s as [|a s IH]; intros cur; [done|].
  cbn [Go.splitFrom Go.HasPrefix]. destruct (Ascii.eqb a ":"); [by destruct s|apply IH].
Qed.

(** A text with a colon has a first one. *)
Lemma avoids_false_split s :
  avoids ":" s = false ->
  exists a rest, s = a ++ ":" ++ rest /\ avoids ":" a = true.
Proof.
  induction s as [|b s IH]; [done|]. simpl. destruct (Ascii.eqb_spec b ":") as [->|Hb]; simpl.
  - intros _. by exists EmptyString, s.
  - intros H. destruct (IH H) as (a & rest & -> & Ha).
    exists (String b a), rest. split; [done|]. simpl. rewrite Ha.
    by apply Ascii.eqb_neq in Hb as ->.
Qed.

Lemma decode_no_delimiter id :
  Go.Contains id ID_DELIMITER = false ->
  CompositeID.decode id = Panics "index out of range".
Proof.
  unfold ID_DELIMITER. rewrite contains_colon. intros H. apply negb_false_iff in H.
  unfold CompositeID.decode, ID_DELIMITER. by rewrite Split_avoids.
Qed.

Lemma decode_first a rest :
  avoids ":" a = true ->
  CompositeID.decode (a ++ ID_DELIMITER ++ rest)
  = Done (a, hd EmptyString (Go.Split rest ID_DELIMITER)).
Proof.
  intros H. unfold CompositeID.decode, ID_DELIMITER. rewrite Split_first by done.
  pose proof (Split_nonempty rest). by destruct (Go.Split rest ":").
Qed.

Lemma decode_encode p e :
  CompositeID.decode (CompositeID.encode p e) = Done (Go.Itoa p, Go.Itoa e).
Proof.
  unfold CompositeID.encode. rewrite decode_first by apply Itoa_avoids_colon.
  unfold ID_DELIMITER. by rewrite Split_avoids by apply Itoa_avoids_colon.
Qed.

End Codec.

(** ** Reading the state record *)

Section StateRecord.

Context (sch : Schema) (d : ResourceData).

Lemma zeroValue_hasType ty : hasType ty (zeroValue ty) = true.
Proof. by destruct ty. Qed.

Lemma coerce_hasType ty v : hasType ty (coerce ty v) = true.
Proof.
  destruct v as [v|]; simpl; [|apply zeroValue_hasType].
  destruct (hasType ty v) eqn:E; [done|apply zeroValue_hasType].
Qed.

Lemma Get_hasType key ty : sch !! key = Some ty -> hasType ty (Get sch d key) = true.
Proof. intros H. unfold Get. rewrite H. apply coerce_hasType. Qed.

Lemma asBool_Get key :
  sch !! key = Some TypeBool -> asBool (Get sch d key) = Done (GetBool sch d key).
Proof.
  intros H. apply Get_hasType in H. unfold GetBool. by destruct (Get sch d key).
Qed.

Lemma asInt_Get key :
  sch !! key = Some TypeInt -> asInt (Get sch d key) = Done (GetInt sch d key).
Proof.
  intros H. apply Get_hasType in H. unfold GetInt. by destruct (Get sch d key).
Qed.

Lemma asString_Get key :
  sch !! key = Some TypeString -> asString (Get sch d key) = Done (GetString sch d key).
Proof.
  intros H. apply Get_hasType in H. unfold GetString. by destruct (Get sch d key).
Qed.

Lemma asList_Get key e :
  sch !! key = Some (TypeList e) -> asList (Get sch d key) = Done (GetList sch d key).
Proof.
  intros H. apply Get_hasType in H. unfold GetList. by destruct (Get sch d key).
Qed.

Lemma asMap_Get key e :
  sch !! key = Some (TypeMap e) -> asMap (Get sch d key) = Done (GetMap sch d key).
Proof.
  intros H. apply Get_hasType in H. unfold GetMap. by destruct (Get sch d key).
Qed.

Lemma GetList_elems key e :
  sch !! key = Some (TypeList e) -> forallb (hasElemType e) (GetList sch d key) = true.
Proof.
  intros H. apply Get_hasType in H. unfold GetList. by destruct (Get sch d key).
Qed.

Lemma assertEach_strings l :
  forallb (hasElemType ElemString) l = true ->
  assertEach scalarAsString l = Done (map scalarString l).
Proof.
  induction l as [|x l IH]; [done|]. simpl. intros [Hx Hl]%andb_prop.
  rewrite IH by done. by destruct x.
Qed.

Lemma assertEach_ints l :
  forallb (hasElemType ElemInt) l = true ->
  assertEach scalarAsInt l = Done (map scalarInt l).
Proof.
  induction l as [|x l IH]; [done|]. simpl. intros [Hx Hl]%andb_prop.
  rewrite IH by done. by destruct x.
Qed.

(** An attribute is reported changed exactly when it is among the changed
    keys. *)
Lemma HasChange_changedKeys key :
  HasChange sch d key = true <-> key ∈ changedKeys sch d.
Proof.
  unfold changedKeys. rewrite list_elem_of_filter. split; [|tauto].
  intros H. split; [done|]. unfold HasChange in H.
  destruct (sch !! key) as [ty|] eqn:E; [|done].
  apply list_elem_of_fmap. exists (key, ty). split; [done|].
  by apply elem_of_map_to_list.
Qed.

(** When one attribute only is reported changed, [HasChange] answers by
    comparing the key with it. *)
Lemma HasChange_only key key' :
  changedKeys sch d = [key] -> HasChange sch d key' = String.eqb key' key.
Proof.
  intros H. destruct (String.eqb_spec key' key) as [->|Hne].
  - apply HasChange_changedKeys. rewrite H. by left.
  - destruct (HasChange sch d key') eqn:E; [|done].
    apply HasChange_changedKeys in E. rewrite H in E.
    apply list_elem_of_singleton in E. done.
Qed.

End StateRecord.

(** ** Running statements *)

Section Steps.

Context {A B : Type}.

Lemma bind_mret (a : A) (f : A -> M B) st : (mret a ≫= f) st = f a st.
Proof. reflexivity. Qed.

Lemma bind_pure_next (a : A) (f : A -> M B) st : (pure (Next a) ≫= f) st = f a st.
Proof. reflexivity. Qed.

Lemma bind_pure_return diags (f : A -> M B) st :
  (pure (Return diags) ≫= f) st = (Return diags, st).
Proof. reflexivity. Qed.

Lemma bind_pure_panic msg (f : A -> M B) st :
  (pure (Panic msg) ≫= f) st = (Panic msg, st).
Proof. reflexivity. Qed.

Lemma bind_getData (f : ResourceData -> M B) st : (getData ≫= f) st = f (rd st) st.
Proof. reflexivity. Qed.

Lemma bind_setId id (f : unit -> M B) st :
  (setId id ≫= f) st = f tt (mkState (SetId id (rd st)) (calls st)).
Proof. reflexivity. Qed.

Lemma bind_remote (cl : Call) (answer : list Call -> Result A) (f : Result A -> M B) st :
  (remote cl answer ≫= f) st
  = f (answer (calls st)) (mkState (rd st) (calls st ++ [cl])).
Proof. reflexivity. Qed.

End Steps.

Lemma Set_accepts sch key ty v d :
  sch !! key = Some ty -> accepts ty v = true -> Set_ sch key v d = inr (writeAttr key v d).
Proof.
  intros H Hv. unfold Set_. rewrite H. unfold accepts in Hv. by rewrite Hv.
Qed.

Lemma bind_set {B} sch key ty v (f : unit -> M B) st :
  sch !! key = Some ty -> accepts ty v = true ->
  (set sch key v ≫= f) st = f tt (mkState (writeAttr key v (rd st)) (calls st)).
Proof.
  intros H Hv. unfold mbind, M_bind, set. by rewrite (Set_accepts _ _ _ _ _ H Hv).
Qed.

(** Reading an attribute back after writes to the state record. *)
Lemma Get_writeAttr_ne sch key key' v d :
  key <> key' -> Get sch (writeAttr key v d) key' = Get sch d key'.
Proof.
  intros Hne. unfold Get, writeAttr. cbn [written planned].
  rewrite lookup_insert_ne by exact Hne. reflexivity.
Qed.

Lemma Get_writeAttr_eq sch key ty v d :
  sch !! key = Some ty -> hasType ty v = true -> Get sch (writeAttr key v d) key = v.
Proof.
  intros Hs Hv. unfold Get, writeAttr. cbn [written planned].
  rewrite Hs, lookup_insert_eq. cbn [coerce]. rewrite Hv. reflexivity.
Qed.

Lemma Get_SetId sch id d key : Get sch (SetId id d) key = Get sch d key.
Proof. reflexivity. Qed.

Lemma Get_written sch d key ty v :
  sch !! key = Some ty -> written d !! key = Some v -> hasType ty v = true ->
  Get sch d key = v.
Proof.
  intros Hs Hw Hv. unfold Get. rewrite Hs, Hw. cbn [coerce]. rewrite Hv. reflexivity.
Qed.

Lemma accepts_opt {T} ty (f : T -> Value) o :
  (forall x, hasType ty (f x) = true) -> accepts ty (optValue f o) = true.
Proof.
  intros H. destruct o as [x|]; simpl; [|done]. specialize (H x).
  unfold accepts. by destruct (f x).
Qed.

Lemma accepts_ints l : accepts (TypeList ElemInt) (optValue intsValue l) = true.
Proof.
  apply accepts_opt. intros x. simpl. by induction x.
Qed.

Lemma accepts_strings l : accepts (TypeList ElemString) (stringsValue l) = true.
Proof. simpl. by induction l. Qed.

Lemma quiet_bind {T S} (m : M T) (f : T -> M S) :
  quiet m -> (forall a, quiet (f a)) -> quiet (m ≫= f).
Proof.
  intros Hm Hf st. unfold mbind, M_bind. specialize (Hm st).
  destruct (m st) as [[a|diags|msg] st'] eqn:E; simpl in *; [|done..].
  by rewrite (Hf a st').
Qed.

Lemma quiet_set sch key v : quiet (set sch key v).
Proof. intros st. unfold set. by destruct (Set_ sch key v (rd st)). Qed.

Lemma quiet_pure {T} (o : Outcome T) : quiet (pure o).
Proof. done. Qed.

Lemma quiet_mret {T} (a : T) : quiet (mret a).
Proof. done. Qed.

Lemma quiet_return {T} diags : quiet (@return_ T diags).
Proof. done. Qed.

Lemma quiet_getData : quiet getData.
Proof. done. Qed.

Lemma quiet_setId id : quiet (setId id).
Proof. done. Qed.

Create HintDb quiet.
#[local] Hint Resolve quiet_set quiet_pure quiet_mret quiet_return quiet_getData
  quiet_setId : quiet.

Ltac quiet_tac :=
  repeat first
    [ apply quiet_bind; [|intros]
    | solve [auto with quiet]
    | match goal with
      | |- quiet (match ?x with _ => _ end) => destruct x
      | |- quiet (let '(_, _) := ?x in _) => destruct x
      | |- quiet (if ?x then _ else _) => destruct x
      end ].

(** Read makes one remote call, the fetch. *)
Lemma resourceJobRead_calls u c st :
  calls (resourceJobRead u c st).2 = (calls st ++ [CallGetJob (Id (rd st))])%list.
Proof.
  unfold resourceJobRead. rewrite bind_getData. cbv zeta. rewrite bind_remote.
  match goal with |- calls (?m ?s).2 = _ => change (calls (m s).2 = calls s) end.
  match goal with |- calls (?m ?s).2 = _ => generalize s; change (quiet m) end.
  quiet_tac.
Qed.

#[local] Opaque Get HasChange.

(** ** Proof automation *)

(** Type assertions on [d.Get] never fail for an attribute of the schema. *)
Ltac typed_gets :=
  repeat first
    [ rewrite asString_Get by reflexivity
    | rewrite asInt_Get by reflexivity
    | rewrite asBool_Get by reflexivity
    | erewrite asList_Get by reflexivity
    | erewrite asMap_Get by reflexivity
    | rewrite assertEach_strings by (eapply GetList_elems; reflexivity)
    | rewrite assertEach_ints by (eapply GetList_elems; reflexivity) ].

(** One step of the statements that only read the state record. *)
Ltac run_pure :=
  cbn [mbind Outcome_bind mret Outcome_ret must].

(** With a single changed key [H], every [HasChange] is decided by
    comparing the names. *)
Ltac only_change H :=
  match type of H with
  | changedKeys ?sch ?d = [_] =>
      let Hc := fresh "Hc" in
      let hc := fresh "hc" in
      pose proof (fun k => HasChange_only sch d _ k H) as Hc;
      set (hc := HasChange sch d) in *;
      rewrite ?Hc;
      cbn [String.eqb Ascii.eqb Bool.eqb orb];
      clearbody hc; clear Hc hc
  end.

Section JobUpdate.
Context (u : Helpers) (c : Client).

(** The shape of a run of Update once the guard holds and the fetch
    succeeds. *)
Lemma resourceJobUpdate_fetched d h job :
  jobUpdateGuard d = true ->
  GetJob c h (Id d) = Ok job ->
  resourceJobUpdate u c (mkState d h)
  = match applyJobChanges u d job with
    | Next job' =>
        let h' := (h ++ [CallGetJob (Id d)] ++ [CallUpdateJob (Id d) job'])%list in
        match UpdateJob c (h ++ [CallGetJob (Id d)]) (Id d) job' with
        | Err err => (Return (FromErr err), mkState d h')
        | Ok _ => call (resourceJobRead u c) (mkState d h')
        end
    | Return diags => (Return diags, mkState d (h ++ [CallGetJob (Id d)]))
    | Panic msg => (Panic msg, mkState d (h ++ [CallGetJob (Id d)]))
    end.
Proof.
  intros Hg Hf. unfold resourceJobUpdate. rewrite bind_getData. cbv zeta.
  cbn [rd calls]. rewrite Hg. unfold mbind at 1, M_bind at 1.
  rewrite bind_remote. cbn [rd calls]. rewrite Hf.
  destruct (applyJobChanges u d job) as [job'|diags|msg]; try reflexivity.
  rewrite bind_pure_next, bind_remote. cbn [rd calls].
  rewrite <- app_assoc.
  destruct (UpdateJob c _ (Id d) job'); reflexivity.
Qed.

Lemma resourceJobUpdate_fetch_error d h err :
  jobUpdateGuard d = true ->
  GetJob c h (Id d) = Err err ->
  run (resourceJobUpdate u c) (mkState d h)
  = (Returned (FromErr err), mkState d (h ++ [CallGetJob (Id d)])).
Proof.
  intros Hg Hf. unfold run, resourceJobUpdate. rewrite bind_getData. cbv zeta.
  cbn [rd calls]. rewrite Hg. unfold mbind at 1, M_bind at 1.
  rewrite bind_remote. cbn [rd calls]. by rewrite Hf.
Qed.

Lemma resourceJobUpdate_unguarded d h :
  jobUpdateGuard d = false ->
  run (resourceJobUpdate u c) (mkState d h) = run (resourceJobRead u c) (mkState d h).
Proof.
  intros Hg. unfold run, resourceJobUpdate. rewrite bind_getData. cbv zeta.
  cbn [rd calls]. rewrite Hg. unfold mbind, M_bind, mret, M_ret, call.
  by destruct (resourceJobRead u c (mkState d h)) as [[?|?|?] ?].
Qed.

Lemma call_calls (h : M Diagnostics) st : calls (call h st).2 = calls (h st).2.
Proof. unfold call. by destruct (h st) as [[?|?|?] ?]. Qed.

Lemma run_calls (h : M Diagnostics) st : calls (run h st).2 = calls (h st).2.
Proof. unfold run. by destruct (h st) as [[?|?|?] ?]. Qed.

(** Once the merged job is computed, Update issues the fetch, then one
    update call carrying it, then at most the fetch of the final Read. *)
Lemma resourceJobUpdate_calls d h job job' :
  jobUpdateGuard d = true ->
  GetJob c h (Id d) = Ok job ->
  applyJobChanges u d job = Next job' ->
  exists rest,
    calls (run (resourceJobUpdate u c) (mkState d h)).2
    = (h ++ CallGetJob (Id d) :: CallUpdateJob (Id d) job' :: rest)%list
    /\ List.filter isUpdateCall rest = [].
Proof.
  intros Hg Hf Ha. rewrite run_calls, (resourceJobUpdate_fetched _ _ _ Hg Hf), Ha.
  cbv zeta. destruct (UpdateJob c _ (Id d) job').
  - exists [CallGetJob (Id d)]. split; [|done].
    rewrite call_calls, resourceJobRead_calls. cbn [rd calls].
    by rewrite <- List.app_assoc.
  - exists []. split; [|done]. reflexivity.
Qed.

Lemma jobSingleField_applied d job key assign :
  In (key, assign) (jobSingleField u) ->
  changedKeys jobSchema d = [key] ->
  jobUpdateGuard d = true /\ applyJobChanges u d job = Next (assign d job).
Proof.
  intros Hin H. unfold jobSingleField in Hin. cbn [In] in Hin.
  repeat match goal with Hx : _ \/ _ |- _ => destruct Hx as [Hx|Hx] end;
    [..|destruct Hin].
  all: apply pair_equal_spec in Hin as [<- <-].
  all: split; [unfold jobUpdateGuard; only_change H; reflexivity|].
  all: unfold applyJobChanges; only_change H; typed_gets; run_pure.
  all: try reflexivity.
  - rewrite assertEach_strings by (eapply GetList_elems; reflexivity). reflexivity.
  - unfold conditionTrigger.
    destruct (ExtractJobConditionSet u d) as [[[[] ?] ?] ?]; reflexivity.
Qed.

(** A change of [schedule_type] alone also clears the fields that do not
    match the new type. *)
Lemma retypeSchedule_applied d job :
  changedKeys jobSchema d = ["schedule_type"] ->
  jobUpdateGuard d = true
  /\ applyJobChanges u d job
     = Next (retypeSchedule (GetString jobSchema d "schedule_type") job).
Proof.
  intros H. split; [unfold jobUpdateGuard; only_change H; reflexivity|].
  unfold applyJobChanges; only_change H; typed_gets; run_pure. reflexivity.
Qed.

(** The guard misspells [triggers_on_draft_pr]: when that attribute alone
    is reported changed, the guard is false, although the assignments would
    have applied it. *)
Lemma draft_pr_unguarded d job :
  changedKeys jobSchema d = ["triggers_on_draft_pr"] ->
  jobUpdateGuard d = false
  /\ applyJobChanges u d job
     = Next (Job.with_TriggersOnDraftPR (GetBool jobSchema d "triggers_on_draft_pr") job).
Proof.
  intros H. split; [unfold jobUpdateGuard; only_change H; reflexivity|].
  unfold applyJobChanges; only_change H; typed_gets; run_pure. reflexivity.
Qed.

End JobUpdate.

Lemma Next_inj {A} (a b : A) : Next a = Next b -> a = b.
Proof. intros H. injection H as H. exact H. Qed.

Lemma bind_outcome {A B} (m : Outcome A) (f : A -> Outcome B)
  (P : A -> Prop) (Q : Outcome B -> Prop) :
  (exists a, m = Next a /\ P a) -> (forall a, P a -> Q (f a)) -> Q (m ≫= f).
Proof. intros (a & -> & Ha) Hf. by apply Hf. Qed.

Lemma bind_next_inv {A B} (m : Outcome A) (f : A -> Outcome B) b :
  m ≫= f = Next b -> exists a, m = Next a /\ f a = Next b.
Proof. destruct m as [a| |]; [|discriminate..]. intros H. by exists a. Qed.

(** One conditional block of the assignments always goes on to the next
    one, unless it is the block of the triggers or of [self_deferring]. *)
Ltac plain_block :=
  repeat (progress (typed_gets; run_pure));
  repeat match goal with
    | |- context [if HasChange ?s ?d ?k then _ else _] => destruct (HasChange s d k)
    | |- context [if Nat.ltb ?a ?b then _ else _] => destruct (Nat.ltb a b)
    | |- context [ExtractJobConditionSet ?u ?d] =>
        destruct (ExtractJobConditionSet u d) as [[[[] ?] ?] ?]
    end;
  run_pure; eexists; (split; [reflexivity|]).

Section JobChanges.
Context (u : Helpers).

Lemma triggersComplete_lookups m :
  triggersComplete m = true ->
  exists b1 b2 b3,
    lookupBool m "github_webhook" = (b1, true)
    /\ lookupBool m "git_provider_webhook" = (b2, true)
    /\ lookupBool m "schedule" = (b3, true).
Proof.
  unfold triggersComplete.
  destruct (lookupBool m "github_webhook") as [b1 []];
  destruct (lookupBool m "git_provider_webhook") as [b2 []];
  destruct (lookupBool m "schedule") as [b3 []]; try discriminate.
  intros _. by exists b1, b2, b3.
Qed.

Ltac keeps_id :=
  repeat match goal with |- context [if ?b then _ else _] => destruct b end;
  first [assumption|reflexivity].

Ltac next_block P := apply (bind_outcome _ _ P); [|intros ? ?].

Lemma applyJobChanges_total d job :
  (HasChange jobSchema d "triggers" = true ->
   triggersComplete (GetMap jobSchema d "triggers") = true) ->
  (HasChange jobSchema d "self_deferring" = true ->
   Get jobSchema d "self_deferring" = VBool true -> Job.ID job <> None) ->
  exists job', applyJobChanges u d job = Next job'.
Proof.
  intros Ht Hs. unfold applyJobChanges.
  do 10 (next_block (fun j => Job.ID j = Job.ID job);
         [plain_block; keeps_id|]).
  next_block (fun j => Job.ID j = Job.ID job).
  { destruct (HasChange jobSchema d "triggers"); [|by eexists].
    typed_gets; run_pure.
    destruct (triggersComplete_lookups _ (Ht eq_refl)) as (b1 & b2 & b3 & -> & -> & ->).
    by eexists. }
  do 7 (next_block (fun j => Job.ID j = Job.ID job);
         [plain_block; keeps_id|]).
  next_block (fun j => Job.ID j = Job.ID job).
  { destruct (HasChange jobSchema d "self_deferring"); [|by eexists].
    destruct (bool_decide_reflect (Get jobSchema d "self_deferring" = VBool true)) as [E|E].
    - specialize (Hs eq_refl E).
      match goal with H : Job.ID ?a = Job.ID job |- _ =>
        destruct (Job.ID a) as [z|] eqn:E';
          [|exfalso; apply Hs; symmetry; exact H];
        run_pure; eexists; split; [reflexivity|];
        change (Job.ID a = Job.ID job); rewrite E'; exact H
      end.
    - plain_block. assumption. }
  do 3 (next_block (fun j => Job.ID j = Job.ID job);
         [plain_block; keeps_id|]).
  by eexists.
Qed.

(** When the new triggers lack one of the three flags, the assignments stop
    with the error that names the first one missing. *)
Lemma applyJobChanges_missing d job key :
  HasChange jobSchema d "triggers" = true ->
  missingTrigger (GetMap jobSchema d "triggers") = Some key ->
  applyJobChanges u d job = Return (FromErr (key ++ " was not provided")).
Proof.
  intros Ht Hm. unfold applyJobChanges.
  do 10 (next_block (fun j : Job.t => True); [plain_block; exact I|]).
  rewrite Ht. typed_gets; run_pure. revert Hm. unfold missingTrigger.
  destruct (lookupBool _ "github_webhook") as [b1 []]; cbn [snd negb];
    [|by intros [= <-]].
  destruct (lookupBool _ "git_provider_webhook") as [b2 []]; cbn [snd negb];
    [|by intros [= <-]].
  destruct (lookupBool _ "schedule") as [b3 []]; cbn [snd negb];
    [discriminate|by intros [= <-]].
Qed.

Ltac block_fact H :=
  revert H; repeat (progress (typed_gets; run_pure));
  repeat match goal with
    | |- context [if HasChange ?s ?d ?k then _ else _] => destruct (HasChange s d k)
    | |- context [if bool_decide ?P then _ else _] => destruct (bool_decide P)
    | |- context [deref (Job.ID ?j)] => destruct (Job.ID j)
    | |- context [ExtractJobConditionSet ?u ?d] =>
        destruct (ExtractJobConditionSet u d) as [[[[] ?] ?] ?]
    end;
  repeat (progress (typed_gets; run_pure)); cbn [deref must];
  first [intros [= <-]; reflexivity | intros [=]].

(** The schedule fields of the merged job after a change of
    [schedule_type]: the blocks that follow leave the schedule alone. *)
Lemma applyJobChanges_schedule_type d job job' :
  HasChange jobSchema d "schedule_type" = true ->
  applyJobChanges u d job = Next job' ->
  exists before,
    JobSchedule.Date (Job.Schedule job')
    = JobSchedule.Date
        (Job.Schedule (retypeSchedule (GetString jobSchema d "schedule_type") before))
    /\ (HasChange jobSchema d "schedule_cron" = true ->
        ScheduleDate.Cron (JobSchedule.Date (Job.Schedule before))
        = Some (GetString jobSchema d "schedule_cron")).
Proof.
  intros Ht H. unfold applyJobChanges in H.
  do 14 (apply bind_next_inv in H as (? & _ & H)).
  apply bind_next_inv in H as (before & Hcron & H).
  apply bind_next_inv in H as (j16 & Htype & H).
  apply bind_next_inv in H as (j17 & H17 & H).
  apply bind_next_inv in H as (j18 & H18 & H).
  apply bind_next_inv in H as (j19 & H19 & H).
  apply bind_next_inv in H as (j20 & H20 & H).
  apply bind_next_inv in H as (j21 & H21 & H).
  apply bind_next_inv in H as (j22 & H22 & H).
  injection H as <-.
  assert (Job.Schedule j17 = Job.Schedule j16) as E17.
  { block_fact H17. }
  assert (Job.Schedule j18 = Job.Schedule j17) as E18.
  { block_fact H18. }
  assert (Job.Schedule j19 = Job.Schedule j18) as E19.
  { block_fact H19. }
  assert (Job.Schedule j20 = Job.Schedule j19) as E20.
  { block_fact H20. }
  assert (Job.Schedule j21 = Job.Schedule j20) as E21.
  { block_fact H21. }
  assert (Job.Schedule j22 = Job.Schedule j21) as E22.
  { block_fact H22. }
  rewrite E22, E21, E20, E19, E18, E17. clear H17 H18 H19 H20 H21 H22.
  exists before. split.
  - clear Hcron. revert Htype. rewrite Ht. typed_gets; run_pure.
    intros <-%Next_inj. reflexivity.
  - intros Hc. revert Hcron. rewrite Hc. typed_gets; run_pure.
    intros <-%Next_inj. reflexivity.
Qed.

Lemma retypeSchedule_date t job :
  let date := JobSchedule.Date (Job.Schedule (retypeSchedule t job)) in
  ScheduleDate.Type_ date = t
  /\ (t = "days_of_week" \/ t = "every_day" -> ScheduleDate.Cron date = None)
  /\ (t = "custom_cron" \/ t = "every_day" -> ScheduleDate.Days date = None)
  /\ (t = "custom_cron" ->
      ScheduleDate.Cron date = ScheduleDate.Cron (JobSchedule.Date (Job.Schedule job))).
Proof.
  cbv zeta. unfold retypeSchedule.
  repeat split.
  - destruct (_ || _), (_ || _); reflexivity.
  - intros [-> | ->]; reflexivity.
  - intros [-> | ->]; reflexivity.
  - intros ->. reflexivity.
Qed.

End JobChanges.

Section JobReadDelete.
Context (u : Helpers) (c : Client).

(** Read on a job that the remote no longer has: the identity is cleared
    and no error is reported. *)
Lemma resourceJobRead_not_found d h err :
  GetJob c h (Id d) = Err err ->
  Go.HasPrefix err "resource-not-found" = true ->
  run (resourceJobRead u c) (mkState d h)
  = (Returned [], mkState (SetId EmptyString d) (h ++ [CallGetJob (Id d)])).
Proof.
  intros Hf Hp. unfold run, resourceJobRead. rewrite bind_getData. cbv zeta.
  rewrite bind_remote. cbn [rd calls]. rewrite Hf, Hp. reflexivity.
Qed.

(** Any other failure of the fetch is reported, and the identity kept. *)
Lemma resourceJobRead_fetch_error d h err :
  GetJob c h (Id d) = Err err ->
  Go.HasPrefix err "resource-not-found" = false ->
  run (resourceJobRead u c) (mkState d h)
  = (Returned (FromErr err), mkState d (h ++ [CallGetJob (Id d)])).
Proof.
  intros Hf Hp. unfold run, resourceJobRead. rewrite bind_getData. cbv zeta.
  rewrite bind_remote. cbn [rd calls]. rewrite Hf, Hp. reflexivity.
Qed.

Lemma resourceJobDelete_fetch_error d h err :
  GetJob c h (Id d) = Err err ->
  run (resourceJobDelete c) (mkState d h)
  = (Returned (FromErr err), mkState d (h ++ [CallGetJob (Id d)])).
Proof.
  intros Hf. unfold run, resourceJobDelete. rewrite bind_getData. cbv zeta.
  rewrite bind_remote. cbn [rd calls]. rewrite Hf. reflexivity.
Qed.

(** Delete of a job: the fetch, then the update call with the state set to
    the deleted sentinel; the state record is left as it is. *)
Lemma resourceJobDelete_fetched d h job :
  GetJob c h (Id d) = Ok job ->
  run (resourceJobDelete c) (mkState d h)
  = (Returned
       match UpdateJob c (h ++ [CallGetJob (Id d)]) (Id d)
               (Job.with_State STATE_DELETED job) with
       | Ok _ => []
       | Err err => FromErr err
       end,
     mkState d (h ++ [CallGetJob (Id d);
                      CallUpdateJob (Id d) (Job.with_State STATE_DELETED job)])).
Proof.
  intros Hf. unfold run, resourceJobDelete. rewrite bind_getData. cbv zeta.
  rewrite bind_remote. cbn [rd calls]. rewrite Hf. rewrite bind_remote. cbn [rd calls].
  rewrite <- List.app_assoc. cbn [app].
  destruct (UpdateJob c _ _ _); reflexivity.
Qed.

End JobReadDelete.

(** A [d.Set] of a value of the attribute's type goes through. *)
Ltac accepts_tac :=
  first [ reflexivity
        | apply accepts_ints
        | apply accepts_strings
        | apply accepts_opt; intros; reflexivity ].

Ltac run_set :=
  erewrite bind_set; [ | reflexivity | accepts_tac ]; cbn [rd calls].

Lemma run_state (h : M Diagnostics) st : (run h st).2 = (h st).2.
Proof. unfold run. by destruct (h st) as [[?|?|?] ?]. Qed.

Lemma bind_return_state {A B} (m : M A) diags st :
  ((m ≫= fun _ => @return_ B diags) st).2 = (m st).2.
Proof. unfold mbind, M_bind. by destruct (m st) as [[?|?|?] ?]. Qed.

Lemma set_Get_ne sch key v st key' :
  key <> key' -> Get sch (rd (set sch key v st).2) key' = Get sch (rd st) key'.
Proof.
  intros Hne. unfold set, Set_. destruct (sch !! key) as [ty|]; [|reflexivity].
  destruct (match v with VNil => true | _ => hasType ty v end); [|reflexivity].
  cbn [snd rd]. apply (Get_writeAttr_ne sch key key' v (rd st) Hne).
Qed.

Section JobReadTriggers.
Context (u : Helpers) (c : Client).

(** Read writes the triggers of the remote job with the configured
    [custom_branch_only] put on top. *)
Lemma resourceJobRead_custom_branch_only d h job b :
  GetJob c h (Id d) = Ok job ->
  GetMap jobSchema d "triggers" !! "custom_branch_only" = Some (SBool b) ->
  Get jobSchema (rd (run (resourceJobRead u c) (mkState d h)).2) "triggers"
  = VMap (<["custom_branch_only" := SBool b]> (marshalJobTrigger u (Job.Triggers job))).
Proof.
  intros Hf Hb. rewrite run_state. unfold resourceJobRead.
  rewrite bind_getData. cbv zeta. rewrite bind_remote. cbn [rd calls]. rewrite Hf.
  do 16 run_set.
  match goal with |- context [negb ?x] => generalize x; intros selfDeferring end.
  destruct selfDeferring; cbn [negb]; [rewrite bind_mret|run_set].
  all: do 3 run_set.
  all: rewrite bind_getData; cbn [rd calls].
  all: rewrite !Get_writeAttr_ne by discriminate.
  all: erewrite asMap_Get by reflexivity.
  all: cbn [must]; rewrite bind_pure_next.
  all: unfold lookupBool at 1; rewrite Hb.
  all: do 2 run_set.
  all: rewrite bind_return_state.
  all: destruct (Job.JobCompletionTrigger job).
  all: rewrite set_Get_ne by discriminate.
  all: cbn [rd]; rewrite Get_writeAttr_ne by discriminate.
  all: apply (Get_writeAttr_eq jobSchema "triggers" (TypeMap ElemBool)); reflexivity.
Qed.

End JobReadTriggers.

Section ConnectionUpdate.
Context (c : Client).

(** Read makes one remote call, the fetch. *)
Lemma resourceConnectionRead_calls st p e :
  CompositeID.decode (Id (rd st)) = Done (p, e) ->
  calls (resourceConnectionRead c st).2 = (calls st ++ [CallGetConnection e p])%list.
Proof.
  intros Hd. unfold resourceConnectionRead. rewrite bind_getData, Hd.
  cbn [must]. rewrite bind_pure_next, bind_remote.
  match goal with |- calls (?m ?s).2 = _ => change (calls (m s).2 = calls s) end.
  match goal with |- calls (?m ?s).2 = _ => generalize s; change (quiet m) end.
  quiet_tac.
Qed.

(** With an identifier that lacks the delimiter, the handlers of the
    connection panic before any remote call. *)
Lemma connection_handlers_crash st :
  Go.Contains (Id (rd st)) ID_DELIMITER = false ->
  run (resourceConnectionRead c) st = (Crashed "index out of range", st)
  /\ run (resourceConnectionUpdate c) st = (Crashed "index out of range", st)
  /\ run (resourceConnectionDelete c) st = (Crashed "index out of range", st).
Proof.
  intros H. apply decode_no_delimiter in H.
  unfold run, resourceConnectionRead, resourceConnectionUpdate, resourceConnectionDelete.
  rewrite !bind_getData, H. cbn [must]. rewrite !bind_pure_panic. done.
Qed.

Lemma resourceConnectionRead_fetch_error d h p e err :
  CompositeID.decode (Id d) = Done (p, e) ->
  GetConnection c h e p = Err err ->
  run (resourceConnectionRead c) (mkState d h)
  = (Returned (FromErr err), mkState d (h ++ [CallGetConnection e p])).
Proof.
  intros Hd Hf. unfold run, resourceConnectionRead. rewrite bind_getData. cbn [rd].
  rewrite Hd. cbn [must]. rewrite bind_pure_next, bind_remote. cbn [rd calls].
  rewrite Hf. reflexivity.
Qed.

(** Delete of a connection: one delete call, no fetch and no update. *)
Lemma resourceConnectionDelete_decoded d h p e :
  CompositeID.decode (Id d) = Done (p, e) ->
  run (resourceConnectionDelete c) (mkState d h)
  = (Returned match DeleteConnection c h e p with Ok _ => [] | Err err => FromErr err end,
     mkState d (h ++ [CallDeleteConnection e p])).
Proof.
  intros Hd. unfold run, resourceConnectionDelete. rewrite bind_getData. cbn [rd].
  rewrite Hd. cbn [must]. rewrite bind_pure_next, bind_remote. cbn [rd calls].
  destruct (DeleteConnection c h e p); reflexivity.
Qed.

Lemma resourceConnectionUpdate_calls d h p e connection connection' :
  CompositeID.decode (Id d) = Done (p, e) ->
  connectionUpdateGuard d = true ->
  GetConnection c h e p = Ok connection ->
  applyConnectionChanges d connection = Next connection' ->
  exists rest,
    calls (run (resourceConnectionUpdate c) (mkState d h)).2
    = (h ++ CallGetConnection e p :: CallUpdateConnection e p connection' :: rest)%list
    /\ List.filter isUpdateCall rest = [].
Proof.
  intros Hd Hg Hf Ha. rewrite run_calls. unfold resourceConnectionUpdate.
  rewrite bind_getData. cbn [rd]. rewrite Hd. cbn [must]. rewrite bind_pure_next.
  rewrite Hg. unfold mbind at 1, M_bind at 1. rewrite bind_remote. cbn [rd calls].
  rewrite Hf, Ha, bind_pure_next, bind_remote. cbn [rd calls].
  destruct (UpdateConnection c _ e p connection').
  - exists [CallGetConnection e p]. split; [|reflexivity].
    unfold mret, M_ret. rewrite call_calls.
    rewrite (resourceConnectionRead_calls _ p e) by exact Hd. cbn [calls].
    rewrite <- !List.app_assoc. reflexivity.
  - exists []. split; [|reflexivity]. cbn [snd calls].
    rewrite <- !List.app_assoc. reflexivity.
Qed.

Lemma connectionSingleField_applied d connection key assign :
  In (key, assign) connectionSingleField ->
  changedKeys connectionSchema d = [key] ->
  connectionUpdateGuard d = true
  /\ applyConnectionChanges d connection = Next (assign d connection).
Proof.
  intros Hin H. unfold connectionSingleField in Hin. cbn [In] in Hin.
  repeat match goal with Hx : _ \/ _ |- _ => destruct Hx as [Hx|Hx] end;
    [..|destruct Hin].
  all: apply pair_equal_spec in Hin as [<- <-].
  all: split; [unfold connectionUpdateGuard; only_change H; reflexivity|].
  all: unfold applyConnectionChanges; only_change H; typed_gets; run_pure.
  all: try reflexivity.
  destruct (String.eqb (Connection.Type_ connection) "snowflake"); reflexivity.
Qed.

(** The guard leaves out [host_name] and [port], which the assignments
    handle: a change of one of them alone issues no update call. *)
Lemma host_port_unguarded d key :
  key = "host_name" \/ key = "port" ->
  changedKeys connectionSchema d = [key] -> connectionUpdateGuard d = false.
Proof.
  intros [-> | ->] H; unfold connectionUpdateGuard; only_change H; reflexivity.
Qed.

End ConnectionUpdate.

Lemma scalarAsString_isString s :
  isString s = true -> scalarAsString s = Done (scalarString s).
Proof. by destruct s. Qed.

Lemma Get_VStr sch d key :
  sch !! key = Some TypeString -> VStr (GetString sch d key) = Get sch d key.
Proof.
  intros H. apply (Get_hasType sch d) in H. unfold GetString.
  by destruct (Get sch d key).
Qed.

Ltac lookup_written :=
  cbn [written writeAttr];
  repeat (rewrite lookup_insert_ne by discriminate);
  apply lookup_insert_eq.

Section ConnectionRead.
Context (c : Client).

(** The attributes of the schema besides the two OAuth ones are those of
    [remoteAttributes]. *)
Lemma remoteAttributes_cover connection key :
  is_Some (connectionSchema !! key) ->
  key <> "oauth_client_id" -> key <> "oauth_client_secret" ->
  exists v, In (key, v) (remoteAttributes connection).
Proof.
  intros [ty Hty] H1 H2. unfold connectionSchema in Hty.
  apply elem_of_list_to_map_2 in Hty.
  unfold remoteAttributes. cbv zeta.
  repeat (apply elem_of_cons in Hty as [Hty|Hty];
    [apply pair_equal_spec in Hty as [-> _];
     first [ destruct (H1 eq_refl) | destruct (H2 eq_refl)
           | eexists; cbn [In]; repeat (first [left; reflexivity | right]) ]|]).
  apply not_elem_of_nil in Hty. destruct Hty.
Qed.

Lemma resourceConnectionRead_fetched d h p e connection :
  CompositeID.decode (Id d) = Done (p, e) ->
  GetConnection c h e p = Ok connection ->
  adapterReadable connection = true ->
  let r := run (resourceConnectionRead c) (mkState d h) in
  r.1 = Returned []
  /\ calls r.2 = (h ++ [CallGetConnection e p])%list
  /\ Id (rd r.2) = Id d
  /\ written (rd r.2) !! "oauth_client_id" = Some (Get connectionSchema d "oauth_client_id")
  /\ written (rd r.2) !! "oauth_client_secret"
     = Some (Get connectionSchema d "oauth_client_secret")
  /\ forall key v, In (key, v) (remoteAttributes connection) ->
                   written (rd r.2) !! key = Some v.
Proof.
  intros Hd Hf Ha. cbv zeta. unfold run, resourceConnectionRead.
  rewrite bind_getData. cbn [rd]. rewrite Hd. cbn [must].
  rewrite bind_pure_next, bind_remote. cbn [rd calls]. rewrite Hf.
  rewrite !asString_Get by reflexivity. cbn [must]. rewrite bind_pure_next.
  cbv zeta. rewrite bind_pure_next.
  do 15 run_set.
  set (details := Connection.Details _).
  assert (ConnectionDetails.AdapterDetails details
          = ConnectionDetails.AdapterDetails (Connection.Details connection)) as Had
    by reflexivity.
  assert (exists httpPath catalog hostName,
    match ConnectionDetails.AdapterDetails details with
    | Some adapter =>
        pure (must (adapterField adapter "http_path"))
        ≫= λ httpPath : string,
             pure (must (adapterField adapter "catalog"))
             ≫= λ catalog : string,
                  pure (must (adapterField adapter "host"))
                  ≫= λ hostName : string, mret (httpPath, catalog, hostName)
    | None => mret (EmptyString, EmptyString, ConnectionDetails.Host details)
    end = (mret (httpPath, catalog, hostName) : M _)
    /\ httpPath = adapterString connection "http_path" EmptyString
    /\ catalog = adapterString connection "catalog" EmptyString
    /\ hostName = adapterString connection "host"
                    (ConnectionDetails.Host (Connection.Details connection)))
    as (httpPath & catalog & hostName & -> & Hh & Hc & Hn).
  { unfold adapterReadable in Ha. unfold adapterString. rewrite Had.
    destruct (ConnectionDetails.AdapterDetails (Connection.Details connection)) as [a|].
    - apply andb_prop in Ha as [[H1 H2]%andb_prop H3].
      unfold adapterField.
      rewrite !scalarAsString_isString by assumption.
      do 3 eexists. split; [reflexivity|]. repeat split.
    - do 3 eexists. split; [reflexivity|]. repeat split. }
  rewrite bind_mret. do 4 run_set.
  cbn [fst snd rd calls return_].
  split; [reflexivity|]. split; [reflexivity|]. split; [reflexivity|].
  split; [|split].
  - etransitivity; [lookup_written|]. f_equal. subst details. cbn.
    apply Get_VStr. reflexivity.
  - etransitivity; [lookup_written|]. f_equal. subst details. cbn.
    apply Get_VStr. reflexivity.
  - intros key v Hin. unfold remoteAttributes in Hin. cbv zeta in Hin. cbn [In] in Hin.
    subst httpPath catalog hostName.
    repeat match goal with Hx : _ \/ _ |- _ => destruct Hx as [Hx|Hx] end;
      [..|destruct Hin].
    all: apply pair_equal_spec in Hin as [<- <-].
    all: lookup_written.
Qed.

End ConnectionRead.

(** ** Further steps of the Read of a job and of the Update of a connection *)

Lemma set_written_ne sch key v st key' :
  key <> key' ->
  written (rd (set sch key v st).2) !! key' = written (rd st) !! key'.
Proof.
  intros Hne. unfold set, Set_. destruct (sch !! key) as [ty|]; [|reflexivity].
  destruct (match v with VNil => true | _ => hasType ty v end); [|reflexivity].
  cbn [snd rd written]. apply lookup_insert_ne. exact Hne.
Qed.

Section JobReadTriggersWritten.
Context (u : Helpers) (c : Client).

(** Read writes the triggers of the remote job with the configured
    [custom_branch_only] put on top, whether or not the last [d.Set], of the
    job-completion condition, goes through. *)
Lemma resourceJobRead_triggers_written d h job b :
  GetJob c h (Id d) = Ok job ->
  GetMap jobSchema d "triggers" !! "custom_branch_only" = Some (SBool b) ->
  written (rd (run (resourceJobRead u c) (mkState d h)).2) !! "triggers"
  = Some (VMap (<["custom_branch_only" := SBool b]>
                  (marshalJobTrigger u (Job.Triggers job)))).
Proof.
  intros Hf Hb. rewrite run_state. unfold resourceJobRead.
  rewrite bind_getData. cbv zeta. rewrite bind_remote. cbn [rd calls]. rewrite Hf.
  do 16 run_set.
  match goal with |- context [negb ?x] => generalize x; intros selfDeferring end.
  destruct selfDeferring; cbn [negb]; [rewrite bind_mret|run_set].
  all: do 3 run_set.
  all: rewrite bind_getData; cbn [rd calls].
  all: rewrite !Get_writeAttr_ne by discriminate.
  all: erewrite asMap_Get by reflexivity.
  all: cbn [must]; rewrite bind_pure_next.
  all: unfold lookupBool at 1; rewrite Hb.
  all: do 2 run_set.
  all: rewrite bind_return_state.
  all: destruct (Job.JobCompletionTrigger job).
  all: rewrite set_written_ne by discriminate.
  all: cbn [rd]; lookup_written.
Qed.

End JobReadTriggersWritten.

Ltac connection_block :=
  repeat (progress (typed_gets; run_pure));
  repeat match goal with
    | |- context [if HasChange ?s ?d ?k then _ else _] => destruct (HasChange s d k)
    | |- context [if String.eqb ?a ?b then _ else _] => destruct (String.eqb a b)
    end;
  run_pure; eexists; (split; [reflexivity|]).

Section ConnectionAddressed.
Context (c : Client).

(** Without a change under its guard, an Update of the connection is a
    Read. *)
Lemma resourceConnectionUpdate_unguarded st :
  connectionUpdateGuard (rd st) = false ->
  run (resourceConnectionUpdate c) st = run (resourceConnectionRead c) st.
Proof.
  intros Hg. unfold run at 1, resourceConnectionUpdate. rewrite bind_getData, Hg.
  destruct (CompositeID.decode (Id (rd st))) as [[p e]|msg] eqn:Hd; cbn [must].
  - rewrite bind_pure_next. unfold mbind, M_bind, mret, M_ret, call, run.
    destruct (resourceConnectionRead c st) as [[?|?|?] ?]; reflexivity.
  - rewrite bind_pure_panic. unfold run, resourceConnectionRead.
    rewrite bind_getData, Hd. cbn [must]. rewrite bind_pure_panic. reflexivity.
Qed.

(** The assignments of a connection Update always go through, and never
    touch the identifier, the state and the project of the connection, nor
    its tunnel flag and adapter fields. *)
Lemma applyConnectionChanges_total d connection :
  exists payload,
    applyConnectionChanges d connection = Next payload
    /\ Connection.ID payload = Connection.ID connection
    /\ Connection.State payload = Connection.State connection
    /\ Connection.ProjectID payload = Connection.ProjectID connection
    /\ ConnectionDetails.TunnelEnabled (Connection.Details payload)
       = ConnectionDetails.TunnelEnabled (Connection.Details connection)
    /\ ConnectionDetails.AdapterId (Connection.Details payload)
       = ConnectionDetails.AdapterId (Connection.Details connection)
    /\ ConnectionDetails.AdapterDetails (Connection.Details payload)
       = ConnectionDetails.AdapterDetails (Connection.Details connection).
Proof.
  unfold applyConnectionChanges.
  set (P := fun x : Connection.t =>
    Connection.ID x = Connection.ID connection
    /\ Connection.State x = Connection.State connection
    /\ Connection.ProjectID x = Connection.ProjectID connection
    /\ ConnectionDetails.TunnelEnabled (Connection.Details x)
       = ConnectionDetails.TunnelEnabled (Connection.Details connection)
    /\ ConnectionDetails.AdapterId (Connection.Details x)
       = ConnectionDetails.AdapterId (Connection.Details connection)
    /\ ConnectionDetails.AdapterDetails (Connection.Details x)
       = ConnectionDetails.AdapterDetails (Connection.Details connection)).
  do 12 (apply (bind_outcome _ _ P);
         [connection_block;
          first [ assumption | unfold P; repeat split; reflexivity ]
         |intros ? ?]).
  eexists. split; [reflexivity|]. assumption.
Qed.

(** Every call of a connection Update goes to the connection and the
    project that the identifier decodes to, the fetch first. *)
Lemma resourceConnectionUpdate_addressed d h p e :
  CompositeID.decode (Id d) = Done (p, e) ->
  exists more,
    calls (run (resourceConnectionUpdate c) (mkState d h)).2
    = (h ++ CallGetConnection e p :: more)%list
    /\ Forall (fun call =>
                 call = CallGetConnection e p
                 \/ exists payload, call = CallUpdateConnection e p payload) more.
Proof.
  intros Hd.
  destruct (connectionUpdateGuard d) eqn:Hg.
  2:{ exists []. rewrite (resourceConnectionUpdate_unguarded (mkState d h) Hg).
      rewrite run_calls, (resourceConnectionRead_calls c (mkState d h) _ _ Hd).
      split; [reflexivity|apply List.Forall_nil]. }
  rewrite run_calls. unfold resourceConnectionUpdate.
  rewrite bind_getData. cbn [rd]. rewrite Hd. cbn [must]. rewrite bind_pure_next, Hg.
  unfold mbind at 1, M_bind at 1. rewrite bind_remote. cbn [rd calls].
  destruct (GetConnection c h e p) as [connection|err].
  2:{ exists []. split; [reflexivity|apply List.Forall_nil]. }
  destruct (applyConnectionChanges_total d connection) as (payload & Ha & _).
  rewrite Ha, bind_pure_next, bind_remote. cbn [rd calls].
  destruct (UpdateConnection c _ e p payload).
  - exists [CallUpdateConnection e p payload; CallGetConnection e p].
    split.
    + unfold mret, M_ret. rewrite call_calls.
      rewrite (resourceConnectionRead_calls c _ p e) by exact Hd. cbn [calls].
      rewrite <- !List.app_assoc. reflexivity.
    + apply List.Forall_cons; [right; eexists; reflexivity|].
      apply List.Forall_cons; [left; reflexivity|]. apply List.Forall_nil.
  - exists [CallUpdateConnection e p payload]. split.
    + cbn [snd calls]. rewrite <- !List.app_assoc. reflexivity.
    + apply List.Forall_cons; [right; eexists; reflexivity|]. apply List.Forall_nil.
Qed.

End ConnectionAddressed.

(** * The claims *)

(** C2. Decoding the composite identifier made of two integers gives back
    their decimal renderings, from which the integers are read back
    unchanged: the identifier goes through encode and decode without loss. *)
Theorem C2_decode_encode_roundtrip (parentID entityID : Z) :
  CompositeID.decode (CompositeID.encode parentID entityID)
  = Done (Go.Itoa parentID, Go.Itoa entityID)
  /\ Go.ParseInt (Go.Itoa parentID) = Some parentID
  /\ Go.ParseInt (Go.Itoa entityID) = Some entityID.
Proof.
  split; [apply decode_encode|]. split; apply ParseInt_Itoa.
Qed.

(** C6, as stated, does not hold: decoding ["abc:x"] succeeds although
    neither half is an integer, and decoding ["42"], which lacks the
    delimiter, panics instead of returning an error. *)
Lemma C6_counterexample :
  CompositeID.decode "abc:x" = Done ("abc", "x")
  /\ Go.ParseInt "abc" = None /\ Go.ParseInt "x" = None
  /\ CompositeID.decode "42" = Panics "index out of range"
  /\ (run (resourceConnectionRead goneClient)
        (mkState (mkResourceData "42" ∅ ∅ ∅) [])).1
     = Crashed "index out of range".
Proof. repeat split; vm_compute; reflexivity. Qed.

(** C6, amended. Decoding validates nothing. On an identifier that lacks
    the delimiter it panics with an index out of range, and so do the Read,
    Update and Delete of a connection, before any remote call; on an
    identifier that has the delimiter it succeeds, with the text before the
    first delimiter and the text up to the next one as the two halves,
    integers or not, and the handlers hand the two halves to the client as
    strings: the Read fetches the second half in the first, the Delete
    deletes it there, and every call of the Update, the fetch first, is
    addressed to them. *)
Theorem C6_decode_unchecked (id : string) :
  (Go.Contains id ID_DELIMITER = false ->
   CompositeID.decode id = Panics "index out of range"
   /\ forall c d h,
        Id d = id ->
        run (resourceConnectionRead c) (mkState d h)
        = (Crashed "index out of range", mkState d h)
        /\ run (resourceConnectionUpdate c) (mkState d h)
           = (Crashed "index out of range", mkState d h)
        /\ run (resourceConnectionDelete c) (mkState d h)
           = (Crashed "index out of range", mkState d h))
  /\ (Go.Contains id ID_DELIMITER = true ->
      exists first rest,
        id = first ++ ID_DELIMITER ++ rest
        /\ Go.Contains first ID_DELIMITER = false
        /\ let second := hd EmptyString (Go.Split rest ID_DELIMITER) in
           CompositeID.decode id = Done (first, second)
           /\ forall c d h,
                Id d = id ->
                calls (run (resourceConnectionRead c) (mkState d h)).2
                = (h ++ [CallGetConnection second first])%list
                /\ calls (run (resourceConnectionDelete c) (mkState d h)).2
                   = (h ++ [CallDeleteConnection second first])%list
                /\ exists more,
                     calls (run (resourceConnectionUpdate c) (mkState d h)).2
                     = (h ++ CallGetConnection second first :: more)%list
                     /\ Forall (fun call =>
                                  call = CallGetConnection second first
                                  \/ exists payload,
                                       call = CallUpdateConnection second first payload)
                          more).
Proof.
  split.
  - intros H. split; [by apply decode_no_delimiter|].
    intros c d h <-. apply (connection_handlers_crash c (mkState d h) H).
  - intros H. unfold ID_DELIMITER in H. rewrite contains_colon in H.
    apply negb_true_iff in H. apply avoids_false_split in H as (a & rest & -> & Ha).
    exists a, rest. split; [reflexivity|]. split.
    + unfold ID_DELIMITER. rewrite contains_colon, Ha. reflexivity.
    + cbv zeta.
      pose proof (decode_first a rest Ha) as Hd. split; [exact Hd|].
      intros c d h Hid.
      assert (CompositeID.decode (Id d)
              = Done (a, hd EmptyString (Go.Split rest ID_DELIMITER))) as Hd'.
      { rewrite Hid. exact Hd. }
      clear Hd. rename Hd' into Hd. split; [|split].
      * rewrite run_calls.
        exact (resourceConnectionRead_calls c (mkState d h) _ _ Hd).
      * rewrite (resourceConnectionDelete_decoded c d h _ _ Hd). reflexivity.
      * exact (resourceConnectionUpdate_addressed c d h _ _ Hd).
Qed.

Lemma C6_witness :
  (Go.Contains "42" ID_DELIMITER = false
   /\ CompositeID.decode "42" = Panics "index out of range")
  /\ (Go.Contains "abc:x:y" ID_DELIMITER = true
      /\ exists first rest,
           "abc:x:y" = first ++ ID_DELIMITER ++ rest
           /\ Go.Contains first ID_DELIMITER = false
           /\ let second := hd EmptyString (Go.Split rest ID_DELIMITER) in
              CompositeID.decode "abc:x:y" = Done (first, second)
              /\ forall c d h,
                   Id d = "abc:x:y" ->
                   calls (run (resourceConnectionRead c) (mkState d h)).2
                   = (h ++ [CallGetConnection second first])%list
                   /\ calls (run (resourceConnectionDelete c) (mkState d h)).2
                      = (h ++ [CallDeleteConnection second first])%list
                   /\ exists more,
                        calls (run (resourceConnectionUpdate c) (mkState d h)).2
                        = (h ++ CallGetConnection second first :: more)%list
                        /\ Forall (fun call =>
                                     call = CallGetConnection second first
                                     \/ exists payload,
                                          call = CallUpdateConnection second first payload)
                             more).
Proof.
  split.
  - split; [reflexivity|].
    apply (proj1 (C6_decode_unchecked "42")). reflexivity.
  - split; [reflexivity|].
    apply (proj2 (C6_decode_unchecked "abc:x:y")). reflexivity.
Defined.

(** C1, as stated, does not hold: when [schedule_type] is the one attribute
    reported changed, from a custom cron schedule to every day, the payload
    of the update call differs from the fetched job in the cron expression
    too, which belongs to the attribute [schedule_cron], not reported
    changed. *)
Lemma C1_counterexample :
  let client := steadyClient cronJob sampleConnection in
  let log := calls (run (resourceJobUpdate sampleHelpers client)
                      (mkState retypeJob [])).2 in
  changedKeys jobSchema retypeJob = ["schedule_type"]
  /\ GetJob client [] "7" = Ok cronJob
  /\ exists payload,
       List.filter isUpdateCall log = [CallUpdateJob "7" payload]
       /\ ScheduleDate.Cron (JobSchedule.Date (Job.Schedule payload)) = None
       /\ ScheduleDate.Cron (JobSchedule.Date (Job.Schedule cronJob)) = Some "0 * * * *".
Proof.
  cbv zeta. split; [vm_compute; reflexivity|]. split; [reflexivity|].
  eexists. split; [vm_compute; reflexivity|]. split; reflexivity.
Qed.

(** C1, amended. When exactly one attribute is reported changed, it is one
    of those that stand for a single field of the entity (the tables
    [jobSingleField] and [connectionSingleField]) and the fetch succeeds,
    Update fetches the entity and then issues exactly one update call, whose
    payload is the fetched entity with that one field overwritten by the new
    value. A change of [schedule_type] alone overwrites the type and clears
    the schedule fields that do not match it. *)
Theorem C1_single_changed_attribute :
  (forall u c d h job key assign,
      In (key, assign) (jobSingleField u) ->
      changedKeys jobSchema d = [key] ->
      GetJob c h (Id d) = Ok job ->
      exists rest,
        calls (run (resourceJobUpdate u c) (mkState d h)).2
        = (h ++ CallGetJob (Id d) :: CallUpdateJob (Id d) (assign d job) :: rest)%list
        /\ List.filter isUpdateCall rest = [])
  /\ (forall c d h projectId connectionId connection key assign,
      In (key, assign) connectionSingleField ->
      changedKeys connectionSchema d = [key] ->
      CompositeID.decode (Id d) = Done (projectId, connectionId) ->
      GetConnection c h connectionId projectId = Ok connection ->
      exists rest,
        calls (run (resourceConnectionUpdate c) (mkState d h)).2
        = (h ++ CallGetConnection connectionId projectId
             :: CallUpdateConnection connectionId projectId (assign d connection)
             :: rest)%list
        /\ List.filter isUpdateCall rest = [])
  /\ (forall u c d h job,
      changedKeys jobSchema d = ["schedule_type"] ->
      GetJob c h (Id d) = Ok job ->
      exists rest,
        calls (run (resourceJobUpdate u c) (mkState d h)).2
        = (h ++ CallGetJob (Id d)
             :: CallUpdateJob (Id d)
                  (retypeSchedule (GetString jobSchema d "schedule_type") job)
             :: rest)%list
        /\ List.filter isUpdateCall rest = []).
Proof.
  split; [|split].
  - intros u c d h job key assign Hin Hch Hf.
    destruct (jobSingleField_applied u d job key assign Hin Hch) as [Hg Ha].
    exact (resourceJobUpdate_calls u c d h job _ Hg Hf Ha).
  - intros c d h p e connection key assign Hin Hch Hd Hf.
    destruct (connectionSingleField_applied d connection key assign Hin Hch) as [Hg Ha].
    exact (resourceConnectionUpdate_calls c d h p e connection _ Hd Hg Hf Ha).
  - intros u c d h job Hch Hf.
    destruct (retypeSchedule_applied u d job Hch) as [Hg Ha].
    exact (resourceJobUpdate_calls u c d h job _ Hg Hf Ha).
Qed.

Lemma C1_witness :
  (exists rest,
      calls (run (resourceJobUpdate sampleHelpers (steadyClient cronJob sampleConnection))
               (mkState renameJob [])).2
      = ([] ++ CallGetJob "7" :: CallUpdateJob "7" (Job.with_Name "hourly" cronJob) :: rest)%list
      /\ List.filter isUpdateCall rest = [])
  /\ (exists rest,
      calls (run (resourceConnectionUpdate (steadyClient cronJob sampleConnection))
               (mkState renameConnection [])).2
      = ([] ++ CallGetConnection "7" "42"
            :: CallUpdateConnection "7" "42" (Connection.with_Name "lakehouse" sampleConnection)
            :: rest)%list
      /\ List.filter isUpdateCall rest = []).
Proof.
  split.
  - apply (proj1 C1_single_changed_attribute sampleHelpers
             (steadyClient cronJob sampleConnection) renameJob [] cronJob "name"
             (fun d => Job.with_Name (GetString jobSchema d "name"))).
    + right. right. left. reflexivity.
    + vm_compute. reflexivity.
    + reflexivity.
  - apply (proj1 (proj2 C1_single_changed_attribute)
             (steadyClient cronJob sampleConnection) renameConnection [] "42" "7"
             sampleConnection "name"
             (fun d => Connection.with_Name (GetString connectionSchema d "name"))).
    + left. reflexivity.
    + vm_compute. reflexivity.
    + vm_compute. reflexivity.
    + reflexivity.
Defined.

(** C3 fails on the connection resource. The Read of a connection whose
    fetch fails with the not-found condition returns the error to the
    hosting runtime and keeps the identity, where the Read of a job clears
    it and returns no error. Evaluated on the connection ["42:7"] that the
    remote no longer has. *)
Theorem C3_connection_read_not_found :
  GetConnection goneClient [] "7" "42"
  = Err "resource-not-found: the connection does not exist"
  /\ run (resourceConnectionRead goneClient) (mkState oauthConnection [])
     = (Returned ["resource-not-found: the connection does not exist"],
        mkState oauthConnection [CallGetConnection "7" "42"])
  /\ Id oauthConnection = "42:7"
  /\ run (resourceJobRead sampleHelpers goneClient) (mkState renameJob [])
     = (Returned [], mkState (SetId EmptyString renameJob) [CallGetJob "7"]).
Proof.
  split; [reflexivity|]. split; [|split; [reflexivity|]].
  - apply (resourceConnectionRead_fetch_error goneClient oauthConnection [] "42" "7");
      reflexivity.
  - apply (resourceJobRead_not_found sampleHelpers goneClient renameJob []
             "resource-not-found: the job does not exist"); reflexivity.
Qed.

(** C4, as stated, does not hold for the connection: its Delete makes one
    call, a delete call, and neither fetches the connection nor issues an
    update call. *)
Lemma C4_counterexample :
  let log := calls (run (resourceConnectionDelete (steadyClient cronJob sampleConnection))
                      (mkState renameConnection [])).2 in
  log = [CallDeleteConnection "7" "42"]
  /\ List.filter isGetCall log = []
  /\ List.filter isUpdateCall log = []
  /\ List.filter isDeleteCall log = [CallDeleteConnection "7" "42"].
Proof. cbv zeta. repeat split; vm_compute; reflexivity. Qed.

(** C4, amended. The Delete of a job fetches the job, sets its state to the
    deleted sentinel and issues the update call of Update with it, and no
    delete call. The Delete of a connection, which is the generic connection
    delete, issues one delete call, without a fetch or an update call. *)
Theorem C4_delete_calls :
  (forall c d h job,
      GetJob c h (Id d) = Ok job ->
      calls (run (resourceJobDelete c) (mkState d h)).2
      = (h ++ [CallGetJob (Id d);
               CallUpdateJob (Id d) (Job.with_State STATE_DELETED job)])%list
      /\ Job.State (Job.with_State STATE_DELETED job) = STATE_DELETED)
  /\ (forall c d h projectId connectionId,
      CompositeID.decode (Id d) = Done (projectId, connectionId) ->
      calls (run (resourceConnectionDelete c) (mkState d h)).2
      = (h ++ [CallDeleteConnection connectionId projectId])%list).
Proof.
  split.
  - intros c d h job Hf. rewrite (resourceJobDelete_fetched c d h job Hf).
    split; reflexivity.
  - intros c d h p e Hd. rewrite (resourceConnectionDelete_decoded c d h p e Hd).
    reflexivity.
Qed.

Lemma C4_witness :
  (GetJob (steadyClient cronJob sampleConnection) [] "7" = Ok cronJob
   /\ calls (run (resourceJobDelete (steadyClient cronJob sampleConnection))
               (mkState renameJob [])).2
      = [CallGetJob "7"; CallUpdateJob "7" (Job.with_State 2 cronJob)])
  /\ (CompositeID.decode "42:7" = Done ("42", "7")
      /\ calls (run (resourceConnectionDelete (steadyClient cronJob sampleConnection))
                  (mkState renameConnection [])).2
         = [CallDeleteConnection "7" "42"]).
Proof.
  split; (split; [reflexivity|]).
  - apply (proj1 C4_delete_calls (steadyClient cronJob sampleConnection) renameJob []
             cronJob).
    reflexivity.
  - apply (proj2 C4_delete_calls (steadyClient cronJob sampleConnection)
             renameConnection [] "42" "7").
    reflexivity.
Defined.

(** C5. In a job Update where [schedule_type] changes (and that gets to
    its update call: the new triggers, if changed, have their three flags,
    and a job that turns self-deferring has an identifier), the payload has
    the new type, its cron expression is cleared when the type is
    [days_of_week] or [every_day], its days are cleared when the type is
    [custom_cron] or [every_day], and a cron expression changed in the same
    Update survives under [custom_cron]: the type is applied after the
    sub-fields. *)
Theorem C5_schedule_type_applied_last u c d h job :
  HasChange jobSchema d "schedule_type" = true ->
  GetJob c h (Id d) = Ok job ->
  (HasChange jobSchema d "triggers" = true ->
   triggersComplete (GetMap jobSchema d "triggers") = true) ->
  (HasChange jobSchema d "self_deferring" = true ->
   Get jobSchema d "self_deferring" = VBool true -> Job.ID job <> None) ->
  exists payload rest,
    calls (run (resourceJobUpdate u c) (mkState d h)).2
    = (h ++ CallGetJob (Id d) :: CallUpdateJob (Id d) payload :: rest)%list
    /\ List.filter isUpdateCall rest = []
    /\ let scheduleType := GetString jobSchema d "schedule_type" in
       let date := JobSchedule.Date (Job.Schedule payload) in
       ScheduleDate.Type_ date = scheduleType
       /\ (scheduleType = "days_of_week" \/ scheduleType = "every_day" ->
           ScheduleDate.Cron date = None)
       /\ (scheduleType = "custom_cron" \/ scheduleType = "every_day" ->
           ScheduleDate.Days date = None)
       /\ (scheduleType = "custom_cron" ->
           HasChange jobSchema d "schedule_cron" = true ->
           ScheduleDate.Cron date = Some (GetString jobSchema d "schedule_cron")).
Proof.
  intros Ht Hf Htr Hsd.
  destruct (applyJobChanges_total u d job Htr Hsd) as [payload Ha].
  assert (jobUpdateGuard d = true) as Hg.
  { unfold jobUpdateGuard. rewrite Ht. rewrite ?orb_true_r. reflexivity. }
  destruct (resourceJobUpdate_calls u c d h job payload Hg Hf Ha) as (rest & Hc & Hr).
  exists payload, rest. split; [exact Hc|]. split; [exact Hr|].
  destruct (applyJobChanges_schedule_type u d job payload Ht Ha) as (before & Hd & Hcron).
  cbv zeta. rewrite Hd.
  destruct (retypeSchedule_date (GetString jobSchema d "schedule_type") before)
    as (H1 & H2 & H3 & H4).
  split; [exact H1|]. split; [exact H2|]. split; [exact H3|].
  intros E Hch. rewrite (H4 E). exact (Hcron Hch).
Qed.

Lemma C5_witness :
  exists payload rest,
    calls (run (resourceJobUpdate sampleHelpers (steadyClient dailyJob sampleConnection))
             (mkState cronifyJob [])).2
    = ([] ++ CallGetJob "7" :: CallUpdateJob "7" payload :: rest)%list
    /\ List.filter isUpdateCall rest = []
    /\ ScheduleDate.Type_ (JobSchedule.Date (Job.Schedule payload)) = "custom_cron"
    /\ ScheduleDate.Days (JobSchedule.Date (Job.Schedule payload)) = None
    /\ ScheduleDate.Cron (JobSchedule.Date (Job.Schedule payload)) = Some "0 * * * *".
Proof.
  destruct (C5_schedule_type_applied_last sampleHelpers
              (steadyClient dailyJob sampleConnection) cronifyJob [] dailyJob)
    as (payload & rest & Hc & Hr & Ht & _ & Hdays & Hcron).
  - vm_compute. reflexivity.
  - reflexivity.
  - vm_compute. discriminate.
  - vm_compute. discriminate.
  - exists payload, rest. split; [exact Hc|]. split; [exact Hr|].
    split; [exact Ht|]. split.
    + apply Hdays. left. vm_compute. reflexivity.
    + apply Hcron; vm_compute; reflexivity.
Defined.

(** C7 fails on the code: the guard of the job Update asks for the
    misspelt attribute [triggers_on_drat_pr], which the schema does not
    have. When [triggers_on_draft_pr] is the only changed attribute, Update
    makes no update call (its one remote call is the fetch of the final
    Read), although the assignments that follow the guard would have applied
    the new value. *)
Theorem C7_draft_pr_change_dropped :
  let client := steadyClient cronJob sampleConnection in
  changedKeys jobSchema draftJob = ["triggers_on_draft_pr"]
  /\ GetBool jobSchema draftJob "triggers_on_draft_pr" = true
  /\ Job.TriggersOnDraftPR cronJob = false
  /\ jobUpdateGuard draftJob = false
  /\ calls (run (resourceJobUpdate sampleHelpers client) (mkState draftJob [])).2
     = [CallGetJob "7"]
  /\ applyJobChanges sampleHelpers draftJob cronJob
     = Next (Job.with_TriggersOnDraftPR true cronJob).
Proof. cbv zeta. repeat split; vm_compute; reflexivity. Qed.

(** C8. When the configured triggers hold a boolean [custom_branch_only],
    a Read whose fetch succeeds writes back triggers that carry this value,
    whatever the job of the remote and the JSON form of its triggers are:
    the value written under [triggers] is the map of the remote triggers
    with the configured [custom_branch_only] on top, and that is what the
    attribute reads as afterwards. *)
Theorem C8_custom_branch_only_echoed u c d h job (b : bool) :
  GetJob c h (Id d) = Ok job ->
  GetMap jobSchema d "triggers" !! "custom_branch_only" = Some (SBool b) ->
  let d' := rd (run (resourceJobRead u c) (mkState d h)).2 in
  let triggers :=
    <["custom_branch_only" := SBool b]> (marshalJobTrigger u (Job.Triggers job)) in
  written d' !! "triggers" = Some (VMap triggers)
  /\ triggers !! "custom_branch_only" = Some (SBool b)
  /\ Get jobSchema d' "triggers" = VMap triggers.
Proof.
  intros Hf Hb. cbv zeta. split; [|split].
  - exact (resourceJobRead_triggers_written u c d h job b Hf Hb).
  - apply lookup_insert_eq.
  - exact (resourceJobRead_custom_branch_only u c d h job b Hf Hb).
Qed.

Lemma C8_witness :
  GetMap jobSchema legacyTriggersJob "triggers" !! "custom_branch_only" = Some (SBool true)
  /\ let d' := rd (run (resourceJobRead sampleHelpers
                          (steadyClient cronJob sampleConnection))
                     (mkState legacyTriggersJob [])).2 in
     let triggers :=
       <["custom_branch_only" := SBool true]>
         (marshalJobTrigger sampleHelpers (Job.Triggers cronJob)) in
     written d' !! "triggers" = Some (VMap triggers)
     /\ triggers !! "custom_branch_only" = Some (SBool true)
     /\ Get jobSchema d' "triggers" = VMap triggers.
Proof.
  split; [vm_compute; reflexivity|].
  apply (C8_custom_branch_only_echoed sampleHelpers
           (steadyClient cronJob sampleConnection) legacyTriggersJob [] cronJob true).
  - reflexivity.
  - vm_compute. reflexivity.
Defined.

(** What the two-valued assertion answers for a flag that is absent or not
    a boolean. *)
Lemma lookupBool_missing (m : gmap string Scalar) key :
  (forall b, m !! key <> Some (SBool b)) <-> (lookupBool m key).2 = false.
Proof.
  unfold lookupBool. destruct (m !! key) as [[]|]; cbn [snd]; split;
    try reflexivity; try discriminate; try (intros H b; discriminate).
  intros H. destruct (H b). reflexivity.
Qed.

Lemma missingTrigger_first (m : gmap string Scalar) key0 :
  In key0 ["github_webhook"; "git_provider_webhook"; "schedule"] ->
  (forall b, m !! key0 <> Some (SBool b)) ->
  exists key,
    missingTrigger m = Some key
    /\ In key ["github_webhook"; "git_provider_webhook"; "schedule"]
    /\ forall b, m !! key <> Some (SBool b).
Proof.
  intros Hin H0. apply lookupBool_missing in H0. unfold missingTrigger.
  destruct (lookupBool m "github_webhook").2 eqn:E1; cbn [negb].
  2:{ exists "github_webhook". split; [reflexivity|]. split; [left; reflexivity|].
      by apply lookupBool_missing. }
  destruct (lookupBool m "git_provider_webhook").2 eqn:E2; cbn [negb].
  2:{ exists "git_provider_webhook". split; [reflexivity|].
      split; [right; left; reflexivity|]. by apply lookupBool_missing. }
  destruct (lookupBool m "schedule").2 eqn:E3; cbn [negb].
  2:{ exists "schedule". split; [reflexivity|].
      split; [right; right; left; reflexivity|]. by apply lookupBool_missing. }
  cbn [In] in Hin. destruct Hin as [<-|[<-|[<-|[]]]]; congruence.
Qed.

(** C10. In a job Update where the triggers are reported changed and one of
    the three flags is absent from the new map, or is not a boolean, Update
    returns an error and stops after the fetch: it issues no update call and
    leaves the state record as it was. When the fetch succeeded, the error
    names the first flag that is missing. *)
Theorem C10_incomplete_triggers_rejected u c d h key0 :
  HasChange jobSchema d "triggers" = true ->
  In key0 ["github_webhook"; "git_provider_webhook"; "schedule"] ->
  (forall b, GetMap jobSchema d "triggers" !! key0 <> Some (SBool b)) ->
  exists key diags,
    In key ["github_webhook"; "git_provider_webhook"; "schedule"]
    /\ (forall b, GetMap jobSchema d "triggers" !! key <> Some (SBool b))
    /\ run (resourceJobUpdate u c) (mkState d h)
       = (Returned diags, mkState d (h ++ [CallGetJob (Id d)]))
    /\ diags <> []
    /\ (forall job, GetJob c h (Id d) = Ok job -> diags = [key ++ " was not provided"]).
Proof.
  intros Ht Hin H0.
  destruct (missingTrigger_first _ key0 Hin H0) as (key & Hm & Hk & Hmiss).
  assert (jobUpdateGuard d = true) as Hg.
  { unfold jobUpdateGuard. rewrite Ht. rewrite ?orb_true_r. reflexivity. }
  exists key. destruct (GetJob c h (Id d)) as [job|err] eqn:Hf.
  - exists [key ++ " was not provided"].
    split; [exact Hk|]. split; [exact Hmiss|]. split; [|split; [discriminate|reflexivity]].
    unfold run. rewrite (resourceJobUpdate_fetched u c d h job Hg Hf).
    rewrite (applyJobChanges_missing u d job key Ht Hm). reflexivity.
  - exists (FromErr err).
    split; [exact Hk|]. split; [exact Hmiss|].
    split; [exact (resourceJobUpdate_fetch_error u c d h err Hg Hf)|].
    split; discriminate.
Qed.

Lemma C10_witness :
  exists key diags,
    In key ["github_webhook"; "git_provider_webhook"; "schedule"]
    /\ (forall b, GetMap jobSchema partialTriggersJob "triggers" !! key <> Some (SBool b))
    /\ run (resourceJobUpdate sampleHelpers (steadyClient cronJob sampleConnection))
         (mkState partialTriggersJob [])
       = (Returned diags, mkState partialTriggersJob ([] ++ [CallGetJob "7"]))
    /\ diags <> []
    /\ (forall job,
          GetJob (steadyClient cronJob sampleConnection) [] "7" = Ok job ->
          diags = [key ++ " was not provided"]).
Proof.
  apply (C10_incomplete_triggers_rejected sampleHelpers
           (steadyClient cronJob sampleConnection) partialTriggersJob []
           "git_provider_webhook").
  - vm_compute. reflexivity.
  - right. left. reflexivity.
  - intros b. vm_compute. discriminate.
Defined.

(** C9. A connection Read that succeeds leaves [oauth_client_id] and
    [oauth_client_secret] at the values configured before, not at those of
    the remote connection, and writes every other attribute of the schema
    with the value that the remote connection gives for it. *)
Theorem C9_connection_read_keeps_oauth c d h projectId connectionId connection :
  CompositeID.decode (Id d) = Done (projectId, connectionId) ->
  GetConnection c h connectionId projectId = Ok connection ->
  adapterReadable connection = true ->
  let r := run (resourceConnectionRead c) (mkState d h) in
  r.1 = Returned []
  /\ Get connectionSchema (rd r.2) "oauth_client_id"
     = Get connectionSchema d "oauth_client_id"
  /\ Get connectionSchema (rd r.2) "oauth_client_secret"
     = Get connectionSchema d "oauth_client_secret"
  /\ forall key,
       is_Some (connectionSchema !! key) ->
       key <> "oauth_client_id" -> key <> "oauth_client_secret" ->
       exists v, In (key, v) (remoteAttributes connection)
                 /\ written (rd r.2) !! key = Some v.
Proof.
  intros Hd Hf Ha.
  destruct (resourceConnectionRead_fetched c d h projectId connectionId connection
              Hd Hf Ha) as (Hv & _ & _ & Hid & Hsecret & Hrest).
  cbv zeta. split; [exact Hv|]. split; [|split].
  - apply (Get_written _ _ _ TypeString); [reflexivity|exact Hid|].
    apply Get_hasType. reflexivity.
  - apply (Get_written _ _ _ TypeString); [reflexivity|exact Hsecret|].
    apply Get_hasType. reflexivity.
  - intros key Hk H1 H2.
    destruct (remoteAttributes_cover connection key Hk H1 H2) as [v Hin].
    exists v. split; [exact Hin|]. exact (Hrest key v Hin).
Qed.

Lemma C9_witness :
  let r := run (resourceConnectionRead (steadyClient cronJob sampleConnection))
             (mkState oauthConnection []) in
  ConnectionDetails.OAuthClientID (Connection.Details sampleConnection) = "remote-client"
  /\ Get connectionSchema oauthConnection "oauth_client_id" = VStr "local-client"
  /\ r.1 = Returned []
  /\ Get connectionSchema (rd r.2) "oauth_client_id"
     = Get connectionSchema oauthConnection "oauth_client_id"
  /\ Get connectionSchema (rd r.2) "oauth_client_secret"
     = Get connectionSchema oauthConnection "oauth_client_secret"
  /\ forall key,
       is_Some (connectionSchema !! key) ->
       key <> "oauth_client_id" -> key <> "oauth_client_secret" ->
       exists v, In (key, v) (remoteAttributes sampleConnection)
                 /\ written (rd r.2) !! key = Some v.
Proof.
  cbv zeta. split; [reflexivity|]. split; [vm_compute; reflexivity|].
  apply (C9_connection_read_keeps_oauth (steadyClient cronJob sampleConnection)
           oauthConnection [] "42" "7" sampleConnection).
  - vm_compute. reflexivity.
  - reflexivity.
  - reflexivity.
Defined.

(** * Further properties

    Properties of the handlers beyond the statements above: their error and
    edge behaviour, what they leave alone, and how they compose. *)

(** ** Further properties of the Read of a job *)

Section JobReadFull.
Context (u : Helpers) (c : Client).

Lemma interval_clamp (z : Z) : (if Z.ltb 0 z then z else 1) = Z.max 1 z.
Proof. destruct (Z.ltb_spec 0 z); lia. Qed.

(** A Read whose fetch succeeds and whose job-completion condition is of
    the shape of the attribute writes every attribute and reports no
    error. *)
Lemma resourceJobRead_fetched d h job :
  GetJob c h (Id d) = Ok job ->
  accepts TypeSet (jobConditionValue u job) = true ->
  let r := run (resourceJobRead u c) (mkState d h) in
  r.1 = Returned []
  /\ calls r.2 = (h ++ [CallGetJob (Id d)])%list
  /\ Id (rd r.2) = Id d
  /\ (forall key v, In (key, v) (jobRemoteAttributes u d job) ->
                    written (rd r.2) !! key = Some v)
  /\ written (rd r.2) !! "deferring_job_id"
     = if selfDeferringJob (Id d) job then written d !! "deferring_job_id"
       else Some (optValue VInt (Job.Deferring_Job_Id job)).
Proof.
  intros Hf Hacc. cbv zeta. unfold run, resourceJobRead.
  rewrite bind_getData. cbv zeta. rewrite bind_remote. cbn [rd calls]. rewrite Hf.
  rewrite interval_clamp.
  do 16 run_set.
  fold (selfDeferringJob (Id d) job).
  destruct (selfDeferringJob (Id d) job) eqn:Hself; cbn [negb];
    [rewrite bind_mret|run_set].
  all: do 3 run_set.
  all: rewrite bind_getData; cbn [rd calls].
  all: rewrite !Get_writeAttr_ne by discriminate.
  all: erewrite asMap_Get by reflexivity.
  all: cbn [must]; rewrite bind_pure_next.
  all: destruct (lookupBool (GetMap jobSchema d "triggers") "custom_branch_only")
         as [b [|]] eqn:Hl; cbv iota.
  all: do 2 run_set.
  all: unfold jobConditionValue in Hacc.
  all: destruct (Job.JobCompletionTrigger job) as [trigger|] eqn:Ht.
  all: cbv zeta in Hacc.
  all: (erewrite bind_set; [ | reflexivity | exact Hacc ]); cbn [rd calls].
  all: cbn [fst snd rd calls return_].
  all: split; [reflexivity|]; split; [reflexivity|]; split; [reflexivity|].
  all: split; [|lookup_written || (cbn [written writeAttr];
         repeat (rewrite lookup_insert_ne by discriminate); reflexivity)].
  all: intros key v Hin; unfold jobRemoteAttributes in Hin; cbv zeta in Hin;
       cbn [In] in Hin.
  all: unfold jobTriggersValue, jobConditionValue in Hin; rewrite Hl, Ht, Hself in Hin;
       cbv zeta in Hin.
  all: repeat match goal with Hx : _ \/ _ |- _ => destruct Hx as [Hx|Hx] end;
         [..|destruct Hin].
  all: apply pair_equal_spec in Hin as [<- <-].
  all: lookup_written.
Qed.
End JobReadFull.

Lemma HasChange_in sch d key l :
  changedKeys sch d = l -> HasChange sch d key = existsb (String.eqb key) l.
Proof.
  intros H. destruct (existsb (String.eqb key) l) eqn:E.
  - apply existsb_exists in E as (k & Hk & ->%String.eqb_eq).
    apply HasChange_changedKeys. rewrite H. apply list_elem_of_In. exact Hk.
  - destruct (HasChange sch d key) eqn:Hc; [|reflexivity].
    apply HasChange_changedKeys in Hc. rewrite H in Hc. apply list_elem_of_In in Hc.
    assert (existsb (String.eqb key) l = true) as E'.
    { apply existsb_exists. exists key. split; [exact Hc|apply String.eqb_refl]. }
    congruence.
Qed.

(** With the changed keys [H] known, every [HasChange] is decided by
    comparing the names. *)
Ltac changes H :=
  match type of H with
  | changedKeys ?sch ?d = _ =>
      let Hc := fresh "Hc" in
      let hc := fresh "hc" in
      pose proof (fun k => HasChange_in sch d k _ H) as Hc;
      set (hc := HasChange sch d) in *;
      rewrite ?Hc;
      cbn [existsb String.eqb Ascii.eqb Bool.eqb orb];
      clearbody hc; clear Hc hc
  end.

Section JobExtras.
Context (u : Helpers) (c : Client).

(** X1. Whatever the remote answers, a Read of the job makes exactly one remote
    call, the fetch of the job named by the identifier of the state record:
    it never issues an update, and it makes the call even for an empty
    identifier. *)
Theorem job_read_single_fetch st :
  calls (run (resourceJobRead u c) st).2 = (calls st ++ [CallGetJob (Id (rd st))])%list.
Proof. rewrite run_calls. apply resourceJobRead_calls. Qed.

(** X2. When the fetch of a Read fails, nothing is written to the state record.
    An error whose message starts with [resource-not-found] empties the
    identifier and is not reported; any other error is reported as the one
    diagnostic and the identifier is kept. *)
Theorem job_read_fetch_failure d h err :
  GetJob c h (Id d) = Err err ->
  run (resourceJobRead u c) (mkState d h)
  = if Go.HasPrefix err "resource-not-found"
    then (Returned [], mkState (SetId EmptyString d) (h ++ [CallGetJob (Id d)]))
    else (Returned [err], mkState d (h ++ [CallGetJob (Id d)])).
Proof.
  intros Hf. destruct (Go.HasPrefix err "resource-not-found") eqn:Hp.
  - exact (resourceJobRead_not_found u c d h err Hf Hp).
  - exact (resourceJobRead_fetch_error u c d h err Hf Hp).
Qed.

(** X3. A Read that succeeds never writes a schedule interval below 1: it
    writes the interval of the remote job when that is positive, and 1
    otherwise. *)
Theorem job_read_interval_at_least_one d h job :
  GetJob c h (Id d) = Ok job ->
  accepts TypeSet (jobConditionValue u job) = true ->
  let remote := ScheduleTime.Interval (JobSchedule.Time (Job.Schedule job)) in
  exists interval,
    written (rd (run (resourceJobRead u c) (mkState d h)).2) !! "schedule_interval"
    = Some (VInt interval)
    /\ 1 <= interval
    /\ (0 < remote -> interval = remote)
    /\ (remote <= 0 -> interval = 1).
Proof.
  intros Hf Hacc. cbv zeta.
  destruct (resourceJobRead_fetched u c d h job Hf Hacc) as (_ & _ & _ & Hw & _).
  eexists. split.
  - apply Hw. unfold jobRemoteAttributes. cbv zeta. cbn [In].
    do 12 right. left. reflexivity.
  - lia.
Qed.

(** X4. A Read that succeeds recognises a job that defers to itself, that is,
    whose deferring job is the job of the state record: it then sets
    [self_deferring] and leaves [deferring_job_id] as it was, so the own
    identifier never shows up there. For any other job it clears
    [self_deferring] and writes the deferring job of the remote. *)
Theorem job_read_self_deferring d h job :
  GetJob c h (Id d) = Ok job ->
  accepts TypeSet (jobConditionValue u job) = true ->
  let d' := rd (run (resourceJobRead u c) (mkState d h)).2 in
  (forall deferring,
      Job.Deferring_Job_Id job = Some deferring -> Go.Itoa deferring = Id d ->
      written d' !! "self_deferring" = Some (VBool true)
      /\ written d' !! "deferring_job_id" = written d !! "deferring_job_id")
  /\ ((forall deferring,
         Job.Deferring_Job_Id job = Some deferring -> Go.Itoa deferring <> Id d) ->
      written d' !! "self_deferring" = Some (VBool false)
      /\ written d' !! "deferring_job_id"
         = Some (optValue VInt (Job.Deferring_Job_Id job))).
Proof.
  intros Hf Hacc. cbv zeta.
  destruct (resourceJobRead_fetched u c d h job Hf Hacc) as (_ & _ & _ & Hw & Hd).
  assert (written (rd (run (resourceJobRead u c) (mkState d h)).2) !! "self_deferring"
          = Some (VBool (selfDeferringJob (Id d) job))) as Hs.
  { apply Hw. unfold jobRemoteAttributes. cbv zeta. cbn [In].
    do 17 right. left. reflexivity. }
  split.
  - intros deferring Hj Hi.
    assert (selfDeferringJob (Id d) job = true) as E.
    { unfold selfDeferringJob. rewrite Hj. apply String.eqb_eq. exact Hi. }
    rewrite E in Hs, Hd. split; assumption.
  - intros Hne.
    assert (selfDeferringJob (Id d) job = false) as E.
    { unfold selfDeferringJob. destruct (Job.Deferring_Job_Id job) as [n|]; [|reflexivity].
      apply String.eqb_neq. apply Hne. reflexivity. }
    rewrite E in Hs, Hd. split; assumption.
Qed.
End JobExtras.

Lemma job_read_fetch_failure_witness :
  run (resourceJobRead sampleHelpers goneClient) (mkState renameJob [])
  = (Returned [], mkState (SetId EmptyString renameJob) ([] ++ [CallGetJob "7"])).
Proof.
  apply (job_read_fetch_failure sampleHelpers goneClient renameJob []
           "resource-not-found: the job does not exist").
  reflexivity.
Defined.


(** A job whose remote schedule has no interval, and one that defers to
    itself. *)
Lemma job_read_interval_at_least_one_witness :
  exists interval,
    written (rd (run (resourceJobRead sampleHelpers
                        (steadyClient (withTime (ScheduleTime.with_Interval 0) cronJob)
                           sampleConnection))
                   (mkState renameJob [])).2) !! "schedule_interval"
    = Some (VInt interval)
    /\ 1 <= interval
    /\ (0 < 0 -> interval = 0)
    /\ (0 <= 0 -> interval = 1).
Proof.
  apply (job_read_interval_at_least_one sampleHelpers
           (steadyClient (withTime (ScheduleTime.with_Interval 0) cronJob) sampleConnection)
           renameJob [] (withTime (ScheduleTime.with_Interval 0) cronJob));
    reflexivity.
Defined.

Lemma job_read_self_deferring_witness :
  let job := Job.with_Deferring_Job_Id (Some 7) cronJob in
  let d' := rd (run (resourceJobRead sampleHelpers (steadyClient job sampleConnection))
                  (mkState renameJob [])).2 in
  written d' !! "self_deferring" = Some (VBool true)
  /\ written d' !! "deferring_job_id" = written renameJob !! "deferring_job_id".
Proof.
  cbv zeta.
  apply (proj1 (job_read_self_deferring sampleHelpers
                  (steadyClient (Job.with_Deferring_Job_Id (Some 7) cronJob)
                     sampleConnection)
                  renameJob [] (Job.with_Deferring_Job_Id (Some 7) cronJob)
                  eq_refl eq_refl) 7); reflexivity.
Defined.

(** ** Further properties of the Update of a job *)

Section JobUpdateExtras.
Context (u : Helpers) (c : Client).

(** X5. A job Update in which nothing changed, or in which [is_active] is the
    only changed attribute, does what a Read does: its one remote call is the
    fetch of that Read, and the change of [is_active] is never sent. *)
Theorem job_update_is_active_not_sent d h :
  changedKeys jobSchema d = [] \/ changedKeys jobSchema d = ["is_active"] ->
  run (resourceJobUpdate u c) (mkState d h) = run (resourceJobRead u c) (mkState d h)
  /\ calls (run (resourceJobUpdate u c) (mkState d h)).2
     = (h ++ [CallGetJob (Id d)])%list.
Proof.
  intros H.
  assert (jobUpdateGuard d = false) as Hg.
  { destruct H as [H|H]; unfold jobUpdateGuard; changes H; reflexivity. }
  rewrite (resourceJobUpdate_unguarded u c d h Hg). split; [reflexivity|].
  rewrite run_calls. apply resourceJobRead_calls.
Qed.

(** X6. A remote call that fails during a job Update ends it: the error is the
    one diagnostic returned, the state record is left as it was, and the
    final Read does not run. After a failed fetch no update call is made. *)
Theorem job_update_remote_failure d h :
  jobUpdateGuard d = true ->
  (forall err,
      GetJob c h (Id d) = Err err ->
      run (resourceJobUpdate u c) (mkState d h)
      = (Returned [err], mkState d (h ++ [CallGetJob (Id d)])))
  /\ (forall job payload err,
      GetJob c h (Id d) = Ok job ->
      applyJobChanges u d job = Next payload ->
      UpdateJob c (h ++ [CallGetJob (Id d)]) (Id d) payload = Err err ->
      run (resourceJobUpdate u c) (mkState d h)
      = (Returned [err],
         mkState d (h ++ [CallGetJob (Id d); CallUpdateJob (Id d) payload]))).
Proof.
  intros Hg. split.
  - intros err Hf. exact (resourceJobUpdate_fetch_error u c d h err Hg Hf).
  - intros job payload err Hf Ha Hu. unfold run.
    rewrite (resourceJobUpdate_fetched u c d h job Hg Hf), Ha. cbv zeta. rewrite Hu.
    reflexivity.
Qed.

(** The run of an Update whose two calls succeed. *)
Lemma resourceJobUpdate_updated d h job payload answer :
  jobUpdateGuard d = true ->
  GetJob c h (Id d) = Ok job ->
  applyJobChanges u d job = Next payload ->
  UpdateJob c (h ++ [CallGetJob (Id d)]) (Id d) payload = Ok answer ->
  run (resourceJobUpdate u c) (mkState d h)
  = run (resourceJobRead u c)
      (mkState d (h ++ [CallGetJob (Id d); CallUpdateJob (Id d) payload])).
Proof.
  intros Hg Hf Ha Hu. unfold run at 1.
  rewrite (resourceJobUpdate_fetched u c d h job Hg Hf), Ha. cbv zeta. rewrite Hu.
  unfold call, run. cbn [app].
  destruct (resourceJobRead u c _) as [[?|?|?] ?]; reflexivity.
Qed.

(** X7. When the update call of a job Update succeeds, the job it returns is
    dropped: Update returns what a Read returns that starts after the two
    calls, which fetches the job again. *)
Theorem job_update_then_read d h job payload answer :
  jobUpdateGuard d = true ->
  GetJob c h (Id d) = Ok job ->
  applyJobChanges u d job = Next payload ->
  UpdateJob c (h ++ [CallGetJob (Id d)]) (Id d) payload = Ok answer ->
  run (resourceJobUpdate u c) (mkState d h)
  = run (resourceJobRead u c)
      (mkState d (h ++ [CallGetJob (Id d); CallUpdateJob (Id d) payload])).
Proof.
  exact (resourceJobUpdate_updated d h job payload answer).
Qed.

Ltac block_keeps H :=
  revert H; repeat (progress (typed_gets; run_pure));
  repeat match goal with
    | |- context [if HasChange ?s ?d ?k then _ else _] => destruct (HasChange s d k)
    | |- context [if bool_decide ?P then _ else _] => destruct (bool_decide P)
    | |- context [if Nat.ltb ?a ?b then _ else _] => destruct (Nat.ltb a b)
    | |- context [if (String.eqb ?a ?b || String.eqb ?a ?b')%bool then _ else _] =>
        destruct (String.eqb a b || String.eqb a b')%bool
    | |- context [lookupBool ?m ?k] =>
        let ok := fresh "ok" in destruct (lookupBool m k) as [? ok]; destruct ok
    | |- context [deref (Job.ID ?j)] => destruct (Job.ID j) eqn:?
    | |- context [ExtractJobConditionSet ?u ?d] =>
        destruct (ExtractJobConditionSet u d) as [[[[] ?] ?] ?]
    end;
  repeat (progress (typed_gets; run_pure)); cbn [deref must negb];
  first [intros <-%Next_inj; split; first [reflexivity | assumption] | intros [=]].

(** The assignments of a job Update never touch the identifier and the
    state of the job: no change of an attribute can delete or revive a job,
    or aim the update at another job. *)
Lemma applyJobChanges_keeps_identity d job payload :
  applyJobChanges u d job = Next payload ->
  Job.ID payload = Job.ID job /\ Job.State payload = Job.State job.
Proof.
  intros H. unfold applyJobChanges in H.
  assert (forall (m : Outcome Job.t) (f : Job.t -> Outcome Job.t) j0 j2,
             m ≫= f = Next j2 ->
             (forall j1, m = Next j1 -> Job.ID j1 = Job.ID j0 /\ Job.State j1 = Job.State j0) ->
             exists j1, (Job.ID j1 = Job.ID j0 /\ Job.State j1 = Job.State j0)
                        /\ f j1 = Next j2) as step.
  { intros m f j0 j2 Hb Hk. apply bind_next_inv in Hb as (j1 & H1 & H2).
    exists j1. split; [apply Hk; exact H1|exact H2]. }
  do 22 (
    match goal with
    | Hb : _ ≫= _ = Next payload |- _ =>
        let j := fresh "j" in
        let Hi := fresh "Hi" in
        let Hs := fresh "Hs" in
        let Hr := fresh "Hr" in
        apply (step _ _ job) in Hb as (j & [Hi Hs] & Hr);
        [|clear Hb; let j' := fresh "j" in let E := fresh "E" in
          intros j' E;
          match goal with
          | Hi' : Job.ID ?p = Job.ID job, Hs' : Job.State ?p = Job.State job |- _ =>
              rewrite <- Hi', <- Hs'
          | _ => idtac
          end; block_keeps E]
    end).
  match goal with Hb : mret _ = Next payload |- _ => apply Next_inj in Hb; subst end.
  split; assumption.
Qed.

End JobUpdateExtras.

Section JobUpdateShape.
Context (u : Helpers) (c : Client).

Lemma no_update_in (rest : list Call) call :
  List.filter isUpdateCall rest = [] -> In call rest -> isUpdateCall call = true -> False.
Proof.
  intros Hf Hin Hu.
  assert (In call (List.filter isUpdateCall rest)) as H
    by (apply filter_In; split; assumption).
  rewrite Hf in H. destruct H.
Qed.

(** X8. In every run of a job Update, whatever the changes and the answers of
    the remote, at most one update call is made; it is addressed to the job
    of the state record and its payload has the identifier and the state of
    the fetched job. *)
Theorem job_update_keeps_identity d h :
  exists new,
    calls (run (resourceJobUpdate u c) (mkState d h)).2 = (h ++ new)%list
    /\ (length (List.filter isUpdateCall new) <= 1)%nat
    /\ forall call,
         In call new -> isUpdateCall call = true ->
         exists payload,
           call = CallUpdateJob (Id d) payload
           /\ forall job,
                GetJob c h (Id d) = Ok job ->
                Job.ID payload = Job.ID job /\ Job.State payload = Job.State job.
Proof.
  destruct (jobUpdateGuard d) eqn:Hg.
  2:{ exists [CallGetJob (Id d)]. rewrite (resourceJobUpdate_unguarded u c d h Hg).
      rewrite run_calls, resourceJobRead_calls. split; [reflexivity|].
      split; [cbn; lia|]. intros call [<-|[]] Hu. discriminate Hu. }
  destruct (GetJob c h (Id d)) as [job|err] eqn:Hf.
  2:{ exists [CallGetJob (Id d)].
      rewrite (resourceJobUpdate_fetch_error u c d h err Hg Hf).
      split; [reflexivity|]. split; [cbn; lia|].
      intros call [<-|[]] Hu. discriminate Hu. }
  destruct (applyJobChanges u d job) as [payload|diags|msg] eqn:Ha.
  - destruct (resourceJobUpdate_calls u c d h job payload Hg Hf Ha) as (rest & Hc & Hr).
    exists (CallGetJob (Id d) :: CallUpdateJob (Id d) payload :: rest).
    split; [exact Hc|]. split.
    + cbn [List.filter isUpdateCall]. rewrite Hr. cbn. lia.
    + intros call [<-|[<-|Hin]] Hu.
      * discriminate Hu.
      * exists payload. split; [reflexivity|]. intros job' [= <-].
        exact (applyJobChanges_keeps_identity u d job payload Ha).
      * destruct (no_update_in rest call Hr Hin Hu).
  - exists [CallGetJob (Id d)]. rewrite run_calls.
    rewrite (resourceJobUpdate_fetched u c d h job Hg Hf), Ha.
    split; [reflexivity|]. split; [cbn; lia|].
    intros call [<-|[]] Hu. discriminate Hu.
  - exists [CallGetJob (Id d)]. rewrite run_calls.
    rewrite (resourceJobUpdate_fetched u c d h job Hg Hf), Ha.
    split; [reflexivity|]. split; [cbn; lia|].
    intros call [<-|[]] Hu. discriminate Hu.
Qed.

(** X9. A change of [schedule_hours] alone replaces the whole time part of the
    schedule. With hours it becomes "at exact hours" with interval 0; with
    an empty list the hours are cleared and the schedule becomes "every
    hour" with the interval of the unchanged [schedule_interval]. *)
Theorem job_update_schedule_hours d h job :
  changedKeys jobSchema d = ["schedule_hours"] ->
  GetJob c h (Id d) = Ok job ->
  let hours := map scalarInt (GetList jobSchema d "schedule_hours") in
  let time :=
    match hours with
    | [] => ScheduleTime.mk "every_hour" (GetInt jobSchema d "schedule_interval") None
    | _ :: _ => ScheduleTime.mk "at_exact_hours" 0 (Some hours)
    end in
  exists rest,
    calls (run (resourceJobUpdate u c) (mkState d h)).2
    = (h ++ CallGetJob (Id d)
         :: CallUpdateJob (Id d) (withTime (fun _ => time) job) :: rest)%list
    /\ List.filter isUpdateCall rest = [].
Proof.
  intros H Hf. cbv zeta.
  apply (resourceJobUpdate_calls u c d h job _); [|exact Hf|].
  - unfold jobUpdateGuard; only_change H; reflexivity.
  - unfold applyJobChanges; only_change H.
    repeat (progress (typed_gets; run_pure)).
    destruct (GetList jobSchema d "schedule_hours") as [|x l]; reflexivity.
Qed.

(** X10. A change of [schedule_days] alone to an empty list is dropped: the
    update call carries the fetched job as it is, days included. A list with
    days overwrites the days. *)
Theorem job_update_schedule_days d h job :
  changedKeys jobSchema d = ["schedule_days"] ->
  GetJob c h (Id d) = Ok job ->
  let days := map scalarInt (GetList jobSchema d "schedule_days") in
  let payload :=
    match days with
    | [] => job
    | _ :: _ => withDate (ScheduleDate.with_Days (Some days)) job
    end in
  exists rest,
    calls (run (resourceJobUpdate u c) (mkState d h)).2
    = (h ++ CallGetJob (Id d) :: CallUpdateJob (Id d) payload :: rest)%list
    /\ List.filter isUpdateCall rest = [].
Proof.
  intros H Hf. cbv zeta.
  apply (resourceJobUpdate_calls u c d h job _); [|exact Hf|].
  - unfold jobUpdateGuard; only_change H; reflexivity.
  - unfold applyJobChanges; only_change H.
    repeat (progress (typed_gets; run_pure)).
    destruct (GetList jobSchema d "schedule_days") as [|x l]; reflexivity.
Qed.

(** X11. A change of [self_deferring] alone. Turned on, the deferring job of the
    payload is the fetched job itself; when the fetched job has no
    identifier, Update panics after the fetch, without an update call.
    Turned off, the deferring job is the one of [deferring_job_id], none
    when that is 0. *)
Theorem job_update_self_deferring d h job :
  changedKeys jobSchema d = ["self_deferring"] ->
  GetJob c h (Id d) = Ok job ->
  let log := calls (run (resourceJobUpdate u c) (mkState d h)).2 in
  let sends payload :=
    exists rest,
      log = (h ++ CallGetJob (Id d) :: CallUpdateJob (Id d) payload :: rest)%list
      /\ List.filter isUpdateCall rest = [] in
  (GetBool jobSchema d "self_deferring" = true ->
   match Job.ID job with
   | Some own => sends (Job.with_Deferring_Job_Id (Some own) job)
   | None =>
       run (resourceJobUpdate u c) (mkState d h)
       = (Crashed "invalid memory address or nil pointer dereference",
          mkState d (h ++ [CallGetJob (Id d)]))
   end)
  /\ (GetBool jobSchema d "self_deferring" = false ->
      sends (Job.with_Deferring_Job_Id
               (nonZero (GetInt jobSchema d "deferring_job_id")) job)).
Proof.
  intros H Hf. cbv zeta.
  assert (jobUpdateGuard d = true) as Hg
    by (unfold jobUpdateGuard; only_change H; reflexivity).
  assert (Get jobSchema d "self_deferring" = VBool (GetBool jobSchema d "self_deferring"))
    as Hb.
  { pose proof (Get_hasType jobSchema d "self_deferring" TypeBool eq_refl) as Ht.
    unfold GetBool. destruct (Get jobSchema d "self_deferring"); try discriminate Ht.
    reflexivity. }
  split; intros Hv; rewrite Hv in Hb.
  - destruct (Job.ID job) as [own|] eqn:Hid.
    + apply (resourceJobUpdate_calls u c d h job _ Hg Hf).
      unfold applyJobChanges; only_change H. run_pure. rewrite Hb.
      rewrite bool_decide_eq_true_2 by reflexivity. rewrite Hid. reflexivity.
    + unfold run. rewrite (resourceJobUpdate_fetched u c d h job Hg Hf).
      assert (applyJobChanges u d job
              = Panic "invalid memory address or nil pointer dereference") as ->.
      { unfold applyJobChanges; only_change H. run_pure. rewrite Hb.
        rewrite bool_decide_eq_true_2 by reflexivity. rewrite Hid. reflexivity. }
      reflexivity.
  - apply (resourceJobUpdate_calls u c d h job _ Hg Hf).
    unfold applyJobChanges; only_change H. run_pure. rewrite Hb.
    rewrite bool_decide_eq_false_2 by discriminate.
    repeat (progress (typed_gets; run_pure)). reflexivity.
Qed.

End JobUpdateShape.

Lemma job_update_is_active_not_sent_witness :
  run (resourceJobUpdate sampleHelpers (steadyClient cronJob sampleConnection))
    (mkState deactivateJob [])
  = run (resourceJobRead sampleHelpers (steadyClient cronJob sampleConnection))
      (mkState deactivateJob [])
  /\ calls (run (resourceJobUpdate sampleHelpers (steadyClient cronJob sampleConnection))
              (mkState deactivateJob [])).2
     = ([] ++ [CallGetJob "7"])%list.
Proof.
  apply (job_update_is_active_not_sent sampleHelpers
           (steadyClient cronJob sampleConnection) deactivateJob []).
  right. vm_compute. reflexivity.
Defined.

Lemma job_update_remote_failure_witness :
  run (resourceJobUpdate sampleHelpers (rejectingClient cronJob)) (mkState renameJob [])
  = (Returned ["the job cannot be changed"],
     mkState renameJob
       ([] ++ [CallGetJob "7"; CallUpdateJob "7" (Job.with_Name "hourly" cronJob)])).
Proof.
  apply (proj2 (job_update_remote_failure sampleHelpers (rejectingClient cronJob)
                  renameJob [] ltac:(vm_compute; reflexivity)) cronJob).
  - reflexivity.
  - vm_compute. reflexivity.
  - reflexivity.
Defined.

Lemma job_update_then_read_witness :
  run (resourceJobUpdate sampleHelpers (steadyClient cronJob sampleConnection))
    (mkState renameJob [])
  = run (resourceJobRead sampleHelpers (steadyClient cronJob sampleConnection))
      (mkState renameJob
         ([] ++ [CallGetJob "7"; CallUpdateJob "7" (Job.with_Name "hourly" cronJob)])).
Proof.
  apply (job_update_then_read sampleHelpers (steadyClient cronJob sampleConnection)
           renameJob [] cronJob (Job.with_Name "hourly" cronJob)
           (Job.with_Name "hourly" cronJob)).
  - vm_compute. reflexivity.
  - reflexivity.
  - vm_compute. reflexivity.
  - reflexivity.
Defined.

Lemma job_update_schedule_hours_witness :
  exists rest,
    calls (run (resourceJobUpdate sampleHelpers (steadyClient cronJob sampleConnection))
             (mkState dropHoursJob [])).2
    = ([] ++ CallGetJob "7"
          :: CallUpdateJob "7"
               (withTime (fun _ => ScheduleTime.mk "every_hour" 3 None) cronJob)
          :: rest)%list
    /\ List.filter isUpdateCall rest = [].
Proof.
  apply (job_update_schedule_hours sampleHelpers (steadyClient cronJob sampleConnection)
           dropHoursJob [] cronJob).
  - vm_compute. reflexivity.
  - reflexivity.
Defined.

Lemma job_update_schedule_days_witness :
  exists rest,
    calls (run (resourceJobUpdate sampleHelpers (steadyClient dailyJob sampleConnection))
             (mkState dropDaysJob [])).2
    = ([] ++ CallGetJob "7" :: CallUpdateJob "7" dailyJob :: rest)%list
    /\ List.filter isUpdateCall rest = [].
Proof.
  apply (job_update_schedule_days sampleHelpers (steadyClient dailyJob sampleConnection)
           dropDaysJob [] dailyJob).
  - vm_compute. reflexivity.
  - reflexivity.
Defined.

Lemma job_update_self_deferring_witness :
  exists rest,
    calls (run (resourceJobUpdate sampleHelpers (steadyClient cronJob sampleConnection))
             (mkState selfDeferJob [])).2
    = ([] ++ CallGetJob "7"
          :: CallUpdateJob "7" (Job.with_Deferring_Job_Id (Some 7) cronJob) :: rest)%list
    /\ List.filter isUpdateCall rest = [].
Proof.
  apply (proj1 (job_update_self_deferring sampleHelpers
                  (steadyClient cronJob sampleConnection) selfDeferJob [] cronJob
                  ltac:(vm_compute; reflexivity) eq_refl)).
  vm_compute. reflexivity.
Defined.

#[local] Transparent Get.

Lemma Get_after_write sch d d' key ty v :
  sch !! key = Some ty -> written d' !! key = Some v ->
  coerce ty (Some v) = Get sch d key ->
  Get sch d' key = Get sch d key.
Proof. intros Hs Hw <-. unfold Get. rewrite Hs, Hw. reflexivity. Qed.

#[local] Opaque Get.

Lemma Get_VInt sch d key :
  sch !! key = Some TypeInt -> VInt (GetInt sch d key) = Get sch d key.
Proof.
  intros H. apply (Get_hasType sch d) in H. unfold GetInt.
  by destruct (Get sch d key).
Qed.

Lemma Get_VBool sch d key :
  sch !! key = Some TypeBool -> VBool (GetBool sch d key) = Get sch d key.
Proof.
  intros H. apply (Get_hasType sch d) in H. unfold GetBool.
  by destruct (Get sch d key).
Qed.

Lemma strings_back (l : list Scalar) :
  forallb (hasElemType ElemString) l = true -> map SStr (map scalarString l) = l.
Proof.
  induction l as [|x l IH]; [reflexivity|]. cbn. intros [Hx Hl]%andb_prop.
  rewrite IH by exact Hl. by destruct x.
Qed.

Lemma Get_strings sch d key :
  sch !! key = Some (TypeList ElemString) ->
  coerce (TypeList ElemString) (Some (stringsValue (map scalarString (GetList sch d key))))
  = Get sch d key.
Proof.
  intros H. pose proof (GetList_elems sch d key ElemString H) as He.
  apply (Get_hasType sch d) in H. unfold stringsValue.
  rewrite strings_back by exact He. cbn [coerce hasType]. rewrite He.
  unfold GetList. by destruct (Get sch d key).
Qed.

Lemma Get_nonZero sch d key :
  sch !! key = Some TypeInt ->
  coerce TypeInt (Some (optValue VInt (nonZero (GetInt sch d key)))) = Get sch d key.
Proof.
  intros H. rewrite <- (Get_VInt sch d key H). unfold nonZero.
  destruct (Z.eqb_spec (GetInt sch d key) 0) as [->|]; reflexivity.
Qed.

Section JobConverges.
Context (u : Helpers) (c : Client).

Ltac in_table := cbn [In]; repeat (first [left; reflexivity | right]).

(** X12. Against a remote that accepts the update call and answers the next
    fetch with what it was sent, a job Update of one of the attributes of
    [jobConvergentKeys] ends without error and leaves the attribute at its
    planned value: the state record agrees with the configuration. *)
Theorem job_update_converges d h job key :
  In key jobConvergentKeys ->
  changedKeys jobSchema d = [key] ->
  GetJob c h (Id d) = Ok job ->
  accepts TypeSet (jobConditionValue u job) = true ->
  (forall payload,
      exists answer, UpdateJob c (h ++ [CallGetJob (Id d)]) (Id d) payload = Ok answer) ->
  (forall payload,
      GetJob c (h ++ [CallGetJob (Id d); CallUpdateJob (Id d) payload]) (Id d)
      = Ok payload) ->
  let r := run (resourceJobUpdate u c) (mkState d h) in
  r.1 = Returned [] /\ Get jobSchema (rd r.2) key = Get jobSchema d key.
Proof.
  intros Hin Hch Hf Hacc Hup Hkeep. cbv zeta.
  assert (exists assign,
             In (key, assign) (jobSingleField u)
             /\ jobConditionValue u (assign d job) = jobConditionValue u job
             /\ exists ty v,
                  jobSchema !! key = Some ty
                  /\ In (key, v) (jobRemoteAttributes u d (assign d job))
                  /\ coerce ty (Some v) = Get jobSchema d key)
    as (assign & Ht & Hcond & ty & v & Hty & Hv & Hget).
  { unfold jobConvergentKeys in Hin. cbn [In] in Hin.
    repeat match goal with Hx : _ \/ _ |- _ => destruct Hx as [Hx|Hx] end;
      [..|destruct Hin]; subst key.
    all: eexists; split; [unfold jobSingleField; in_table|].
    all: split; [reflexivity|].
    all: eexists; eexists; split; [reflexivity|].
    all: split; [unfold jobRemoteAttributes; cbv zeta; in_table|].
    all: cbn -[Get GetString GetInt GetBool GetList jobSchema coerce stringsValue].
    all: first [ apply Get_strings; reflexivity
               | apply Get_nonZero; reflexivity
               | cbn [coerce hasType optValue];
                 first [ apply Get_VStr | apply Get_VInt | apply Get_VBool ];
                 reflexivity ]. }
  destruct (jobSingleField_applied u d job key assign Ht Hch) as [Hg Ha].
  destruct (Hup (assign d job)) as [answer Hu].
  rewrite (resourceJobUpdate_updated u c d h job _ answer Hg Hf Ha Hu).
  rewrite <- Hcond in Hacc.
  destruct (resourceJobRead_fetched u c d _ (assign d job) (Hkeep _) Hacc)
    as (Hr & _ & _ & Hw & _).
  split; [exact Hr|].
  apply (Get_after_write jobSchema d _ key ty v Hty (Hw key v Hv) Hget).
Qed.

End JobConverges.

Lemma job_update_converges_witness :
  let r := run (resourceJobUpdate sampleHelpers (keepingClient cronJob sampleConnection))
             (mkState renameJob []) in
  r.1 = Returned [] /\ Get jobSchema (rd r.2) "name" = Get jobSchema renameJob "name".
Proof.
  apply (job_update_converges sampleHelpers (keepingClient cronJob sampleConnection)
           renameJob [] cronJob "name").
  - right. right. left. reflexivity.
  - vm_compute. reflexivity.
  - reflexivity.
  - reflexivity.
  - intros payload. exists payload. reflexivity.
  - intros payload. reflexivity.
Defined.

(** ** Further properties of the Delete of a job *)

Section JobDeleteExtras.
Context (u : Helpers) (c : Client).

(** X13. The Delete of a job never writes to the state record, the identifier
    included, and never issues a delete call. A failed fetch is returned as
    the one diagnostic, with no update call; after a successful fetch the
    result is the error of the update call, if any. *)
Theorem job_delete_outcome d h :
  let r := run (resourceJobDelete c) (mkState d h) in
  rd r.2 = d
  /\ List.filter isDeleteCall (calls r.2) = List.filter isDeleteCall h
  /\ match GetJob c h (Id d) with
     | Err err => r = (Returned [err], mkState d (h ++ [CallGetJob (Id d)]))
     | Ok job =>
         r.1 = Returned
                 match UpdateJob c (h ++ [CallGetJob (Id d)]) (Id d)
                         (Job.with_State STATE_DELETED job) with
                 | Ok _ => []
                 | Err err => [err]
                 end
     end.
Proof.
  cbv zeta. destruct (GetJob c h (Id d)) as [job|err] eqn:Hf.
  - rewrite (resourceJobDelete_fetched c d h job Hf). cbn [fst snd rd calls].
    split; [reflexivity|]. split; [|reflexivity].
    rewrite List.filter_app. cbn. apply app_nil_r.
  - rewrite (resourceJobDelete_fetch_error c d h err Hf). cbn [fst snd rd calls].
    split; [reflexivity|]. split; [|reflexivity].
    rewrite List.filter_app. cbn. apply app_nil_r.
Qed.

(** X14. A deleted job is still there for a Read: when the remote answers the
    fetch with the job as Delete sent it, the Read succeeds, keeps the
    identifier and writes [is_active] as false. *)
Theorem job_delete_then_read_inactive d h job answer :
  GetJob c h (Id d) = Ok job ->
  UpdateJob c (h ++ [CallGetJob (Id d)]) (Id d) (Job.with_State STATE_DELETED job)
  = Ok answer ->
  accepts TypeSet (jobConditionValue u job) = true ->
  let deleted := (run (resourceJobDelete c) (mkState d h)).2 in
  GetJob c (calls deleted) (Id d) = Ok (Job.with_State STATE_DELETED job) ->
  let r := run (resourceJobRead u c) deleted in
  r.1 = Returned []
  /\ Id (rd r.2) = Id d
  /\ written (rd r.2) !! "is_active" = Some (VBool false).
Proof.
  intros Hf Hu Hacc. cbv zeta. rewrite (resourceJobDelete_fetched c d h job Hf).
  cbn [snd calls]. intros Hback.
  destruct (resourceJobRead_fetched u c d _ (Job.with_State STATE_DELETED job) Hback Hacc)
    as (Hr & _ & Hid & Hw & _).
  split; [exact Hr|]. split; [exact Hid|].
  apply (Hw "is_active" (VBool false)).
  unfold jobRemoteAttributes. cbv zeta. cbn [In]. do 6 right. left. reflexivity.
Qed.

End JobDeleteExtras.

Lemma job_delete_then_read_inactive_witness :
  let client := keepingClient cronJob sampleConnection in
  let deleted := (run (resourceJobDelete client) (mkState renameJob [])).2 in
  let r := run (resourceJobRead sampleHelpers client) deleted in
  r.1 = Returned []
  /\ Id (rd r.2) = Id renameJob
  /\ written (rd r.2) !! "is_active" = Some (VBool false).
Proof.
  cbv zeta.
  apply (job_delete_then_read_inactive sampleHelpers
           (keepingClient cronJob sampleConnection) renameJob [] cronJob
           (Job.with_State STATE_DELETED cronJob)); reflexivity.
Defined.

(** ** Further properties of the identifier codec *)

(** X15. Two different pairs of integers have different composite identifiers:
    distinct entities never share an identifier. *)
Theorem encode_injective p e p' e' :
  (p, e) <> (p', e') -> CompositeID.encode p e <> CompositeID.encode p' e'.
Proof.
  intros Hne H. apply Hne.
  pose proof (decode_encode p e) as H1. rewrite H, decode_encode in H1.
  injection H1 as Hp He. apply Itoa_inj in Hp, He. congruence.
Qed.

Lemma encode_injective_witness : CompositeID.encode 42 7 <> CompositeID.encode 4 27.
Proof. apply (encode_injective 42 7 4 27). intros [=]. Defined.

(** X16. Decoding looks at the first two parts only: whatever follows a second
    delimiter is dropped, so an identifier with a tail decodes like the one
    without it. *)
Theorem decode_ignores_tail first second tail :
  Go.Contains first ID_DELIMITER = false ->
  Go.Contains second ID_DELIMITER = false ->
  CompositeID.decode (first ++ ID_DELIMITER ++ second ++ ID_DELIMITER ++ tail)
  = Done (first, second)
  /\ CompositeID.decode (first ++ ID_DELIMITER ++ second) = Done (first, second).
Proof.
  unfold ID_DELIMITER. rewrite !contains_colon. intros H1%negb_false_iff H2%negb_false_iff.
  split.
  - rewrite (decode_first first _ H1). unfold ID_DELIMITER.
    rewrite (Split_first second tail H2). reflexivity.
  - rewrite (decode_first first _ H1). unfold ID_DELIMITER.
    rewrite (Split_avoids second H2). reflexivity.
Qed.

Lemma decode_ignores_tail_witness :
  CompositeID.decode ("42" ++ ID_DELIMITER ++ "7" ++ ID_DELIMITER ++ "x:y") = Done ("42", "7")
  /\ CompositeID.decode ("42" ++ ID_DELIMITER ++ "7") = Done ("42", "7").
Proof. apply (decode_ignores_tail "42" "7" "x:y"); reflexivity. Defined.

(** ** Further properties of the connection *)

Lemma keepsId_bind {T S} (m : M T) (f : T -> M S) :
  keepsId m -> (forall a, keepsId (f a)) -> keepsId (m ≫= f).
Proof.
  intros Hm Hf st. unfold mbind, M_bind. specialize (Hm st).
  destruct (m st) as [[a|diags|msg] st'] eqn:E; simpl in *; [|done..].
  by rewrite (Hf a st').
Qed.

Lemma keepsId_set sch key v : keepsId (set sch key v).
Proof. intros st. unfold set, Set_. destruct (sch !! key); [|done]. by destruct (match v with VNil => true | _ => _ end). Qed.

Lemma keepsId_pure {T} (o : Outcome T) : keepsId (pure o).
Proof. done. Qed.

Lemma keepsId_mret {T} (a : T) : keepsId (mret a).
Proof. done. Qed.

Lemma keepsId_return {T} diags : keepsId (@return_ T diags).
Proof. done. Qed.

Lemma keepsId_getData : keepsId getData.
Proof. done. Qed.

Lemma keepsId_remote {T} cl (answer : list Call -> Result T) : keepsId (remote cl answer).
Proof. done. Qed.

Create HintDb keepsId.
#[local] Hint Resolve keepsId_set keepsId_pure keepsId_mret keepsId_return
  keepsId_getData keepsId_remote : keepsId.

Ltac keepsId_tac :=
  repeat first
    [ apply keepsId_bind; [|intros]
    | solve [auto with keepsId]
    | match goal with
      | |- keepsId (match ?x with _ => _ end) => destruct x
      | |- keepsId (let '(_, _) := ?x in _) => destruct x
      | |- keepsId (if ?x then _ else _) => destruct x
      end ].

Section ConnectionExtras.
Context (c : Client).

(** A Read of the connection never changes the identifier. *)
Lemma resourceConnectionRead_keepsId : keepsId (resourceConnectionRead c).
Proof. unfold resourceConnectionRead. keepsId_tac. Qed.

Lemma call_run (h : M Diagnostics) st :
  call h st = match run h st with
              | (Returned diags, st') => (Next diags, st')
              | (Crashed msg, st') => (Panic msg, st')
              end.
Proof. unfold call, run. by destruct (h st) as [[?|?|?] ?]. Qed.

(** Create up to the answer of the remote. *)
Lemma resourceConnectionCreate_called d h :
  resourceConnectionCreate c (mkState d h)
  = let st := mkState d (h ++ [CallCreateConnection (createConnectionArgs d)]) in
    match CreateConnection c h (createConnectionArgs d) with
    | Err err => (Return (FromErr err), st)
    | Ok connection =>
        match Connection.ID connection with
        | None => (Panic "invalid memory address or nil pointer dereference", st)
        | Some connectionID =>
            (call (resourceConnectionRead c) ≫= fun _ => return_ [])
              (mkState
                 (SetId (CompositeID.encode (Connection.ProjectID connection) connectionID) d)
                 (calls st))
        end
    end.
Proof.
  unfold resourceConnectionCreate. rewrite bind_getData. cbn [rd].
  typed_gets. cbn [must]. rewrite !bind_pure_next.
  cbv zeta. rewrite bind_remote. cbn [rd calls].
  fold (createConnectionArgs d).
  destruct (CreateConnection c h (createConnectionArgs d)) as [connection|err];
    [|reflexivity].
  destruct (Connection.ID connection) as [connectionID|]; cbn [deref must].
  - rewrite bind_pure_next, bind_setId. reflexivity.
  - rewrite bind_pure_panic. reflexivity.
Qed.

End ConnectionExtras.

Section ConnectionCreate.
Context (c : Client).

(** X17. When the remote creates the connection, Create stores the composite
    identifier of the project and of the connection that the remote
    answered, and reads the connection back under the decimal renderings of
    the two. The outcome of that Read is dropped: Create reports no error,
    also when the fetch of the Read fails. *)
Theorem connection_create_success d h connection connectionID :
  CreateConnection c h (createConnectionArgs d) = Ok connection ->
  Connection.ID connection = Some connectionID ->
  let r := run (resourceConnectionCreate c) (mkState d h) in
  let projectID := Connection.ProjectID connection in
  let created := (h ++ [CallCreateConnection (createConnectionArgs d)])%list in
  Id (rd r.2) = CompositeID.encode projectID connectionID
  /\ calls r.2
     = (created ++ [CallGetConnection (Go.Itoa connectionID) (Go.Itoa projectID)])%list
  /\ (r.1 = Returned [] \/ exists msg, r.1 = Crashed msg)
  /\ (forall err,
        GetConnection c created (Go.Itoa connectionID) (Go.Itoa projectID) = Err err ->
        r.1 = Returned []).
Proof.
  intros Hc Hid. cbv zeta. unfold run.
  rewrite resourceConnectionCreate_called. cbv zeta. rewrite Hc, Hid. cbn [calls].
  set (d1 := SetId _ d).
  set (h1 := (h ++ [CallCreateConnection (createConnectionArgs d)])%list).
  assert (CompositeID.decode (Id (rd (mkState d1 h1)))
          = Done (Go.Itoa (Connection.ProjectID connection), Go.Itoa connectionID)) as Hd
    by apply decode_encode.
  pose proof (resourceConnectionRead_calls c (mkState d1 h1) _ _ Hd) as Hcalls.
  pose proof (resourceConnectionRead_keepsId c (mkState d1 h1)) as Hkeep.
  unfold mbind, M_bind. rewrite call_run.
  pose proof (run_state (resourceConnectionRead c) (mkState d1 h1)) as Hst.
  assert (forall err,
             GetConnection c h1 (Go.Itoa connectionID)
               (Go.Itoa (Connection.ProjectID connection)) = Err err ->
             (run (resourceConnectionRead c) (mkState d1 h1)).1 = Returned [err]) as Hfail.
  { intros err He.
    rewrite (resourceConnectionRead_fetch_error c d1 h1 _ _ err Hd He). reflexivity. }
  destruct (run (resourceConnectionRead c) (mkState d1 h1)) as [[diags|msg] st'].
  - cbn [fst snd return_] in *. subst st'.
    split; [exact Hkeep|]. split; [exact Hcalls|]. split; [left; reflexivity|].
    intros; reflexivity.
  - cbn [fst snd] in *. subst st'.
    split; [exact Hkeep|]. split; [exact Hcalls|]. split; [right; by eexists|].
    intros err He. specialize (Hfail err He). discriminate Hfail.
Qed.

(** X18. When the remote refuses to create the connection, Create returns the
    error and stops: the identifier stays as it was and no Read follows. A
    created connection without identifier makes Create panic. *)
Theorem connection_create_failure d h :
  let created := (h ++ [CallCreateConnection (createConnectionArgs d)])%list in
  (forall err,
      CreateConnection c h (createConnectionArgs d) = Err err ->
      run (resourceConnectionCreate c) (mkState d h)
      = (Returned [err], mkState d created))
  /\ (forall connection,
      CreateConnection c h (createConnectionArgs d) = Ok connection ->
      Connection.ID connection = None ->
      run (resourceConnectionCreate c) (mkState d h)
      = (Crashed "invalid memory address or nil pointer dereference",
         mkState d created)).
Proof.
  cbv zeta. split.
  - intros err He. unfold run. rewrite resourceConnectionCreate_called. cbv zeta.
    rewrite He. reflexivity.
  - intros connection Hc Hid. unfold run. rewrite resourceConnectionCreate_called.
    cbv zeta. rewrite Hc, Hid. reflexivity.
Qed.

End ConnectionCreate.

Lemma connection_create_success_witness :
  let client := steadyClient cronJob sampleConnection in
  let r := run (resourceConnectionCreate client) (mkState newConnection []) in
  let created := ([] ++ [CallCreateConnection (createConnectionArgs newConnection)])%list in
  Id (rd r.2) = CompositeID.encode 42 7
  /\ calls r.2 = (created ++ [CallGetConnection (Go.Itoa 7) (Go.Itoa 42)])%list
  /\ (r.1 = Returned [] \/ exists msg, r.1 = Crashed msg)
  /\ (forall err,
        GetConnection client created (Go.Itoa 7) (Go.Itoa 42) = Err err ->
        r.1 = Returned []).
Proof.
  cbv zeta.
  apply (connection_create_success (steadyClient cronJob sampleConnection)
           newConnection [] sampleConnection 7); reflexivity.
Defined.

Lemma connection_create_failure_witness :
  run (resourceConnectionCreate goneClient) (mkState newConnection [])
  = (Returned ["the project does not exist"],
     mkState newConnection
       ([] ++ [CallCreateConnection (createConnectionArgs newConnection)])).
Proof.
  apply (proj1 (connection_create_failure goneClient newConnection [])).
  reflexivity.
Defined.

Section ConnectionUpdateExtras.
Context (c : Client).


(** X19. The guard of the connection Update leaves out [host_name] and [port],
    which the assignments after it handle, and the attributes that Update
    has no assignment for. A change of one of these alone is never sent:
    Update does what a Read does. *)
Theorem connection_update_outside_guard d h key :
  In key connectionUnguardedKeys ->
  changedKeys connectionSchema d = [key] ->
  run (resourceConnectionUpdate c) (mkState d h)
  = run (resourceConnectionRead c) (mkState d h)
  /\ List.filter isUpdateCall (calls (run (resourceConnectionUpdate c) (mkState d h)).2)
     = List.filter isUpdateCall h.
Proof.
  intros Hin H.
  assert (connectionUpdateGuard d = false) as Hg.
  { unfold connectionUnguardedKeys in Hin. cbn [In] in Hin.
    repeat match goal with Hx : _ \/ _ |- _ => destruct Hx as [Hx|Hx] end;
      [..|destruct Hin]; subst key.
    all: unfold connectionUpdateGuard; only_change H; reflexivity. }
  rewrite (resourceConnectionUpdate_unguarded c (mkState d h) Hg). split; [reflexivity|].
  rewrite run_calls.
  destruct (CompositeID.decode (Id d)) as [[p e]|msg] eqn:Hd.
  - rewrite (resourceConnectionRead_calls c (mkState d h) p e Hd). cbn [calls].
    rewrite List.filter_app. cbn. apply app_nil_r.
  - unfold resourceConnectionRead. rewrite bind_getData. cbn [rd]. rewrite Hd.
    cbn [must]. rewrite bind_pure_panic. reflexivity.
Qed.

(** X20. When the type and the database of a connection change together, the
    type is assigned first: the new database goes to the field that the new
    type reads ([Database] for snowflake, [DBName] otherwise), and the other
    field keeps its fetched value. *)
Theorem connection_update_type_then_database d h projectId connectionId connection :
  changedKeys connectionSchema d = ["type"; "database"] ->
  CompositeID.decode (Id d) = Done (projectId, connectionId) ->
  GetConnection c h connectionId projectId = Ok connection ->
  let type := GetString connectionSchema d "type" in
  let database := GetString connectionSchema d "database" in
  let retyped := Connection.with_Type_ type connection in
  let payload :=
    if String.eqb type "snowflake"
    then withDetails (ConnectionDetails.with_Database database) retyped
    else withDetails (ConnectionDetails.with_DBName database) retyped in
  exists rest,
    calls (run (resourceConnectionUpdate c) (mkState d h)).2
    = (h ++ CallGetConnection connectionId projectId
         :: CallUpdateConnection connectionId projectId payload :: rest)%list
    /\ List.filter isUpdateCall rest = [].
Proof.
  intros H Hd Hf. cbv zeta.
  apply (resourceConnectionUpdate_calls c d h _ _ connection _ Hd); [|exact Hf|].
  - unfold connectionUpdateGuard; changes H; reflexivity.
  - unfold applyConnectionChanges; changes H; typed_gets; run_pure.
    all: cbn [Connection.Type_ Connection.with_Type_].
    all: destruct (String.eqb (GetString connectionSchema d "type") "snowflake");
      reflexivity.
Qed.


(** X21. In every run of a connection Update at most one update call is made, it
    is addressed to the connection of the identifier, and its payload has
    the identifier, the state and the project of the fetched connection: a
    change of [is_active] or [project_id] cannot reach the remote. *)
Theorem connection_update_keeps_identity d h projectId connectionId :
  CompositeID.decode (Id d) = Done (projectId, connectionId) ->
  exists new,
    calls (run (resourceConnectionUpdate c) (mkState d h)).2 = (h ++ new)%list
    /\ (length (List.filter isUpdateCall new) <= 1)%nat
    /\ forall call,
         In call new -> isUpdateCall call = true ->
         exists payload,
           call = CallUpdateConnection connectionId projectId payload
           /\ forall connection,
                GetConnection c h connectionId projectId = Ok connection ->
                Connection.ID payload = Connection.ID connection
                /\ Connection.State payload = Connection.State connection
                /\ Connection.ProjectID payload = Connection.ProjectID connection.
Proof.
  intros Hd.
  destruct (connectionUpdateGuard d) eqn:Hg.
  2:{ exists [CallGetConnection connectionId projectId].
      rewrite (resourceConnectionUpdate_unguarded c (mkState d h) Hg).
      rewrite run_calls, (resourceConnectionRead_calls c (mkState d h) _ _ Hd).
      split; [reflexivity|]. split; [cbn; lia|]. intros call [<-|[]] Hu. discriminate Hu. }
  destruct (GetConnection c h connectionId projectId) as [connection|err] eqn:Hf.
  - destruct (applyConnectionChanges_total d connection)
      as (payload & Ha & Hid & Hst & Hpr & _).
    destruct (resourceConnectionUpdate_calls c d h _ _ connection payload Hd Hg Hf Ha)
      as (rest & Hc & Hr).
    exists (CallGetConnection connectionId projectId
              :: CallUpdateConnection connectionId projectId payload :: rest).
    split; [exact Hc|]. split.
    + cbn [List.filter isUpdateCall]. rewrite Hr. cbn. lia.
    + intros call [<-|[<-|Hin]] Hu.
      * discriminate Hu.
      * exists payload. split; [reflexivity|]. intros connection' [= <-].
        repeat split; assumption.
      * destruct (no_update_in rest call Hr Hin Hu).
  - exists [CallGetConnection connectionId projectId].
    split; [|split; [cbn; lia|intros call [<-|[]] Hu; discriminate Hu]].
    rewrite run_calls. unfold resourceConnectionUpdate. rewrite bind_getData. cbn [rd].
    rewrite Hd. cbn [must]. rewrite bind_pure_next, Hg.
    unfold mbind at 1, M_bind at 1. rewrite bind_remote. cbn [rd calls]. rewrite Hf.
    reflexivity.
Qed.

(** X22. A Read of a connection whose adapter details lack a string under
    [http_path], [catalog] or [host] panics on the type assertion, after
    the fetch. *)
Theorem connection_read_adapter_panics d h projectId connectionId connection :
  CompositeID.decode (Id d) = Done (projectId, connectionId) ->
  GetConnection c h connectionId projectId = Ok connection ->
  adapterReadable connection = false ->
  let r := run (resourceConnectionRead c) (mkState d h) in
  r.1 = Crashed "interface conversion: not a string"
  /\ calls r.2 = (h ++ [CallGetConnection connectionId projectId])%list.
Proof.
  intros Hd Hf Ha. cbv zeta. split.
  2:{ rewrite run_calls. apply (resourceConnectionRead_calls c (mkState d h) _ _ Hd). }
  unfold run, resourceConnectionRead.
  rewrite bind_getData. cbn [rd]. rewrite Hd. cbn [must].
  rewrite bind_pure_next, bind_remote. cbn [rd calls]. rewrite Hf.
  rewrite !asString_Get by reflexivity. cbn [must]. rewrite bind_pure_next.
  cbv zeta. rewrite bind_pure_next.
  do 15 run_set.
  set (details := Connection.Details _).
  assert (ConnectionDetails.AdapterDetails details
          = ConnectionDetails.AdapterDetails (Connection.Details connection)) as Had
    by reflexivity.
  unfold adapterReadable in Ha. rewrite <- Had in Ha.
  destruct (ConnectionDetails.AdapterDetails details) as [a|]; [|discriminate Ha].
  unfold adapterField, mbind at 1, M_bind at 1.
  destruct (default SNil (AdapterDetails.Fields a !! "http_path")) as [| | |s1];
    try reflexivity.
  cbn [scalarAsString must]. rewrite bind_pure_next.
  destruct (default SNil (AdapterDetails.Fields a !! "catalog")) as [| | |s2];
    try reflexivity.
  cbn [scalarAsString must]. rewrite bind_pure_next.
  destruct (default SNil (AdapterDetails.Fields a !! "host")) as [| | |s3];
    try reflexivity.
  discriminate Ha.
Qed.

End ConnectionUpdateExtras.

Section ConnectionUpdateFailure.
Context (c : Client).

(** X23. A connection Update whose fetch or update call is refused returns the
    error of the remote, makes no further call, and leaves the state record
    as it was: the final Read is not reached. *)
Theorem connection_update_remote_failure d h projectId connectionId :
  CompositeID.decode (Id d) = Done (projectId, connectionId) ->
  connectionUpdateGuard d = true ->
  (forall err,
      GetConnection c h connectionId projectId = Err err ->
      run (resourceConnectionUpdate c) (mkState d h)
      = (Returned [err], mkState d (h ++ [CallGetConnection connectionId projectId])))
  /\ (forall connection payload err,
      GetConnection c h connectionId projectId = Ok connection ->
      applyConnectionChanges d connection = Next payload ->
      UpdateConnection c (h ++ [CallGetConnection connectionId projectId])
        connectionId projectId payload = Err err ->
      run (resourceConnectionUpdate c) (mkState d h)
      = (Returned [err],
         mkState d (h ++ [CallGetConnection connectionId projectId;
                          CallUpdateConnection connectionId projectId payload]))).
Proof.
  intros Hd Hg. split.
  - intros err Hf. unfold run, resourceConnectionUpdate.
    rewrite bind_getData. cbn [rd]. rewrite Hd. cbn [must]. rewrite bind_pure_next, Hg.
    unfold mbind at 1, M_bind at 1. rewrite bind_remote. cbn [rd calls]. rewrite Hf.
    reflexivity.
  - intros connection payload err Hf Ha Hu. unfold run, resourceConnectionUpdate.
    rewrite bind_getData. cbn [rd]. rewrite Hd. cbn [must]. rewrite bind_pure_next, Hg.
    unfold mbind at 1, M_bind at 1. rewrite bind_remote. cbn [rd calls].
    rewrite Hf, Ha, bind_pure_next, bind_remote. cbn [rd calls]. rewrite Hu.
    cbn. rewrite <- List.app_assoc. reflexivity.
Qed.

(** The run of an Update whose two calls succeed. *)
Lemma resourceConnectionUpdate_updated d h p e connection payload answer :
  CompositeID.decode (Id d) = Done (p, e) ->
  connectionUpdateGuard d = true ->
  GetConnection c h e p = Ok connection ->
  applyConnectionChanges d connection = Next payload ->
  UpdateConnection c (h ++ [CallGetConnection e p]) e p payload = Ok answer ->
  run (resourceConnectionUpdate c) (mkState d h)
  = run (resourceConnectionRead c)
      (mkState d (h ++ [CallGetConnection e p; CallUpdateConnection e p payload])).
Proof.
  intros Hd Hg Hf Ha Hu. unfold run at 1, resourceConnectionUpdate.
  rewrite bind_getData. cbn [rd]. rewrite Hd. cbn [must]. rewrite bind_pure_next, Hg.
  unfold mbind at 1, M_bind at 1. rewrite bind_remote. cbn [rd calls].
  rewrite Hf, Ha, bind_pure_next, bind_remote. cbn [rd calls]. rewrite Hu.
  unfold mret, M_ret, call. rewrite <- List.app_assoc. cbn [app].
  unfold run.
  destruct (resourceConnectionRead c _) as [[?|?|?] ?]; reflexivity.
Qed.

(** X24. When the update call of a connection Update succeeds, the connection it
    returns is dropped: Update returns what a Read returns that starts after
    the two calls, which fetches the connection again. *)
Theorem connection_update_then_read d h projectId connectionId connection payload answer :
  CompositeID.decode (Id d) = Done (projectId, connectionId) ->
  connectionUpdateGuard d = true ->
  GetConnection c h connectionId projectId = Ok connection ->
  applyConnectionChanges d connection = Next payload ->
  UpdateConnection c (h ++ [CallGetConnection connectionId projectId])
    connectionId projectId payload = Ok answer ->
  run (resourceConnectionUpdate c) (mkState d h)
  = run (resourceConnectionRead c)
      (mkState d (h ++ [CallGetConnection connectionId projectId;
                        CallUpdateConnection connectionId projectId payload])).
Proof.
  exact (resourceConnectionUpdate_updated d h projectId connectionId connection payload
           answer).
Qed.

End ConnectionUpdateFailure.

Lemma connection_update_outside_guard_witness :
  let client := steadyClient cronJob sampleConnection in
  run (resourceConnectionUpdate client) (mkState rehostConnection [])
  = run (resourceConnectionRead client) (mkState rehostConnection [])
  /\ List.filter isUpdateCall
       (calls (run (resourceConnectionUpdate client) (mkState rehostConnection [])).2)
     = List.filter isUpdateCall [].
Proof.
  cbv zeta.
  apply (connection_update_outside_guard (steadyClient cronJob sampleConnection)
           rehostConnection [] "host_name").
  - cbn. tauto.
  - vm_compute. reflexivity.
Defined.

Lemma connection_update_type_then_database_witness :
  exists rest,
    calls (run (resourceConnectionUpdate (steadyClient cronJob sampleConnection))
             (mkState retypeConnection [])).2
    = ([] ++ CallGetConnection "7" "42"
         :: CallUpdateConnection "7" "42"
              (withDetails (ConnectionDetails.with_DBName "reporting")
                 (Connection.with_Type_ "postgres" sampleConnection)) :: rest)%list
    /\ List.filter isUpdateCall rest = [].
Proof.
  apply (connection_update_type_then_database (steadyClient cronJob sampleConnection)
           retypeConnection [] "42" "7" sampleConnection).
  - vm_compute. reflexivity.
  - reflexivity.
  - reflexivity.
Defined.

Lemma connection_update_keeps_identity_witness :
  exists new,
    calls (run (resourceConnectionUpdate (steadyClient cronJob sampleConnection))
             (mkState retypeConnection [])).2 = ([] ++ new)%list
    /\ (length (List.filter isUpdateCall new) <= 1)%nat
    /\ forall call,
         In call new -> isUpdateCall call = true ->
         exists payload,
           call = CallUpdateConnection "7" "42" payload
           /\ forall connection,
                GetConnection (steadyClient cronJob sampleConnection) [] "7" "42"
                = Ok connection ->
                Connection.ID payload = Connection.ID connection
                /\ Connection.State payload = Connection.State connection
                /\ Connection.ProjectID payload = Connection.ProjectID connection.
Proof.
  apply (connection_update_keeps_identity (steadyClient cronJob sampleConnection)
           retypeConnection [] "42" "7").
  reflexivity.
Defined.

Lemma connection_read_adapter_panics_witness :
  let r := run (resourceConnectionRead (steadyClient cronJob adapterConnection))
             (mkState renameConnection []) in
  r.1 = Crashed "interface conversion: not a string"
  /\ calls r.2 = ([] ++ [CallGetConnection "7" "42"])%list.
Proof.
  cbv zeta.
  apply (connection_read_adapter_panics (steadyClient cronJob adapterConnection)
           renameConnection [] "42" "7" adapterConnection).
  - reflexivity.
  - reflexivity.
  - vm_compute. reflexivity.
Defined.

Lemma connection_update_remote_failure_witness :
  run (resourceConnectionUpdate (readOnlyClient sampleConnection))
    (mkState renameConnection [])
  = (Returned ["the connection cannot be changed"],
     mkState renameConnection
       ([] ++ [CallGetConnection "7" "42";
               CallUpdateConnection "7" "42"
                 (Connection.with_Name (GetString connectionSchema renameConnection "name")
                    sampleConnection)])).
Proof.
  apply (proj2 (connection_update_remote_failure (readOnlyClient sampleConnection)
                  renameConnection [] "42" "7" ltac:(reflexivity)
                  ltac:(vm_compute; reflexivity)) sampleConnection).
  - reflexivity.
  - vm_compute. reflexivity.
  - reflexivity.
Defined.

Lemma connection_update_then_read_witness :
  run (resourceConnectionUpdate (steadyClient cronJob sampleConnection))
    (mkState renameConnection [])
  = run (resourceConnectionRead (steadyClient cronJob sampleConnection))
      (mkState renameConnection
         ([] ++ [CallGetConnection "7" "42";
                 CallUpdateConnection "7" "42"
                   (Connection.with_Name
                      (GetString connectionSchema renameConnection "name")
                      sampleConnection)])).
Proof.
  apply (connection_update_then_read (steadyClient cronJob sampleConnection)
           renameConnection [] "42" "7" sampleConnection _
           (Connection.with_Name (GetString connectionSchema renameConnection "name")
              sampleConnection)).
  - reflexivity.
  - vm_compute. reflexivity.
  - reflexivity.
  - vm_compute. reflexivity.
  - reflexivity.
Defined.

Lemma coerce_Get sch d key ty :
  sch !! key = Some ty -> coerce ty (Some (Get sch d key)) = Get sch d key.
Proof.
  intros H. apply (Get_hasType sch d) in H. unfold coerce. rewrite H. reflexivity.
Qed.

Section ConnectionConverges.
Context (c : Client).

(** X25. Against a remote that accepts the update call and answers the next
    fetch with what it was sent, a connection Update of one of the
    attributes that map to a single field ends without error and leaves the
    attribute at its planned value. For [database] this holds for every
    type of the connection: Update writes the field that Read reads. *)
Theorem connection_update_converges d h projectId connectionId connection key :
  In key (map fst connectionSingleField) ->
  changedKeys connectionSchema d = [key] ->
  CompositeID.decode (Id d) = Done (projectId, connectionId) ->
  GetConnection c h connectionId projectId = Ok connection ->
  adapterReadable connection = true ->
  (forall payload,
      exists answer,
        UpdateConnection c (h ++ [CallGetConnection connectionId projectId])
          connectionId projectId payload = Ok answer) ->
  (forall payload,
      GetConnection c
        (h ++ [CallGetConnection connectionId projectId;
               CallUpdateConnection connectionId projectId payload])
        connectionId projectId
      = Ok payload) ->
  let r := run (resourceConnectionUpdate c) (mkState d h) in
  r.1 = Returned []
  /\ Get connectionSchema (rd r.2) key = Get connectionSchema d key.
Proof.
  intros Hin Hch Hd Hf Hread Hup Hkeep. cbv zeta.
  apply in_map_iff in Hin as ([key' assign] & Hk & Hin). cbn [fst] in Hk. subst key'.
  destruct (connectionSingleField_applied d connection key assign Hin Hch) as [Hg Ha].
  destruct (Hup (assign d connection)) as [answer Hu].
  rewrite (resourceConnectionUpdate_updated c d h _ _ connection _ answer Hd Hg Hf Ha Hu).
  assert (adapterReadable (assign d connection) = true
          /\ exists ty v,
               connectionSchema !! key = Some ty
               /\ (In (key, v) (remoteAttributes (assign d connection))
                   \/ (v = Get connectionSchema d key
                       /\ (key = "oauth_client_id" \/ key = "oauth_client_secret")))
               /\ coerce ty (Some v) = Get connectionSchema d key)
    as (Hread' & ty & v & Hty & Hv & Hget).
  { clear Hg Ha Hu Hch. unfold connectionSingleField in Hin. cbn [In] in Hin.
    repeat match goal with Hx : _ \/ _ |- _ => destruct Hx as [Hx|Hx] end;
      [..|destruct Hin].
    all: apply pair_equal_spec in Hin as [<- <-].
    all: try destruct (String.eqb (Connection.Type_ connection) "snowflake") eqn:Hs.
    all: (split; [exact Hread|]).
    all: eexists; eexists; split; [reflexivity|].
    all: first
      [ split;
        [ left; unfold remoteAttributes; cbv zeta; cbn [In];
          repeat (first [left; reflexivity | right])
        | cbn -[Get GetString GetInt GetBool connectionSchema coerce];
          cbn [coerce hasType optValue];
          rewrite ?Hs;
          first [ apply Get_VStr | apply Get_VBool ]; reflexivity ]
      | split;
        [ right; split; [reflexivity|]; first [left; reflexivity | right; reflexivity]
        | apply coerce_Get; reflexivity ] ]. }
  destruct (resourceConnectionRead_fetched c d _ _ _ (assign d connection) Hd
              (Hkeep _) Hread') as (Hr & _ & _ & Ho1 & Ho2 & Hw).
  split; [exact Hr|].
  apply (Get_after_write connectionSchema d _ key ty v Hty); [|exact Hget].
  destruct Hv as [Hv|[-> [->| ->]]]; [exact (Hw key v Hv)|exact Ho1|exact Ho2].
Qed.

End ConnectionConverges.

Lemma connection_update_converges_witness :
  let r := run (resourceConnectionUpdate (keepingClient cronJob sampleConnection))
             (mkState renameConnection []) in
  r.1 = Returned []
  /\ Get connectionSchema (rd r.2) "name" = Get connectionSchema renameConnection "name".
Proof.
  apply (connection_update_converges (keepingClient cronJob sampleConnection)
           renameConnection [] "42" "7" sampleConnection "name").
  - left. reflexivity.
  - vm_compute. reflexivity.
  - reflexivity.
  - reflexivity.
  - reflexivity.
  - intros payload. exists payload. reflexivity.
  - intros payload. reflexivity.
Defined.
